(** * Threat Intelligence Manager: a shallow embedding and its properties

    The development follows the Python sources of the threat-intelligence
    agent:

      - [scrapers/*.py]            the four feed sources,
      - [processors/ai_processor.py] the AI enricher and its fallbacks,
      - [threat_manager.py]        the manager, its cache and its queries,

    and the endpoints of [service-desk-host/main.py] that serve them.

    Python values are embedded as follows.  A [str] is a [string] (its UTF-8
    bytes; the case and white-space functions below act on the ASCII range,
    which is what the feeds, the keyword tables and the fallback data use;
    the decimal digits of a pattern are those of Unicode, see [Unicode]).
    A threat dictionary is a record of optional fields: a field that is
    [None] here is a key that is absent from the dictionary, and
    [threat.get(k, d)] is [get (k t) d].  A method that mutates [self] or
    talks to the outside world is a function in the state-and-exception monad
    [M]; [try ... except Exception] is [try_except].  Calls to [logger] have
    no effect on any value and are left out. *)

From Stdlib Require Import List ZArith Lia Bool String Ascii Arith.
From Stdlib Require Import Permutation Sorting.Sorted OrderedTypeEx.
Import ListNotations.
Local Open Scope string_scope.
Local Open Scope list_scope.
Local Open Scope nat_scope.

Set Implicit Arguments.

(* ================================================================= *)
(** ** Python built-ins used by the sources *)

Module Py.

(** [l[:limit]]: a negative bound counts from the end of the list. *)
Definition slice_to {A : Type} (limit : Z) (l : list A) : list A :=
  if (limit <? 0)%Z
  then firstn (List.length l - Z.to_nat (- limit)) l
  else firstn (Z.to_nat limit) l.

(** [l[-1]] on a list of strings that is known to be non-empty. *)
Definition last_item (l : list string) : string := last l EmptyString.

Definition is_upper (c : ascii) : bool :=
  let n := nat_of_ascii c in (65 <=? n) && (n <=? 90).

Definition lower_char (c : ascii) : ascii :=
  if is_upper c then ascii_of_nat (nat_of_ascii c + 32) else c.

(** [s.lower()] *)
Fixpoint lower (s : string) : string :=
  match s with
  | EmptyString => EmptyString
  | String c s' => String (lower_char c) (lower s')
  end.

(** [q in s] for two strings: [q] occurs in [s] as a contiguous block. *)
Fixpoint str_in (q s : string) : bool :=
  String.prefix q s ||
  match s with
  | EmptyString => false
  | String _ s' => str_in q s'
  end.

(** [x in l] for a list of strings. *)
Definition list_in (x : string) (l : list string) : bool :=
  existsb (String.eqb x) l.

(** [any(word in text for word in words)] *)
Definition any_in (words : list string) (text : string) : bool :=
  existsb (fun word => str_in word text) words.

(** White space as [str.strip()] sees it in the ASCII range. *)
Definition is_space (c : ascii) : bool :=
  let n := nat_of_ascii c in
  ((9 <=? n) && (n <=? 13)) || ((28 <=? n) && (n <=? 32)).

Definition is_digit (c : ascii) : bool :=
  let n := nat_of_ascii c in (48 <=? n) && (n <=? 57).

(** Every character of [s] is an ASCII character. *)
Fixpoint is_ascii (s : string) : bool :=
  match s with
  | EmptyString => true
  | String c s' => (nat_of_ascii c <? 128) && is_ascii s'
  end.

Fixpoint drop_while (p : ascii -> bool) (l : list ascii) : list ascii :=
  match l with
  | [] => []
  | c :: l' => if p c then drop_while p l' else l
  end.

(** [s.strip()] *)
Definition strip (s : string) : string :=
  string_of_list_ascii
    (rev (drop_while is_space
            (rev (drop_while is_space (list_ascii_of_string s))))).

(** [s.split(sep)] for a one-character separator: never the empty list. *)
Fixpoint split (sep : ascii) (s : string) : list string :=
  match s with
  | EmptyString => [EmptyString]
  | String c s' =>
      if Ascii.eqb c sep then EmptyString :: split sep s'
      else match split sep s' with
           | piece :: pieces => String c piece :: pieces
           | [] => [String c EmptyString]
           end
  end.

(** [sep.join(l)] *)
Definition join (sep : string) (l : list string) : string := String.concat sep l.

(** [bool(s)] for a string and [bool(l)] for a list. *)
Definition truthy (s : string) : bool :=
  match s with EmptyString => false | _ => true end.

Definition nonempty {A : Type} (l : list A) : bool :=
  match l with [] => false | _ => true end.

Definition newline : ascii := ascii_of_nat 10.
Definition slash : ascii := ascii_of_nat 47.

(** The bullet character U+2022 as its three UTF-8 bytes. *)
Definition bullet : string :=
  String (ascii_of_nat 226) (String (ascii_of_nat 128)
    (String (ascii_of_nat 162) EmptyString)).

(** [s[n:]] counted in bytes. *)
Fixpoint drop (n : nat) (s : string) : string :=
  match n, s with
  | O, _ => s
  | S n', String _ s' => drop n' s'
  | S _, EmptyString => EmptyString
  end.

(** [s.replace(old, new)] for a one-character [old]. *)
Fixpoint replace (old : ascii) (new : string) (s : string) : string :=
  match s with
  | EmptyString => EmptyString
  | String c s' =>
      if Ascii.eqb c old then (new ++ replace old new s')%string
      else String c (replace old new s')
  end.

(** A dictionary with string keys, in insertion order.  [k in d]: *)
Fixpoint dict_has {V : Type} (d : list (string * V)) (k : string) : bool :=
  match d with
  | [] => false
  | (k', _) :: rest => String.eqb k' k || dict_has rest k
  end.

(** [d.get(k, default)] *)
Fixpoint dict_get {V : Type} (d : list (string * V)) (k : string)
    (default : V) : V :=
  match d with
  | [] => default
  | (k', v) :: rest => if String.eqb k' k then v else dict_get rest k default
  end.

(** [d[k] = v]: a key that is there keeps its place, a new one goes last. *)
Fixpoint dict_set {V : Type} (d : list (string * V)) (k : string) (v : V)
    : list (string * V) :=
  match d with
  | [] => [(k, v)]
  | (k', v') :: rest =>
      if String.eqb k' k then (k', v) :: rest
      else (k', v') :: dict_set rest k v
  end.

End Py.

(* ================================================================= *)
(** ** Data model *)

(** A threat dictionary.  The first nine keys are written by the scrapers,
    the last four by [AIThreatProcessor.enrich_threat]. *)
Record threat : Type := mk_threat {
  feed_id          : option string;
  source           : option string;
  source_url       : option string;
  title            : option string;
  severity         : option string;
  published_date   : option string;
  fetched_date     : option string;
  full_content     : option string;
  tags             : option (list string);
  quick_summary    : option string;
  iocs             : option (list string);
  affected_systems : option (list string);
  recommendations  : option (list string)
}.

(** The annotation the sources give a threat: [Dict]. *)
Definition Dict : Type := threat.

(** [d.get(k, default)] *)
Definition get {A : Type} (field : option A) (default : A) : A :=
  match field with
  | Some v => v
  | None => default
  end.

(** The dictionary literal a scraper builds: the nine raw keys, no
    enrichment key. *)
Definition raw_threat (fid src url ttl sev pub fetched content : string)
    (tgs : list string) : threat :=
  {| feed_id := Some fid; source := Some src; source_url := Some url;
     title := Some ttl; severity := Some sev; published_date := Some pub;
     fetched_date := Some fetched; full_content := Some content;
     tags := Some tgs;
     quick_summary := None; iocs := None; affected_systems := None;
     recommendations := None |}.

(** The four severities a scraper assigns. *)
Definition severity_levels : list string :=
  ["critical"; "high"; "medium"; "low"].

(** A threat as the scraper registered under [name] builds it: the nine raw
    keys are there, the source is [name], the severity is one of the four
    levels, and there are at most five tags. *)
Definition well_formed (name : string) (t : threat) : Prop :=
  source t = Some name
  /\ (exists fid, feed_id t = Some fid)
  /\ (exists url, source_url t = Some url)
  /\ (exists ttl, title t = Some ttl)
  /\ (exists sev, severity t = Some sev /\ In sev severity_levels)
  /\ (exists pub, published_date t = Some pub)
  /\ (exists fetched, fetched_date t = Some fetched)
  /\ (exists content, full_content t = Some content)
  /\ (exists tgs, tags t = Some tgs /\ List.length tgs <= 5).

(** One entry of a parsed RSS feed, as far as the scrapers read it. *)
Record entry : Type := mk_entry {
  e_id        : option string;
  e_link      : option string;
  e_title     : option string;
  e_published : option string;
  e_summary   : option string
}.

(* ================================================================= *)
(** ** Exceptions and state *)

Inductive exn : Type := Exception (msg : string).

Inductive outcome (A : Type) : Type :=
| Returns (a : A)
| Raises (e : exn).

Arguments Returns {A} a.
Arguments Raises {A} e.

(** A computation over a state [S]: it returns or raises, and in both cases
    leaves a state behind (what was written before a [raise] stays
    written). *)
Definition M (S A : Type) : Type := S -> outcome A * S.

Definition ret {S A : Type} (a : A) : M S A := fun s => (Returns a, s).

Definition raise {S A : Type} (e : exn) : M S A := fun s => (Raises e, s).

Definition bind {S A B : Type} (m : M S A) (k : A -> M S B) : M S B :=
  fun s =>
    match m s with
    | (Returns a, s') => k a s'
    | (Raises e, s') => (Raises e, s')
    end.

(** [try: body  except Exception as e: handler] *)
Definition try_except {S A : Type} (body : M S A) (handler : exn -> M S A)
    : M S A :=
  fun s =>
    match body s with
    | (Returns a, s') => (Returns a, s')
    | (Raises e, s') => handler e s'
    end.

Declare Scope py_scope.
Delimit Scope py_scope with py.
Notation "x <- m ;; k" := (bind m (fun x => k))
  (at level 61, m at next level, right associativity) : py_scope.
Notation "m ;;; k" := (bind m (fun _ => k))
  (at level 61, right associativity) : py_scope.
Local Open Scope py_scope.

(** A computation never raises when every run of it returns. *)
Definition never_raises {S A : Type} (m : M S A) : Prop :=
  forall s, exists a, fst (m s) = Returns a.

(** [for x in xs: body] with the loop's local variables threaded as [acc]. *)
Fixpoint for_each {S A B : Type} (xs : list A) (body : A -> B -> M S B)
    (acc : B) : M S B :=
  match xs with
  | [] => ret acc
  | x :: rest => acc' <- body x acc ;; for_each rest body acc'
  end.

(* ================================================================= *)
(** ** The outside world *)

(** The four requests [AIThreatProcessor] sends to the chat model. *)
Inductive ai_request : Type :=
| Summary
| Iocs
| AffectedSystems
| Recommendations.

(** What the sources call outside the repository.  The clock cannot fail; the
    network calls may raise.  [chat_completion request threat] stands for
    [client.chat.completions.create(...)] followed by
    [response.choices[0].message.content]: the prompt is built from the request
    and from fields of the threat, so the answer may depend on both. *)
Class Env (W : Type) : Type := {
  clock : W -> Z * W;
  clock_isoformat : W -> string * W;
  feedparser_parse : string -> M W (list entry);
  requests_get : string -> M W unit;
  chat_completion : ai_request -> threat -> M W string
}.

(** [list(set(l))]: the distinct elements of [l], in the order in which the
    set happens to enumerate them. *)
Class PySet : Type := {
  list_of_set : list string -> list string;
  list_of_set_NoDup : forall l, NoDup (list_of_set l);
  list_of_set_In : forall l x, In x (list_of_set l) <-> In x l
}.

(** [\d] in a pattern on [str] matches every decimal digit of Unicode, not
    only 0 to 9.  A string is held here as its UTF-8 bytes (so is
    [Py.bullet]); [decimal_digit s] is the number of bytes of the decimal
    digit that [s] starts with, as the database of the interpreter has it.
    Among the ASCII characters the decimal digits are 0 to 9. *)
Class Unicode : Type := {
  decimal_digit : string -> option nat;
  decimal_digit_ascii :
    forall c s,
      nat_of_ascii c < 128 ->
      decimal_digit (String c s) = if Py.is_digit c then Some 1 else None;
  decimal_digit_bytes :
    forall s n, decimal_digit s = Some n -> 1 <= n <= String.length s
}.

(** A [datetime]: naive, or aware of a UTC offset; the instant in
    microseconds. *)
Inductive datetime : Type :=
| Naive (micros : Z)
| Aware (micros : Z).

(** The part of the [datetime] library the manager uses on values:
    [t.isoformat()] of a naive time, [datetime.fromisoformat(s)], which
    raises on a string it cannot read, and [int(d.total_seconds() / 60)] of
    a duration in microseconds, a floating-point division whose result is
    not positive when the duration is not. *)
Class Datetime : Type := {
  isoformat : Z -> string;
  fromisoformat : string -> outcome datetime;
  whole_minutes : Z -> Z;
  whole_minutes_nonpos : forall d, (d <= 0)%Z -> (whole_minutes d <= 0)%Z
}.

Section Clock.
Context {W : Type} `{Env W}.

(** [datetime.utcnow()], in microseconds. *)
Definition utcnow : M W Z :=
  fun w => let (t, w') := clock w in (Returns t, w').

(** [datetime.utcnow().isoformat()] *)
Definition utcnow_isoformat : M W string :=
  fun w => let (t, w') := clock_isoformat w in (Returns t, w').

(** One dictionary of a [_get_fallback_data] list: the two dates are read
    off the clock when the literal is evaluated, [published_date] first. *)
Definition mock_threat (fid src url ttl sev content : string)
    (tgs : list string) : M W threat :=
  published <- utcnow_isoformat ;;
  fetched <- utcnow_isoformat ;;
  ret (raw_threat fid src url ttl sev published fetched content tgs).

(** The items of a list literal are evaluated left to right. *)
Fixpoint list_literal (items : list (M W threat)) : M W (list threat) :=
  match items with
  | [] => ret []
  | item :: rest =>
      t <- item ;; ts <- list_literal rest ;; ret (t :: ts)
  end.
End Clock.

(* ================================================================= *)
(** ** scrapers/cisa_scraper.py *)

Module CISAScraper.
Section Scraper.
Context {W : Type} `{Env W}.

Definition base_url : string := "https://www.cisa.gov".
Definition alerts_feed : string :=
  (base_url ++ "/cybersecurity-advisories/all.xml")%string.

Definition _determine_severity (text : string) : string :=
  let text_lower := Py.lower text in
  if Py.any_in ["critical"; "emergency"; "zero-day"; "urgent"] text_lower
  then "critical"
  else if Py.any_in ["high"; "important"; "severe"] text_lower
  then "high"
  else if Py.any_in ["medium"; "moderate"] text_lower
  then "medium"
  else "low".

(** The feed gives [published] as a string, which has no [timetuple]. *)
Definition _parse_date (date_str : string) : M W string :=
  if negb (Py.truthy date_str) then utcnow_isoformat else ret date_str.

Definition keywords : list string :=
  ["vulnerability"; "malware"; "ransomware"; "phishing";
   "exploit"; "patch"; "cve"; "dos"; "ddos"; "breach";
   "authentication"; "encryption"; "firewall"; "network"].

Definition _extract_tags (text : string) : list string :=
  let text_lower := Py.lower text in
  let tags :=
    fold_left (fun tags keyword =>
                 if Py.str_in keyword text_lower then tags ++ [keyword]
                 else tags)
              keywords [] in
  Py.slice_to 5 tags.

Definition entry_threat (e : entry) : M W threat :=
  published <- _parse_date (get (e_published e) "") ;;
  fetched <- utcnow_isoformat ;;
  ret (raw_threat
         ("cisa_" ++ Py.last_item (Py.split Py.slash (get (e_id e) "")))%string
         "CISA"
         (get (e_link e) base_url)
         (get (e_title e) "Untitled Alert")
         (_determine_severity (get (e_title e) ""))
         published
         fetched
         (get (e_summary e) "")
         (_extract_tags
            (get (e_title e) "" ++ " " ++ get (e_summary e) "")%string)).

(** What [entry_threat] reads off the entry, whatever the clock says. *)
Definition built_from (e : entry) (t : threat) : Prop :=
  feed_id t
    = Some ("cisa_" ++ Py.last_item (Py.split Py.slash (get (e_id e) "")))%string
  /\ source t = Some "CISA"
  /\ source_url t = Some (get (e_link e) base_url)
  /\ title t = Some (get (e_title e) "Untitled Alert")
  /\ severity t = Some (_determine_severity (get (e_title e) ""))
  /\ full_content t = Some (get (e_summary e) "")
  /\ tags t
     = Some (_extract_tags
               (get (e_title e) "" ++ " " ++ get (e_summary e) "")%string)
  /\ (Py.truthy (get (e_published e) "") = true ->
      published_date t = e_published e).

Definition _fetch_from_rss (limit : Z) : M W (list threat) :=
  try_except
    (entries <- feedparser_parse alerts_feed ;;
     for_each (Py.slice_to limit entries)
       (fun e threats => t <- entry_threat e ;; ret (threats ++ [t])) [])
    (fun _ => ret []).

(** The page is requested and parsed, and nothing is read from it. *)
Definition _fetch_from_web (limit : Z) : M W (list threat) :=
  try_except
    (requests_get (base_url ++ "/news-events/cybersecurity-advisories")%string ;;;
     ret [])
    (fun _ => ret []).

Definition _get_fallback_data : M W (list threat) :=
  list_literal
    [ mock_threat "cisa_mock_001" "CISA"
        "https://www.cisa.gov/cybersecurity-advisories"
        "Critical Vulnerability in Widely Used Software"
        "critical"
        "CISA has identified a critical vulnerability affecting multiple systems. Immediate action recommended."
        ["vulnerability"; "critical"; "patch"];
      mock_threat "cisa_mock_002" "CISA"
        "https://www.cisa.gov/cybersecurity-advisories"
        "Ransomware Campaign Targeting Healthcare Sector"
        "high"
        "CISA warns of active ransomware campaign specifically targeting healthcare organizations."
        ["ransomware"; "healthcare"; "malware"] ].

Definition fetch_threats (limit : Z) : M W (list threat) :=
  try_except
    (threats <- _fetch_from_rss limit ;;
     threats <- (if negb (Py.nonempty threats) then _fetch_from_web limit
                 else ret threats) ;;
     ret threats)
    (fun _ => _get_fallback_data).
End Scraper.
End CISAScraper.

(* ================================================================= *)
(** ** scrapers/certin_scraper.py *)

Module CERTINScraper.
Section Scraper.
Context {W : Type} `{Env W}.

Definition _get_fallback_data : M W (list threat) :=
  list_literal
    [ mock_threat "certin_mock_001" "CERT-IN" "https://www.cert-in.org.in"
        "Multiple Vulnerabilities in Google Chrome"
        "high"
        "CERT-IN has identified multiple vulnerabilities in Google Chrome browser that could allow attackers to execute arbitrary code. Users are advised to update immediately."
        ["vulnerability"; "chrome"; "browser"; "patch"];
      mock_threat "certin_mock_002" "CERT-IN" "https://www.cert-in.org.in"
        "Vulnerability in Android Operating System"
        "high"
        "Multiple vulnerabilities discovered in Android OS affecting millions of devices. Security patches available."
        ["android"; "vulnerability"; "mobile"; "patch"];
      mock_threat "certin_mock_003" "CERT-IN" "https://www.cert-in.org.in"
        "Phishing Campaign Targeting Banking Customers"
        "medium"
        "CERT-IN warns of sophisticated phishing campaign targeting online banking customers. Exercise caution with unsolicited emails."
        ["phishing"; "banking"; "social engineering"];
      mock_threat "certin_mock_004" "CERT-IN" "https://www.cert-in.org.in"
        "Critical Vulnerability in Apache Web Server"
        "critical"
        "A critical vulnerability has been discovered in Apache HTTP Server that could lead to remote code execution. Immediate patching recommended."
        ["apache"; "web server"; "vulnerability"; "rce"] ].

Definition _determine_severity (text : string) : string :=
  let text_lower := Py.lower text in
  if Py.any_in ["critical"; "severe"; "urgent"; "high risk"] text_lower
  then "critical"
  else if Py.any_in ["high"; "important"] text_lower
  then "high"
  else if Py.any_in ["medium"; "moderate"] text_lower
  then "medium"
  else "low".

Definition keywords : list string :=
  ["vulnerability"; "malware"; "ransomware"; "phishing";
   "exploit"; "patch"; "android"; "ios"; "windows"; "linux";
   "web application"; "database"; "authentication"].

Definition _extract_tags (text : string) : list string :=
  let text_lower := Py.lower text in
  let tags :=
    fold_left (fun tags keyword =>
                 if Py.str_in keyword text_lower then tags ++ [keyword]
                 else tags)
              keywords [] in
  Py.slice_to 5 tags.

(** The site is not scraped: the sample list is the data. *)
Definition fetch_threats (limit : Z) : M W (list threat) :=
  try_except
    (fallback <- _get_fallback_data ;;
     ret (Py.slice_to limit fallback))
    (fun _ =>
       fallback <- _get_fallback_data ;;
       ret (Py.slice_to limit fallback)).
End Scraper.
End CERTINScraper.

(* ================================================================= *)
(** ** scrapers/fbi_scraper.py *)

Module FBIScraper.
Section Scraper.
Context {W : Type} `{Env W}.

Definition _get_fallback_data : M W (list threat) :=
  list_literal
    [ mock_threat "fbi_mock_001" "FBI" "https://www.fbi.gov/investigate/cyber"
        "Ransomware Gang Targeting Critical Infrastructure"
        "critical"
        "FBI warns of coordinated ransomware attacks targeting critical infrastructure sectors including healthcare, energy, and financial services. Organizations should implement enhanced security measures immediately."
        ["ransomware"; "critical_infrastructure"; "cybercrime"];
      mock_threat "fbi_mock_002" "FBI" "https://www.fbi.gov/investigate/cyber"
        "Business Email Compromise Schemes on the Rise"
        "high"
        "The FBI has observed a significant increase in business email compromise (BEC) schemes targeting companies of all sizes. These attacks have resulted in millions of dollars in losses."
        ["business_email_compromise"; "fraud"; "phishing"];
      mock_threat "fbi_mock_003" "FBI" "https://www.fbi.gov/investigate/cyber"
        "Nation-State APT Group Conducting Espionage Campaign"
        "high"
        "FBI and CISA jointly warn of nation-state advanced persistent threat (APT) group conducting widespread cyber espionage campaign targeting government and private sector networks."
        ["nation-state"; "apt"; "espionage"; "data_breach"];
      mock_threat "fbi_mock_004" "FBI" "https://www.fbi.gov/investigate/cyber"
        "Cryptocurrency Investment Fraud Alert"
        "medium"
        "FBI warns of increasing cryptocurrency investment fraud schemes. Victims are lured through social media and fake investment platforms promising high returns."
        ["fraud"; "cryptocurrency"; "scam"] ].

Definition _determine_severity (text : string) : string :=
  let text_lower := Py.lower text in
  if Py.any_in ["critical"; "urgent"; "immediate"; "widespread"] text_lower
  then "critical"
  else if Py.any_in ["high"; "significant"; "major"] text_lower
  then "high"
  else if Py.any_in ["medium"; "moderate"] text_lower
  then "medium"
  else "low".

Definition keywords : list string :=
  ["ransomware"; "cybercrime"; "fraud"; "scam"; "malware";
   "phishing"; "identity theft"; "business email compromise";
   "nation-state"; "apt"; "data breach"; "extortion"].

Definition _extract_tags (text : string) : list string :=
  let text_lower := Py.lower text in
  let tags :=
    fold_left (fun tags keyword =>
                 if Py.str_in keyword text_lower
                 then tags ++ [Py.replace " " "_" keyword]
                 else tags)
              keywords [] in
  Py.slice_to 5 tags.

Definition fetch_threats (limit : Z) : M W (list threat) :=
  try_except
    (fallback <- _get_fallback_data ;;
     ret (Py.slice_to limit fallback))
    (fun _ =>
       fallback <- _get_fallback_data ;;
       ret (Py.slice_to limit fallback)).
End Scraper.
End FBIScraper.

(* ================================================================= *)
(** ** scrapers/bleeping_scraper.py *)

Module BleepingComputerScraper.
Section Scraper.
Context {W : Type} `{Env W}.

Definition base_url : string := "https://www.bleepingcomputer.com".
Definition rss_feed : string := (base_url ++ "/feed/")%string.

Definition _is_security_related (text : string) : bool :=
  let security_keywords :=
    ["vulnerability"; "exploit"; "malware"; "ransomware"; "breach";
     "hack"; "attack"; "threat"; "security"; "patch"; "zero-day";
     "phishing"; "trojan"; "virus"; "backdoor"; "spy"] in
  let text_lower := Py.lower text in
  Py.any_in security_keywords text_lower.

Definition _determine_severity (text : string) : string :=
  let text_lower := Py.lower text in
  if Py.any_in ["zero-day"; "critical"; "actively exploited"; "emergency"]
       text_lower
  then "critical"
  else if Py.any_in ["ransomware"; "major breach"; "widespread"; "high"]
            text_lower
  then "high"
  else if Py.any_in ["vulnerability"; "exploit"; "attack"] text_lower
  then "medium"
  else "low".

Definition _parse_date (date_str : string) : M W string :=
  if negb (Py.truthy date_str) then utcnow_isoformat else ret date_str.

Definition keywords : list string :=
  ["ransomware"; "malware"; "vulnerability"; "exploit"; "phishing";
   "data breach"; "zero-day"; "trojan"; "spyware"; "botnet";
   "ddos"; "crypto"; "banking"; "windows"; "linux"; "android"].

(** [keyword.replace(' ', '_')] *)
Fixpoint replace_space (s : string) : string :=
  match s with
  | EmptyString => EmptyString
  | String c s' =>
      String (if Ascii.eqb c " "%char then "_"%char else c) (replace_space s')
  end.

Definition _extract_tags (text : string) : list string :=
  let text_lower := Py.lower text in
  let tags :=
    fold_left (fun tags keyword =>
                 if Py.str_in keyword text_lower
                 then tags ++ [replace_space keyword]
                 else tags)
              keywords [] in
  Py.slice_to 5 tags.

Definition entry_threat (e : entry) (title : string) : M W threat :=
  published <- _parse_date (get (e_published e) "") ;;
  fetched <- utcnow_isoformat ;;
  ret (raw_threat
         ("bleeping_"
            ++ Py.last_item (Py.split Py.slash (get (e_id e) "")))%string
         "BleepingComputer"
         (get (e_link e) base_url)
         title
         (_determine_severity title)
         published
         fetched
         (get (e_summary e) "")
         (_extract_tags (title ++ " " ++ get (e_summary e) "")%string)).

(** What [entry_threat] reads off the entry, whatever the clock says. *)
Definition built_from (e : entry) (t : threat) : Prop :=
  feed_id t
    = Some ("bleeping_"
              ++ Py.last_item (Py.split Py.slash (get (e_id e) "")))%string
  /\ source t = Some "BleepingComputer"
  /\ source_url t = Some (get (e_link e) base_url)
  /\ title t = Some (get (e_title e) "")
  /\ severity t = Some (_determine_severity (get (e_title e) ""))
  /\ full_content t = Some (get (e_summary e) "")
  /\ tags t
     = Some (_extract_tags
               (get (e_title e) "" ++ " " ++ get (e_summary e) "")%string)
  /\ (Py.truthy (get (e_published e) "") = true ->
      published_date t = e_published e).

Definition _fetch_from_rss (limit : Z) : M W (list threat) :=
  try_except
    (entries <- feedparser_parse rss_feed ;;
     for_each (Py.slice_to limit entries)
       (fun e threats =>
          let title := get (e_title e) "" in
          if _is_security_related title
          then t <- entry_threat e title ;; ret (threats ++ [t])
          else ret threats)
       [])
    (fun _ => ret []).

Definition _get_fallback_data : M W (list threat) :=
  list_literal
    [ mock_threat "bleeping_mock_001" "BleepingComputer"
        "https://www.bleepingcomputer.com"
        "Zero-Day Vulnerability Actively Exploited in the Wild"
        "critical"
        "Security researchers have discovered a zero-day vulnerability being actively exploited by threat actors. The vulnerability affects multiple versions of popular software and allows remote code execution."
        ["zero-day"; "vulnerability"; "exploit"; "rce"];
      mock_threat "bleeping_mock_002" "BleepingComputer"
        "https://www.bleepingcomputer.com"
        "New Ransomware Strain Targets Enterprise Networks"
        "high"
        "A new ransomware variant has been discovered targeting enterprise networks through compromised VPN credentials. The ransomware uses advanced encryption and demands payment in cryptocurrency."
        ["ransomware"; "malware"; "enterprise"; "vpn"];
      mock_threat "bleeping_mock_003" "BleepingComputer"
        "https://www.bleepingcomputer.com"
        "Microsoft Patches Critical Windows Vulnerabilities"
        "high"
        "Microsoft has released emergency patches for multiple critical vulnerabilities in Windows OS. Users are urged to install updates immediately as proof-of-concept exploits are circulating."
        ["windows"; "vulnerability"; "patch"; "microsoft"];
      mock_threat "bleeping_mock_004" "BleepingComputer"
        "https://www.bleepingcomputer.com"
        "Banking Trojan Spreading Through Phishing Campaign"
        "medium"
        "A sophisticated phishing campaign is distributing a banking trojan that steals credentials and financial information. The malware targets customers of major banks across multiple countries."
        ["trojan"; "phishing"; "banking"; "malware"];
      mock_threat "bleeping_mock_005" "BleepingComputer"
        "https://www.bleepingcomputer.com"
        "Major Data Breach Exposes Millions of User Records"
        "high"
        "A major data breach has been disclosed affecting millions of users. Exposed data includes email addresses, hashed passwords, and personal information. Users are advised to change passwords immediately."
        ["data_breach"; "leak"; "credentials"] ].

Definition fetch_threats (limit : Z) : M W (list threat) :=
  try_except
    (threats <- _fetch_from_rss limit ;;
     threats <- (if negb (Py.nonempty threats)
                 then fallback <- _get_fallback_data ;;
                      ret (Py.slice_to limit fallback)
                 else ret threats) ;;
     ret threats)
    (fun _ =>
       fallback <- _get_fallback_data ;;
       ret (Py.slice_to limit fallback)).
End Scraper.
End BleepingComputerScraper.

(* ================================================================= *)
(** ** processors/ai_processor.py *)

Module AIThreatProcessor.

(** *** The pattern [CVE-\d{4}-\d{4,7}] under [re.IGNORECASE] *)

Section Pattern.
Context {U : Unicode}.

(** At most [n] leading decimal digits of [s], one string for each digit,
    and what follows them. *)
Fixpoint take_digits (n : nat) (s : string) : list string * string :=
  match n with
  | O => ([], s)
  | S n' =>
      match decimal_digit s with
      | Some bytes =>
          let (digits, rest) := take_digits n' (Py.drop bytes s) in
          (substring 0 bytes s :: digits, rest)
      | None => ([], s)
      end
  end.

(** The match of the pattern that starts at the first character of [s].
    No character but the letters themselves matches [c], [v] or [e] when
    case is ignored. *)
Definition match_cve (s : string) : option string :=
  let head := substring 0 4 s in
  if String.eqb (Py.lower head) "cve-" then
    let (year, after_year) := take_digits 4 (Py.drop 4 s) in
    if List.length year =? 4 then
      match after_year with
      | String "-"%char after_dash =>
          let (number, _) := take_digits 7 after_dash in
          if 4 <=? List.length number
          then Some (head ++ String.concat "" year ++ "-"
                       ++ String.concat "" number)%string
          else None
      | _ => None
      end
    else None
  else None.

(** [re.findall]: matches from left to right, none overlapping another;
    [skip] bytes belong to the match found last. *)
Fixpoint findall_from (skip : nat) (s : string) : list string :=
  match s with
  | EmptyString => []
  | String _ s' =>
      match skip with
      | S k => findall_from k s'
      | O =>
          match match_cve s with
          | Some m => m :: findall_from (String.length m - 1) s'
          | None => findall_from 0 s'
          end
      end
  end.

Definition re_findall_cve (content : string) : list string :=
  findall_from 0 content.

(** One decimal digit: the bytes of a decimal digit that some string starts
    with. *)
Definition decimal (d : string) : Prop :=
  exists rest, decimal_digit (d ++ rest)%string = Some (String.length d).

(** The shape the pattern asks for: [cve-] in any case, four decimal
    digits, a dash, and four to seven decimal digits. *)
Definition cve_shaped (m : string) : Prop :=
  exists head year number,
    m = (head ++ String.concat "" year ++ "-"
           ++ String.concat "" number)%string
    /\ Py.lower head = "cve-"
    /\ Forall decimal year /\ List.length year = 4
    /\ Forall decimal number
    /\ 4 <= List.length number <= 7.
End Pattern.

(** [line.lstrip('0123456789.-' + bullet)] *)
Fixpoint lstrip_numbering (fuel : nat) (line : string) : string :=
  match fuel with
  | O => line
  | S fuel' =>
      match line with
      | EmptyString => line
      | String c rest =>
          if Py.is_digit c || Ascii.eqb c "."%char || Ascii.eqb c "-"%char
          then lstrip_numbering fuel' rest
          else if String.prefix Py.bullet line
               then lstrip_numbering fuel' (Py.drop 3 line)
               else line
      end
  end.

Definition starts_with_digit (line : string) : bool :=
  match line with
  | String c _ => Py.is_digit c
  | EmptyString => false
  end.

Section Processor.
Context {W : Type} `{Env W} `{PySet} {U : Unicode}.

(** [self.client is not None] *)
Variable client : bool.

(** *** Fallbacks, used when there is no client or the call fails *)

Definition _fallback_summary (threat : threat) : string :=
  let title := get (title threat) "Unknown threat" in
  let source := get (source threat) "Unknown source" in
  let severity := get (severity threat) "unknown" in
  (source ++ " reports a " ++ severity ++ " severity threat: " ++ title
     ++ ". Immediate review recommended for security teams.")%string.

Definition _fallback_iocs (threat : threat) : list string :=
  let content :=
    (get (full_content threat) "" ++ " " ++ get (title threat) "")%string in
  let iocs := [] in
  let cves := re_findall_cve content in
  let iocs := iocs ++ cves in
  Py.slice_to 5 (list_of_set iocs).

Definition common_systems : list string :=
  ["Windows"; "Linux"; "macOS"; "iOS"; "Android";
   "Chrome"; "Firefox"; "Safari"; "Edge";
   "Apache"; "nginx"; "IIS"; "MySQL"; "PostgreSQL"].

Definition _fallback_affected_systems (threat : threat) : list string :=
  let content :=
    Py.lower
      (get (title threat) "" ++ " " ++ get (full_content threat) "")%string in
  let systems :=
    fold_left (fun systems system =>
                 if Py.str_in (Py.lower system) content
                 then systems ++ [system]
                 else systems)
              common_systems [] in
  if Py.nonempty systems then Py.slice_to 5 systems
  else ["Multiple systems potentially affected"].

Definition _fallback_recommendations (threat : threat) : list string :=
  let severity := get (severity threat) "medium" in
  let base_recs :=
    ["Review security logs for signs of compromise";
     "Ensure all systems are patched to the latest versions";
     "Monitor network traffic for suspicious activity"] in
  let base_recs :=
    if Py.list_in severity ["critical"; "high"]
    then ("Implement emergency security measures immediately" :: base_recs)
           ++ ["Consider temporary isolation of affected systems"]
    else base_recs in
  Py.slice_to 5 base_recs.

(** *** The four requests *)

Definition generate_quick_summary (threat : threat) : M W string :=
  try_except
    (if negb client then ret (_fallback_summary threat)
     else
       content <- chat_completion Summary threat ;;
       let summary := Py.strip content in
       ret summary)
    (fun _ => ret (_fallback_summary threat)).

(** [[x.strip() for x in text.split(newline) if x.strip()]] *)
Definition stripped_lines (text : string) : list string :=
  fold_left (fun acc x =>
               if Py.truthy (Py.strip x) then acc ++ [Py.strip x] else acc)
            (Py.split Py.newline text) [].

Definition extract_iocs (threat : threat) : M W (list string) :=
  try_except
    (if negb client then ret (_fallback_iocs threat)
     else
       content <- chat_completion Iocs threat ;;
       let iocs_text := Py.strip content in
       if String.eqb (Py.lower iocs_text) "none" then ret []
       else
         let iocs := stripped_lines iocs_text in
         ret (Py.slice_to 10 iocs))
    (fun _ => ret (_fallback_iocs threat)).

Definition identify_affected_systems (threat : threat) : M W (list string) :=
  try_except
    (if negb client then ret (_fallback_affected_systems threat)
     else
       content <- chat_completion AffectedSystems threat ;;
       let systems_text := Py.strip content in
       if String.eqb (Py.lower systems_text) "not specified"
       then ret ["Not specified in alert"]
       else
         let systems := stripped_lines systems_text in
         ret (Py.slice_to 5 systems))
    (fun _ => ret (_fallback_affected_systems threat)).

(** The numbered or bulleted lines of the answer, without their marks. *)
Definition parse_recommendations (recs_text : string) : list string :=
  fold_left
    (fun recommendations line =>
       let line := Py.strip line in
       if Py.truthy line
          && (starts_with_digit line || String.prefix "-" line
              || String.prefix Py.bullet line)
       then
         let rec := Py.strip (lstrip_numbering (String.length line) line) in
         if Py.truthy rec then recommendations ++ [rec] else recommendations
       else recommendations)
    (Py.split Py.newline recs_text) [].

Definition generate_recommendations (threat : threat) : M W (list string) :=
  try_except
    (if negb client then ret (_fallback_recommendations threat)
     else
       content <- chat_completion Recommendations threat ;;
       let recs_text := Py.strip content in
       let recommendations := parse_recommendations recs_text in
       ret (Py.slice_to 5 recommendations))
    (fun _ => ret (_fallback_recommendations threat)).

(** *** [enrich_threat]: a copy of the dictionary with four keys set *)

Definition set_quick_summary (v : string) (t : threat) : threat :=
  {| feed_id := feed_id t; source := source t; source_url := source_url t;
     title := title t; severity := severity t;
     published_date := published_date t; fetched_date := fetched_date t;
     full_content := full_content t; tags := tags t;
     quick_summary := Some v; iocs := iocs t;
     affected_systems := affected_systems t;
     recommendations := recommendations t |}.

Definition set_iocs (v : list string) (t : threat) : threat :=
  {| feed_id := feed_id t; source := source t; source_url := source_url t;
     title := title t; severity := severity t;
     published_date := published_date t; fetched_date := fetched_date t;
     full_content := full_content t; tags := tags t;
     quick_summary := quick_summary t; iocs := Some v;
     affected_systems := affected_systems t;
     recommendations := recommendations t |}.

Definition set_affected_systems (v : list string) (t : threat) : threat :=
  {| feed_id := feed_id t; source := source t; source_url := source_url t;
     title := title t; severity := severity t;
     published_date := published_date t; fetched_date := fetched_date t;
     full_content := full_content t; tags := tags t;
     quick_summary := quick_summary t; iocs := iocs t;
     affected_systems := Some v;
     recommendations := recommendations t |}.

Definition set_recommendations (v : list string) (t : threat) : threat :=
  {| feed_id := feed_id t; source := source t; source_url := source_url t;
     title := title t; severity := severity t;
     published_date := published_date t; fetched_date := fetched_date t;
     full_content := full_content t; tags := tags t;
     quick_summary := quick_summary t; iocs := iocs t;
     affected_systems := affected_systems t;
     recommendations := Some v |}.

Definition enrich_threat (threat : threat) : M W Dict :=
  try_except
    (let enriched := threat in
     summary <- generate_quick_summary threat ;;
     let enriched := set_quick_summary summary enriched in
     found <- extract_iocs threat ;;
     let enriched := set_iocs found enriched in
     systems <- identify_affected_systems threat ;;
     let enriched := set_affected_systems systems enriched in
     recs <- generate_recommendations threat ;;
     let enriched := set_recommendations recs enriched in
     ret enriched)
    (fun _ => ret threat).
End Processor.
End AIThreatProcessor.

(* ================================================================= *)
(** ** threat_manager.py *)

(** The attributes of a [ThreatIntelligenceManager] that change after
    [__init__]: the cache and the time it was filled, in microseconds. *)
Record manager : Type := mk_manager {
  threat_cache    : list threat;
  last_fetch_time : option Z
}.

(** A call of [scraper.fetch_threats(limit=...)] made by the manager, with
    the name the scraper is registered under and what the call gave. *)
Inductive event : Type :=
| Fetched (source_name : string) (limit : Z) (result : outcome (list threat)).

Definition fetched_source (ev : event) : string :=
  match ev with Fetched name _ _ => name end.

Definition fetched_limit (ev : event) : Z :=
  match ev with Fetched _ limit _ => limit end.

(** The number of items a call contributed: none when it raised. *)
Definition fetched_count (ev : event) : nat :=
  match ev with
  | Fetched _ _ (Returns threats) => List.length threats
  | Fetched _ _ (Raises _) => 0
  end.

(** The manager object, the world it runs in, and the record of the fetches
    it has made so far (kept for the statements; no code reads it). *)
Record state (W : Type) : Type := mk_state {
  self  : manager;
  world : W;
  calls : list event
}.

Arguments mk_state {W} self world calls.

Module ThreatIntelligenceManager.

(** [timedelta(hours=1)] *)
Definition cache_duration : Z := 3600 * 1000000.

(** The key of the sort.  Two keys are compared byte by byte, which on UTF-8
    text is the comparison of code points that Python makes. *)
Definition sort_key (x : threat) : string := get (published_date x) "".

(** [all_threats.sort(key=..., reverse=True)]: larger keys first, and items
    with equal keys in the order they had (the sort is stable, and
    [reverse=True] keeps that order too).  [insert_desc x l] puts [x], which
    stood before every item of [l], into the sorted [l]. *)
Fixpoint insert_desc (x : threat) (l : list threat) : list threat :=
  match l with
  | [] => [x]
  | y :: l' =>
      if String.ltb (sort_key x) (sort_key y)
      then y :: insert_desc x l'
      else x :: l
  end.

Definition sort_desc (l : list threat) : list threat :=
  fold_right insert_desc [] l.

(** [a] may stand before [b]: the date of [b] is not the larger one. *)
Definition date_ge (a b : threat) : Prop :=
  String.leb (sort_key b) (sort_key a) = true.

(** Sorted by [published_date], from the largest string to the smallest. *)
Definition sorted_by_date_desc (l : list threat) : Prop :=
  StronglySorted date_ge l.

(** Whatever follows an item that has no [published_date] has an empty sort
    key too: the undated items stand at the end. *)
Definition undated_last (l : list threat) : Prop :=
  forall before x after,
    l = before ++ x :: after ->
    published_date x = None ->
    Forall (fun y => sort_key y = EmptyString) after.

(** *** A date in ISO-8601, as the specification words it *)

(** [s] starts with characters that pass the tests of [shape], one each. *)
Fixpoint starts_like (shape : list (ascii -> bool)) (s : string) : bool :=
  match shape, s with
  | [], _ => true
  | test :: shape', String c s' => test c && starts_like shape' s'
  | _ :: _, EmptyString => false
  end.

(** The shape that [datetime.isoformat()] writes: YYYY-MM-DDTHH:MM:SS, and
    whatever follows. *)
Definition iso_8601 (date : string) : bool :=
  let d := Py.is_digit in
  let dash c := Ascii.eqb c "-"%char in
  let colon c := Ascii.eqb c ":"%char in
  let letter_t c := Ascii.eqb c "T"%char in
  starts_like
    [d; d; d; d; dash; d; d; dash; d; d; letter_t;
     d; d; colon; d; d; colon; d; d]
    date.

(** The number of items the recorded calls contributed. *)
Definition total_fetched (evs : list event) : nat :=
  list_sum (map fetched_count evs).

(** *** The matching rule of [search], as the specification words it *)

(** [q] occurs in [s]. *)
Definition occurs (q s : string) : Prop :=
  exists before after, s = (before ++ q ++ after)%string.

Definition text_matches (query : string) (t : threat) : Prop :=
  occurs (Py.lower query) (Py.lower (get (title t) ""))
  \/ occurs (Py.lower query) (Py.lower (get (full_content t) ""))
  \/ occurs (Py.lower query) (Py.lower (Py.join " " (get (tags t) []))).

Definition severity_matches (severity_filter : option string) (t : threat)
    : Prop :=
  match severity_filter with
  | None => True
  | Some wanted => Py.lower (get (severity t) "") = Py.lower wanted
  end.

(** [if severity:] lets a filter through when it is neither [None] nor the
    empty string. *)
Definition applied_filter (severity_filter : option string) : option string :=
  match severity_filter with
  | Some wanted => if Py.truthy wanted then Some wanted else None
  | None => None
  end.

(** The same rule as a test, to filter the cache with. *)
Definition search_spec (query : string) (severity_filter : option string)
    (t : threat) : bool :=
  (Py.str_in (Py.lower query) (Py.lower (get (title t) ""))
   || Py.str_in (Py.lower query) (Py.lower (get (full_content t) ""))
   || Py.str_in (Py.lower query) (Py.lower (Py.join " " (get (tags t) []))))
  && match severity_filter with
     | None => true
     | Some wanted =>
         String.eqb (Py.lower (get (severity t) "")) (Py.lower wanted)
     end.

(** The attributes [__init__] sets that later calls change. *)
Definition __init__ : manager :=
  {| threat_cache := []; last_fetch_time := None |}.

Section Manager.
Context {W : Type} `{Env W}.

(** [self.scrapers]: the registered sources in insertion order, each with
    its [fetch_threats] method; and [self.ai_processor.enrich_threat]. *)
Variable scrapers : list (string * (Z -> M W (list threat))).
Variable enrich_threat : threat -> M W threat.

Definition py := M (state W).

(** A call that touches the world only. *)
Definition lift {A : Type} (m : M W A) : py A :=
  fun s =>
    let (r, w') := m (world s) in
    (r, mk_state (self s) w' (calls s)).

Definition get_self : py manager := fun s => (Returns (self s), s).

Definition set_threat_cache (v : list threat) : py unit :=
  fun s =>
    (Returns tt,
     mk_state (mk_manager v (last_fetch_time (self s))) (world s) (calls s)).

Definition set_last_fetch_time (v : option Z) : py unit :=
  fun s =>
    (Returns tt,
     mk_state (mk_manager (threat_cache (self s)) v) (world s) (calls s)).

(** [self.scrapers.get(source)] *)
Fixpoint scrapers_get (registry : list (string * (Z -> M W (list threat))))
    (source : string) : option (Z -> M W (list threat)) :=
  match registry with
  | [] => None
  | (name, scraper) :: rest =>
      if String.eqb name source then Some scraper
      else scrapers_get rest source
  end.

(** [scraper.fetch_threats(limit=limit)], recorded in [calls]. *)
Definition call_fetch_threats (source_name : string)
    (scraper : Z -> M W (list threat)) (limit : Z) : py (list threat) :=
  fun s =>
    let (r, w') := scraper limit (world s) in
    (r, mk_state (self s) w' (calls s ++ [Fetched source_name limit r])).

Definition _is_cache_valid : py bool :=
  me <- get_self ;;
  match threat_cache me, last_fetch_time me with
  | [], _ => ret false
  | _ :: _, None => ret false
  | _ :: _, Some fetched_at =>
      now <- lift utcnow ;;
      let age := (now - fetched_at)%Z in
      ret (age <? cache_duration)%Z
  end.

(** The loop over [threats] that fills [enriched_threats]. *)
Definition enrich_all (threats : list threat) : py (list threat) :=
  for_each threats
    (fun threat enriched_threats =>
       try_except
         (enriched <- lift (enrich_threat threat) ;;
          ret (enriched_threats ++ [enriched]))
         (fun _ => ret (enriched_threats ++ [threat])))
    [].

(** The body of the loop over [self.scrapers.items()]. *)
Definition fetch_source (limit_per_source : Z) (use_ai : bool)
    (item : string * (Z -> M W (list threat))) (all_threats : list threat)
    : py (list threat) :=
  let (source_name, scraper) := item in
  try_except
    (threats <- call_fetch_threats source_name scraper limit_per_source ;;
     if use_ai && Py.nonempty threats
     then
       enriched_threats <- enrich_all threats ;;
       ret (all_threats ++ enriched_threats)
     else ret (all_threats ++ threats))
    (fun _ => ret all_threats).

Definition fetch_all_threats (limit_per_source : Z) (use_ai : bool)
    : py (list threat) :=
  try_except
    (valid <- _is_cache_valid ;;
     if valid : bool
     then me <- get_self ;; ret (threat_cache me)
     else
       all_threats <-
         for_each scrapers (fetch_source limit_per_source use_ai) [] ;;
       let all_threats := sort_desc all_threats in
       set_threat_cache all_threats ;;;
       now <- lift utcnow ;;
       set_last_fetch_time (Some now) ;;;
       ret all_threats)
    (fun _ =>
       me <- get_self ;;
       ret (if Py.nonempty (threat_cache me) then threat_cache me else [])).

Definition fetch_threats_by_source (source : string) (limit : Z)
    (use_ai : bool) : py (list threat) :=
  try_except
    (match scrapers_get scrapers source with
     | None => ret []
     | Some scraper =>
         threats <- call_fetch_threats source scraper limit ;;
         if use_ai && Py.nonempty threats
         then enrich_all threats
         else ret threats
     end)
    (fun _ => ret []).

(** The test of one cached threat in [search_threats]; [severity_filter]
    is the argument [severity]. *)
Definition search_step (query_lower : string)
    (severity_filter : option string) (threat : Dict)
    (results : list Dict) : list Dict :=
  let title := Py.lower (get (title threat) "") in
  let content := Py.lower (get (full_content threat) "") in
  let tags := Py.lower (Py.join " " (get (tags threat) [])) in
  if Py.str_in query_lower title || Py.str_in query_lower content
     || Py.str_in query_lower tags
  then
    match severity_filter with
    | Some wanted =>
        if Py.truthy wanted
        then
          if String.eqb (Py.lower (get (severity threat) ""))
               (Py.lower wanted)
          then results ++ [threat]
          else results
        else results ++ [threat]
    | None => results ++ [threat]
    end
  else results.

Definition search_threats (query : string)
    (severity_filter : option string) : py (list threat) :=
  try_except
    (me <- get_self ;;
     (if negb (Py.nonempty (threat_cache me))
      then _ <- fetch_all_threats 10 true ;; ret tt
      else ret tt) ;;;
     let query_lower := Py.lower query in
     me <- get_self ;;
     ret (fold_left (fun results threat =>
                       search_step query_lower severity_filter threat results)
                    (threat_cache me) []))
    (fun _ => ret []).

Definition force_refresh (use_ai : bool) : py (list threat) :=
  set_threat_cache [] ;;;
  set_last_fetch_time None ;;;
  fetch_all_threats 10 use_ai.

(** What [enrich_all] leaves for one threat: the enriched dictionary, or the
    threat itself when [enrich_threat] raised. *)
Definition enrich_outcome (threat out : Dict) : Prop :=
  exists w, match fst (enrich_threat threat w) with
            | Returns enriched => out = enriched
            | Raises _ => out = threat
            end.

(** What one recorded call adds to [all_threats]: nothing when the scraper
    raised; its threats as they are without enrichment; with enrichment, one
    item for each of them. *)
Definition contribution (use_ai : bool) (ev : event) (items : list Dict)
    : Prop :=
  match ev with
  | Fetched _ _ (Returns threats) =>
      if use_ai then Forall2 enrich_outcome threats items
      else items = threats
  | Fetched _ _ (Raises _) => items = []
  end.

(** [all_threats] at the end of the loop: the contributions of the recorded
    calls, one after the other. *)
Definition merged (use_ai : bool) (evs : list event) (all_threats : list Dict)
    : Prop :=
  exists parts,
    all_threats = List.concat parts /\ Forall2 (contribution use_ai) evs parts.

(** The world after the loop of [enrich_all]: [enrich_threat] is run on
    each threat in turn, whether it returns or raises. *)
Fixpoint world_after_enrichment (threats : list threat) (w : W) : W :=
  match threats with
  | [] => w
  | threat :: rest =>
      world_after_enrichment rest (snd (enrich_threat threat w))
  end.

(** The world after the body of the loop over the sources, from what the
    scraper returned and the world it left. *)
Definition world_after_source (use_ai : bool)
    (result : outcome (list threat)) (w : W) : W :=
  match result with
  | Returns threats =>
      if use_ai then world_after_enrichment threats w else w
  | Raises _ => w
  end.

(** The fetches of one pass over [registry] that starts in the world [w],
    and the world the pass ends in: each scraper is run with [limit], the
    first one in [w], the next one in the world that the one before it and
    the enrichment of its threats left. *)
Fixpoint fetches (limit : Z) (use_ai : bool)
    (registry : list (string * (Z -> M W (list threat)))) (w : W)
    : list event * W :=
  match registry with
  | [] => ([], w)
  | (source_name, scraper) :: rest =>
      let (result, w1) := scraper limit w in
      let (evs, w') :=
        fetches limit use_ai rest (world_after_source use_ai result w1) in
      (Fetched source_name limit result :: evs, w')
  end.

(** One call of a public method, and the states a manager can be in. *)
Inductive step : state W -> state W -> Prop :=
| step_fetch_all limit use_ai s :
    step s (snd (fetch_all_threats limit use_ai s))
| step_fetch_by_source source limit use_ai s :
    step s (snd (fetch_threats_by_source source limit use_ai s))
| step_search query severity_filter s :
    step s (snd (search_threats query severity_filter s))
| step_force_refresh use_ai s :
    step s (snd (force_refresh use_ai s)).

Inductive reachable : state W -> Prop :=
| reachable_init w : reachable (mk_state __init__ w [])
| reachable_step s s' : reachable s -> step s s' -> reachable s'.
End Manager.

(** [self.scrapers] as [__init__] builds it: the four sources in the order
    they are registered. *)
Definition registered_scrapers {W : Type} `{Env W}
    : list (string * (Z -> M W (list threat))) :=
  [ ("CISA", CISAScraper.fetch_threats);
    ("CERT-IN", CERTINScraper.fetch_threats);
    ("FBI", FBIScraper.fetch_threats);
    ("BleepingComputer", BleepingComputerScraper.fetch_threats) ].


(** *** [get_threat_summary] *)

(** The dictionary [get_threat_summary] returns.  The dictionary of its
    error handler has no [cache_expires_in_minutes]. *)
Record threat_summary : Type := mk_summary {
  total_threats            : nat;
  severity_breakdown       : list (string * nat);
  source_breakdown         : list (string * nat);
  recent_24h               : nat;
  last_updated             : option string;
  cache_expires_in_minutes : option Z
}.

(** [timedelta(hours=24)] *)
Definition one_day : Z := 24 * 3600 * 1000000.

Section Summary.
Context {W : Type} `{Env W} `{Datetime}.
Variable scrapers : list (string * (Z -> M W (list threat))).
Variable enrich_threat : threat -> M W threat.

Definition _get_cache_expiry_minutes : py Z :=
  me <- get_self ;;
  match last_fetch_time me with
  | None => ret 0%Z
  | Some fetched_at =>
      now <- lift utcnow ;;
      let age := (now - fetched_at)%Z in
      let remaining := (cache_duration - age)%Z in
      ret (Z.max 0 (whole_minutes remaining))
  end.

(** The three counters of the loop in [get_threat_summary]. *)
Record counters : Type := mk_counters {
  severity_counts : list (string * nat);
  source_counts   : list (string * nat);
  recent_count    : nat
}.

(** The body of the loop.  A date that cannot be read, or that carries an
    offset and so cannot be compared with the naive threshold, is passed
    over by the bare [except]. *)
Definition count_threat (recent_threshold : Z) (acc : counters)
    (threat : Dict) : counters :=
  let severity_counts := severity_counts acc in
  let source_counts := source_counts acc in
  let recent_count := recent_count acc in
  let severity := Py.lower (get (severity threat) "low") in
  let severity_counts :=
    if Py.dict_has severity_counts severity
    then Py.dict_set severity_counts severity
           (Py.dict_get severity_counts severity 0 + 1)
    else severity_counts in
  let source := get (source threat) "Unknown" in
  let source_counts :=
    Py.dict_set source_counts source
      (Py.dict_get source_counts source 0 + 1) in
  let recent_count :=
    match fromisoformat
            (Py.replace "Z" "+00:00" (get (published_date threat) "")) with
    | Returns (Naive pub_date) =>
        if (recent_threshold <? pub_date)%Z then recent_count + 1
        else recent_count
    | Returns (Aware _) => recent_count
    | Raises _ => recent_count
    end in
  mk_counters severity_counts source_counts recent_count.

Definition initial_counters : counters :=
  mk_counters [("critical", 0); ("high", 0); ("medium", 0); ("low", 0)]
    [] 0.

Definition get_threat_summary : py threat_summary :=
  try_except
    (me <- get_self ;;
     (if negb (Py.nonempty (threat_cache me))
      then _ <- fetch_all_threats scrapers enrich_threat 10 true ;; ret tt
      else ret tt) ;;;
     now <- lift utcnow ;;
     let recent_threshold := (now - one_day)%Z in
     me <- get_self ;;
     let counted :=
       fold_left (count_threat recent_threshold) (threat_cache me)
         initial_counters in
     let updated :=
       match last_fetch_time me with
       | Some fetched_at => Some (isoformat fetched_at)
       | None => None
       end in
     minutes <- _get_cache_expiry_minutes ;;
     ret (mk_summary (List.length (threat_cache me))
            (severity_counts counted) (source_counts counted)
            (recent_count counted) updated (Some minutes)))
    (fun _ => ret (mk_summary 0 [] [] 0 None None)).

(** The tests behind the three counters, for the statements. *)
Definition has_severity (level : string) (t : Dict) : bool :=
  String.eqb (Py.lower (get (severity t) "low")) level.

Definition has_source (name : string) (t : Dict) : bool :=
  String.eqb (get (source t) "Unknown") name.

Definition is_recent (recent_threshold : Z) (t : Dict) : bool :=
  match fromisoformat
          (Py.replace "Z" "+00:00" (get (published_date t) "")) with
  | Returns (Naive pub_date) => (recent_threshold <? pub_date)%Z
  | Returns (Aware _) => false
  | Raises _ => false
  end.
End Summary.
End ThreatIntelligenceManager.

(* ================================================================= *)
(** ** service-desk-host/main.py: the threat-intelligence endpoints *)

(** The endpoints get the manager from [get_threat_intel_manager], which
    builds it at the first request, and call one of its methods. *)
Module ThreatIntelAPI.

(** What an endpoint gives its caller: a body, or an [HTTPException]. *)
Inductive http (A : Type) : Type :=
| Respond (body : A)
| HTTPException (status_code : Z) (detail : string).

Arguments Respond {A} body.
Arguments HTTPException {A} status_code detail.

Record feeds_response : Type := mk_feeds_response {
  threats        : list threat;
  total          : nat;
  filter_source  : option string;
  filter_severity : option string;
  filter_use_ai  : bool
}.

(** What [get_threat_intel_manager] calls outside the repository.
    [import_threat_manager] is the test of the path, the edit of [sys.path]
    and [from threat_manager import get_threat_manager]: it raises when the
    module, or one that it imports, cannot be loaded.  [make_client] is
    [os.getenv] and, in [AIThreatProcessor.__init__], the making of the
    client, whose failure is caught there: it says whether there is a
    client. *)
Class Host (W : Type) : Type := {
  import_threat_manager : M W unit;
  make_client : W -> bool * W
}.

(** The two globals that name the manager: [_threat_manager_instance] of
    threat_manager.py and [threat_manager] of main.py.  When both are set
    they name one object, the manager with the client of its processor. *)
Inductive globals : Type :=
| Unset
| Created (me : manager) (client : bool)
| Bound (me : manager) (client : bool).

(** The process that serves the requests: the globals, the world, and the
    record of the fetches made so far. *)
Record server (W : Type) : Type := mk_server {
  loaded       : globals;
  server_world : W;
  server_calls : list event
}.

Arguments mk_server {W} loaded server_world server_calls.
Arguments loaded {W} s.
Arguments server_world {W} s.
Arguments server_calls {W} s.

Section Endpoints.
Context {W : Type} `{Env W} `{PySet} {U : Unicode} `{Host W}.

Definition api (A : Type) : Type := M (server W) A.

Definition on_world {A : Type} (m : M W A) : api A :=
  fun sv =>
    let (r, w') := m (server_world sv) in
    (r, mk_server (loaded sv) w' (server_calls sv)).

(** threat_manager.py: [get_threat_manager].  The constructor builds the
    four scrapers and the processor and raises nothing. *)
Definition get_threat_manager : api (manager * bool) :=
  fun sv =>
    match loaded sv with
    | Unset =>
        let (client, w') := make_client (server_world sv) in
        (Returns (ThreatIntelligenceManager.__init__, client),
         mk_server (Created ThreatIntelligenceManager.__init__ client) w'
           (server_calls sv))
    | Created me client => (Returns (me, client), sv)
    | Bound me client => (Returns (me, client), sv)
    end.

(** [threat_manager = ...] in main.py *)
Definition set_threat_manager (object : manager * bool) : api unit :=
  fun sv =>
    (Returns tt,
     mk_server (Bound (fst object) (snd object)) (server_world sv)
       (server_calls sv)).

(** main.py: [get_threat_intel_manager] *)
Definition get_threat_intel_manager : api (manager * bool) :=
  fun sv =>
    match loaded sv with
    | Bound me client => (Returns (me, client), sv)
    | Unset | Created _ _ =>
        (on_world import_threat_manager ;;;
         object <- get_threat_manager ;;
         set_threat_manager object ;;;
         ret object) sv
    end.

(** [await manager.method(...)] on the object that [threat_manager] names:
    what the method does to the manager is seen by the next request. *)
Definition call_method {A : Type} (object : manager * bool)
    (method : ThreatIntelligenceManager.py (W := W) A) : api A :=
  fun sv =>
    let (r, s') :=
      method (mk_state (fst object) (server_world sv) (server_calls sv)) in
    (r, mk_server (Bound (self s') (snd object)) (world s') (calls s')).

(** The methods of the manager that was built: the four registered
    scrapers, and the processor with or without a client. *)
Definition fetch_all_threats (object : manager * bool) :=
  ThreatIntelligenceManager.fetch_all_threats
    ThreatIntelligenceManager.registered_scrapers
    (AIThreatProcessor.enrich_threat (snd object)).

Definition fetch_threats_by_source (object : manager * bool) :=
  ThreatIntelligenceManager.fetch_threats_by_source
    ThreatIntelligenceManager.registered_scrapers
    (AIThreatProcessor.enrich_threat (snd object)).

Definition search_threats (object : manager * bool) :=
  ThreatIntelligenceManager.search_threats
    ThreatIntelligenceManager.registered_scrapers
    (AIThreatProcessor.enrich_threat (snd object)).

Definition force_refresh (object : manager * bool) :=
  ThreatIntelligenceManager.force_refresh
    ThreatIntelligenceManager.registered_scrapers
    (AIThreatProcessor.enrich_threat (snd object)).

(** [if source:] and [if severity:] on an optional string. *)
Definition given (argument : option string) : bool :=
  match argument with
  | Some text => Py.truthy text
  | None => false
  end.

(** [source_filter] and [severity_filter] are the query parameters [source]
    and [severity]. *)
Definition get_threat_intelligence_feeds
    (source_filter severity_filter : option string)
    (limit : Z) (use_ai : bool) : api (http feeds_response) :=
  try_except
    (manager <- get_threat_intel_manager ;;
     threats <-
       call_method manager
         (if given source_filter
          then fetch_threats_by_source manager (get source_filter "")
                 limit use_ai
          else fetch_all_threats manager (limit / 4)%Z use_ai) ;;
     let threats :=
       if given severity_filter
       then filter (fun t =>
                      String.eqb (Py.lower (get (severity t) ""))
                        (Py.lower (get severity_filter "")))
                   threats
       else threats in
     let threats := Py.slice_to limit threats in
     ret (Respond
            (mk_feeds_response threats (List.length threats)
               source_filter severity_filter use_ai)))
    (fun _ =>
       ret (HTTPException 500 "Failed to fetch threat intelligence feeds")).

(** [next((t for t in all_threats if t.get('feed_id') == wanted), None)] *)
Definition first_with_feed_id (wanted : string) (all_threats : list threat)
    : option threat :=
  find (fun t => match feed_id t with
                 | Some found => String.eqb found wanted
                 | None => false
                 end)
       all_threats.

(** [wanted] is the path parameter [feed_id].  A threat that was found has
    a [feed_id], so it is not an empty dictionary and [if not threat] lets
    it through.  The [HTTPException] raised in the [try] block is raised
    again by [except HTTPException]. *)
Definition get_threat_feed_detail (wanted : string) : api (http threat) :=
  try_except
    (manager <- get_threat_intel_manager ;;
     all_threats <- call_method manager (fetch_all_threats manager 10 true) ;;
     match first_with_feed_id wanted all_threats with
     | None => ret (HTTPException 404 "Threat feed not found")
     | Some threat => ret (Respond threat)
     end)
    (fun _ =>
       ret (HTTPException 500 "Failed to fetch threat feed detail")).

Definition search_threat_intelligence (query : string)
    (severity_filter : option string) : api (http (list threat * nat)) :=
  try_except
    (manager <- get_threat_intel_manager ;;
     results <-
       call_method manager (search_threats manager query severity_filter) ;;
     ret (Respond (results, List.length results)))
    (fun _ =>
       ret (HTTPException 500 "Failed to search threat intelligence")).

Definition refresh_threat_intelligence (use_ai : bool) : api (http nat) :=
  try_except
    (manager <- get_threat_intel_manager ;;
     threats <- call_method manager (force_refresh manager use_ai) ;;
     ret (Respond (List.length threats)))
    (fun _ =>
       ret (HTTPException 500 "Failed to refresh threat intelligence")).
End Endpoints.
End ThreatIntelAPI.

(* ================================================================= *)
(** ** A concrete world, for running the code *)

Module Scenario.

(** The clock advances by one microsecond at each reading; the feeds, the
    web page and the chat model answer the same way throughout. *)
Record world : Type := mk_world {
  now  : Z;
  iso  : string;
  feed : string -> outcome (list entry);
  web  : outcome unit;
  chat : ai_request -> threat -> outcome string
}.

Definition tick (w : world) : world :=
  mk_world (now w + 1) (iso w) (feed w) (web w) (chat w).

#[global] Instance scenario_env : Env world := {|
  clock w := (now w, tick w);
  clock_isoformat w := (iso w, tick w);
  feedparser_parse url := fun w => (feed w url, w);
  requests_get url := fun w => (web w, w);
  chat_completion request threat := fun w => (chat w request threat, w)
|}.

(** A set that enumerates its elements in the order of their last
    occurrence: one of the orders [list(set(l))] may give. *)
#[global] Instance scenario_set : PySet := {|
  list_of_set := nodup string_dec;
  list_of_set_NoDup := NoDup_nodup string_dec;
  list_of_set_In := nodup_In string_dec
|}.

(** A database in which 0 to 9 are the only decimal digits: the texts of
    the scenario are ASCII, for which every database says the same. *)
#[global] Instance scenario_unicode : Unicode := {|
  decimal_digit s :=
    match s with
    | String c _ => if Py.is_digit c then Some 1 else None
    | EmptyString => None
    end;
  decimal_digit_ascii c s _ := eq_refl;
  decimal_digit_bytes :=
    ltac:(intros [|c s] n; simpl;
          [discriminate
          |destruct (Py.is_digit c);
           [intros Hn; injection Hn as <-; lia | discriminate]])
|}.

(** Every network call fails, the chat model included. *)
Definition outage (t : Z) : world :=
  mk_world t "2024-05-01T12:00:00.000000"
    (fun _ => Raises (Exception "URLError"))
    (Raises (Exception "ConnectionError"))
    (fun _ _ => Raises (Exception "APIConnectionError")).

(** The manager of the repository: four scrapers and the AI processor. *)
Definition fetch_all_threats (client : bool) :=
  ThreatIntelligenceManager.fetch_all_threats
    ThreatIntelligenceManager.registered_scrapers
    (AIThreatProcessor.enrich_threat client).

Definition fetch_threats_by_source (client : bool) :=
  ThreatIntelligenceManager.fetch_threats_by_source
    ThreatIntelligenceManager.registered_scrapers
    (AIThreatProcessor.enrich_threat client).

Definition search_threats (client : bool) :=
  ThreatIntelligenceManager.search_threats
    ThreatIntelligenceManager.registered_scrapers
    (AIThreatProcessor.enrich_threat client).

Definition force_refresh (client : bool) :=
  ThreatIntelligenceManager.force_refresh
    ThreatIntelligenceManager.registered_scrapers
    (AIThreatProcessor.enrich_threat client).

(** Two threats as a refresh leaves them in the cache. *)
Definition ransomware_alert : threat :=
  raw_threat "fbi_240430" "FBI" "https://www.fbi.gov/investigate/cyber"
    "Ransomware Gang Targeting Critical Infrastructure" "critical"
    "2024-04-30T09:00:00" "2024-04-30T09:05:00.000000"
    "FBI warns of coordinated ransomware attacks on hospitals."
    ["ransomware"; "cybercrime"].

Definition chrome_alert : threat :=
  raw_threat "certin_civn-2024-0141" "CERT-IN" "https://www.cert-in.org.in"
    "Multiple Vulnerabilities in Google Chrome" "high"
    "2024-04-29T17:30:00" "2024-04-30T09:05:00.000000"
    "Remote attackers could execute arbitrary code in the browser."
    ["vulnerability"; "chrome"].

(** A manager that filled its cache at time 0, seen at time [t]. *)
Definition cached_at (t : Z) : state world :=
  mk_state (mk_manager [ransomware_alert; chrome_alert] (Some 0%Z))
    (outage t) [].

(** Ten minutes after the fetch, and two hours after it. *)
Definition fresh : state world := cached_at (600 * 1000000).
Definition stale : state world := cached_at (7200 * 1000000).

(** A manager just built. *)
Definition started : state world :=
  mk_state ThreatIntelligenceManager.__init__ (outage 0) [].

(** Two advisories of the CISA feed, dated as an RSS feed writes its
    [pubDate], the one of 6 May before the one of 30 April; and a world in
    which the CISA feed gives the two and every other call fails. *)
Definition advisory_of_may : entry :=
  mk_entry (Some "https://www.cisa.gov/news-events/alerts/aa24-127a")
    (Some "https://www.cisa.gov/news-events/alerts/aa24-127a")
    (Some "Router firmware update")
    (Some "Mon, 06 May 2024 09:00:00 +0000")
    (Some "An update for the firmware of edge routers is available.").

Definition advisory_of_april : entry :=
  mk_entry (Some "https://www.cisa.gov/news-events/alerts/aa24-121a")
    (Some "https://www.cisa.gov/news-events/alerts/aa24-121a")
    (Some "Mail gateway advisory")
    (Some "Tue, 30 Apr 2024 09:00:00 +0000")
    (Some "A mail gateway accepts oversized headers.").

Definition cisa_feed_up (t : Z) : world :=
  mk_world t "2024-05-07T12:00:00.000000"
    (fun url =>
       if String.eqb url CISAScraper.alerts_feed
       then Returns [advisory_of_may; advisory_of_april]
       else Raises (Exception "URLError"))
    (Raises (Exception "ConnectionError"))
    (fun _ _ => Raises (Exception "APIConnectionError")).

(** A manager just built in that world. *)
Definition started_with_feed : state world :=
  mk_state ThreatIntelligenceManager.__init__ (cisa_feed_up 0) [].

(** A threat whose content names one CVE twice and another one between. *)
Definition repeated_cve : threat :=
  raw_threat "cisa_aa24-038a" "CISA" "https://www.cisa.gov"
    "Ivanti Connect Secure exploited" "high" "2024-02-07T10:00:00"
    "2024-05-01T12:00:00.000000"
    "CVE-2024-0001 is chained with CVE-2024-0002; CVE-2024-0001 is the entry point."
    ["exploit"].

(** Times are counted from the fetch of [cached_at], at 09:05 on
    2024-04-30.  The dates of the two alerts can be read; minutes are whole
    minutes towards zero. *)
#[global] Instance scenario_datetime : Datetime := {|
  isoformat t :=
    if (t =? 0)%Z then "2024-04-30T09:05:00" else "2024-05-01T12:00:00";
  fromisoformat text :=
    if String.eqb text "2024-04-30T09:00:00"
    then Returns (Naive (-300 * 1000000))
    else if String.eqb text "2024-04-29T17:30:00"
    then Returns (Naive (-56100 * 1000000))
    else Raises (Exception "ValueError");
  whole_minutes d := Z.quot d 60000000;
  whole_minutes_nonpos d Hd := Z.quot_le_mono d 0 60000000 eq_refl Hd
|}.

(** The summary and the feeds endpoint of this manager. *)
Definition get_threat_summary (client : bool) :=
  ThreatIntelligenceManager.get_threat_summary
    ThreatIntelligenceManager.registered_scrapers
    (AIThreatProcessor.enrich_threat client).

(** A host on which the manager can be imported and has no API key, and
    one on which the import fails. *)
#[global] Instance scenario_host : ThreatIntelAPI.Host world := {|
  ThreatIntelAPI.import_threat_manager := ret tt;
  ThreatIntelAPI.make_client w := (false, w)
|}.

Definition broken_host : ThreatIntelAPI.Host world := {|
  ThreatIntelAPI.import_threat_manager :=
    raise (Exception "ModuleNotFoundError");
  ThreatIntelAPI.make_client w := (false, w)
|}.

(** A server whose manager was built before and holds the two alerts,
    fetched at time 0, seen at time [t]; and a server just started. *)
Definition serving_at (t : Z) : ThreatIntelAPI.server world :=
  ThreatIntelAPI.mk_server
    (ThreatIntelAPI.Bound
       (mk_manager [ransomware_alert; chrome_alert] (Some 0%Z)) false)
    (outage t) [].

Definition booted : ThreatIntelAPI.server world :=
  ThreatIntelAPI.mk_server ThreatIntelAPI.Unset (outage 0) [].

End Scenario.

(* ================================================================= *)
(** * Properties *)

Unset Implicit Arguments.

(* ================================================================= *)
(** ** The built-ins on small inputs *)

Example slice_to_positive :
  Py.slice_to 2 ["a"; "b"; "c"] = ["a"; "b"].
Proof. reflexivity. Qed.

Example slice_to_negative :
  Py.slice_to (-1) ["a"; "b"; "c"] = ["a"; "b"]
  /\ Py.slice_to (-7) ["a"; "b"; "c"] = [].
Proof. split; reflexivity. Qed.

Example lower_ascii : Py.lower "CVE-2024 Zero-Day" = "cve-2024 zero-day".
Proof. reflexivity. Qed.

Example str_in_examples :
  Py.str_in "ware" "ransomware" = true
  /\ Py.str_in "wares" "ransomware" = false
  /\ Py.str_in "" "" = true.
Proof. repeat split. Qed.

Example split_url :
  Py.split Py.slash "https://www.cisa.gov/news/aa24-131a"
  = ["https:"; ""; "www.cisa.gov"; "news"; "aa24-131a"].
Proof. reflexivity. Qed.

Example split_empty : Py.split Py.slash "" = [""].
Proof. reflexivity. Qed.

Example strip_both_ends :
  Py.strip (String (ascii_of_nat 9) "  1. Patch now  "
              ++ String Py.newline "")%string
  = "1. Patch now".
Proof. reflexivity. Qed.

Example findall_examples :
  AIThreatProcessor.re_findall_cve
    "see CVE-2024-12345678, cve-2023-0001x, CVE-20-1, CVE-2021-123 and CVE-1999-00001-77"
  = ["CVE-2024-1234567"; "cve-2023-0001"; "CVE-1999-00001"].
Proof. reflexivity. Qed.

Example stripped_lines_example :
  AIThreatProcessor.stripped_lines
    ("CVE-2024-0001" ++ String Py.newline
       ("  " ++ String Py.newline " evil.example.com "))%string
  = ["CVE-2024-0001"; "evil.example.com"].
Proof. reflexivity. Qed.

Example parse_recommendations_example :
  AIThreatProcessor.parse_recommendations
    ("1. Patch now" ++ String Py.newline
       ("- isolate hosts" ++ String Py.newline
          (Py.bullet ++ " monitor " ++ String Py.newline
             ("plain line" ++ String Py.newline "2."))))%string
  = ["Patch now"; "isolate hosts"; "monitor"].
Proof. reflexivity. Qed.

Example cisa_tags_example :
  CISAScraper._extract_tags
    "Ransomware exploit: patch the CVE against DDoS and phishing malware"
  = ["malware"; "ransomware"; "phishing"; "exploit"; "patch"].
Proof. reflexivity. Qed.

Example bleeping_tags_example :
  BleepingComputerScraper._extract_tags "Data breach at bank"
  = ["data_breach"].
Proof. reflexivity. Qed.

(** The sort puts the later date first and the undated items last, in the
    order they had. *)
Example sort_desc_example :
  let undated ttl :=
    mk_threat None None None (Some ttl) None None None None None
      None None None None in
  ThreatIntelligenceManager.sort_desc
    [undated "first"; Scenario.chrome_alert; undated "second";
     Scenario.ransomware_alert]
  = [Scenario.ransomware_alert; Scenario.chrome_alert;
     undated "first"; undated "second"].
Proof. reflexivity. Qed.

(* ================================================================= *)
(** ** Loops and handlers *)

(** The loop rule: an invariant over the items already visited, kept by a
    body that returns, holds of all the items when the loop ends, and the
    loop returns. *)
Lemma for_each_invariant {S A B : Type}
    (Inv : list A -> B -> S -> Prop) (body : A -> B -> M S B) :
  (forall x visited acc s, Inv visited acc s ->
     exists acc' s', body x acc s = (Returns acc', s')
                     /\ Inv (visited ++ [x]) acc' s') ->
  forall xs visited acc s, Inv visited acc s ->
    exists acc' s', for_each xs body acc s = (Returns acc', s')
                    /\ Inv (visited ++ xs) acc' s'.
Proof.
  intros Hbody xs.
  induction xs as [|x xs IH]; intros visited acc s Hinv; simpl.
  - exists acc, s. rewrite app_nil_r. split; [reflexivity | assumption].
  - destruct (Hbody x visited acc s Hinv) as (acc1 & s1 & Hrun & Hinv1).
    destruct (IH (visited ++ [x]) acc1 s1 Hinv1) as (acc2 & s2 & Hloop & Hinv2).
    exists acc2, s2. unfold bind. rewrite Hrun.
    rewrite <- app_assoc in Hinv2. simpl in Hinv2. split; assumption.
Qed.

Lemma bind_returns {S A B : Type} (m : M S A) (k : A -> M S B) s a s' :
  m s = (Returns a, s') -> bind m k s = k a s'.
Proof. intros Hm. unfold bind. rewrite Hm. reflexivity. Qed.

Lemma try_except_returns {S A : Type} (body : M S A) handler s a s' :
  body s = (Returns a, s') -> try_except body handler s = (Returns a, s').
Proof. intros Hbody. unfold try_except. rewrite Hbody. reflexivity. Qed.

(** A [try] whose handler cannot raise does not raise. *)
Lemma try_except_never_raises {S A : Type} (body : M S A) handler :
  (forall e, never_raises (handler e)) ->
  never_raises (try_except body handler).
Proof.
  intros Hhandler s. unfold try_except.
  destruct (body s) as [[a|e] s'].
  - exists a. reflexivity.
  - apply Hhandler.
Qed.

(* ================================================================= *)
(** ** Lists *)

Lemma In_firstn {A : Type} (n : nat) (l : list A) (x : A) :
  In x (firstn n l) -> In x l.
Proof.
  intros Hin. rewrite <- (firstn_skipn n l). apply in_or_app. left. exact Hin.
Qed.

Lemma NoDup_firstn {A : Type} (n : nat) (l : list A) :
  NoDup l -> NoDup (firstn n l).
Proof.
  revert n. induction l as [|x l IH]; intros n Hnd.
  - rewrite firstn_nil. constructor.
  - destruct n as [|n]; simpl; [constructor|].
    inversion Hnd as [|? ? Hnotin Hrest]; subst.
    constructor; [|apply IH; exact Hrest].
    intros Hin. apply Hnotin. eapply In_firstn. exact Hin.
Qed.

(* ================================================================= *)

Lemma leb_cases (a b : string) :
  String.leb a b = true <-> a = b \/ String_as_OT.lt a b.
Proof.
  unfold String.leb.
  destruct (String.compare a b) eqn:Hcmp.
  - apply String_as_OT.cmp_eq in Hcmp. tauto.
  - apply String_as_OT.cmp_lt in Hcmp. tauto.
  - split; [discriminate|]. intros [Heq | Hlt].
    + apply String_as_OT.cmp_eq in Heq.
      unfold String_as_OT.cmp in Heq. congruence.
    + apply String_as_OT.cmp_lt in Hlt.
      unfold String_as_OT.cmp in Hlt. congruence.
Qed.

Lemma leb_trans (a b c : string) :
  String.leb a b = true -> String.leb b c = true -> String.leb a c = true.
Proof.
  rewrite !leb_cases. intros [Hab | Hab] [Hbc | Hbc]; subst; auto.
  right. eapply String_as_OT.lt_trans; eassumption.
Qed.

Lemma ltb_leb (a b : string) : String.ltb a b = true -> String.leb a b = true.
Proof.
  unfold String.ltb, String.leb.
  destruct (String.compare a b); congruence.
Qed.

Lemma ltb_false_leb (a b : string) :
  String.ltb a b = false -> String.leb b a = true.
Proof.
  unfold String.ltb, String.leb. rewrite (String.compare_antisym b a).
  destruct (String.compare a b); simpl; congruence.
Qed.

(** Nothing sorts below the empty string. *)
Lemma leb_empty (a : string) : String.leb a EmptyString = true -> a = EmptyString.
Proof. destruct a; [reflexivity | discriminate]. Qed.

Lemma prefix_occurs (q s : string) :
  String.prefix q s = true <-> exists after, s = (q ++ after)%string.
Proof.
  revert s. induction q as [|c q IH]; intros s; simpl.
  - split; [intros _; exists s; reflexivity | destruct s; reflexivity].
  - destruct s as [|d s]; simpl.
    + split; [discriminate | intros [after Heq]; discriminate].
    + destruct (ascii_dec c d) as [Hcd | Hcd].
      * subst d. rewrite IH. split; intros [after Heq]; exists after.
        -- rewrite Heq. reflexivity.
        -- injection Heq as Heq. exact Heq.
      * split; [discriminate|]. intros [after Heq].
        injection Heq as Hc _. congruence.
Qed.

(** [q in s] holds exactly when [q] occurs in [s]. *)
Lemma str_in_occurs (q s : string) :
  Py.str_in q s = true <-> ThreatIntelligenceManager.occurs q s.
Proof.
  unfold ThreatIntelligenceManager.occurs.
  induction s as [|c s IH]; cbn [Py.str_in].
  - rewrite orb_false_r, prefix_occurs. split.
    + intros [after Heq]. exists EmptyString, after. exact Heq.
    + intros ([|d before] & after & Heq); [exists after; exact Heq|].
      discriminate.
  - rewrite orb_true_iff, prefix_occurs, IH. split.
    + intros [[after Heq] | (before & after & Heq)].
      * exists EmptyString, after. exact Heq.
      * exists (String c before), after. simpl. rewrite Heq. reflexivity.
    + intros ([|d before] & after & Heq).
      * left. exists after. exact Heq.
      * right. simpl in Heq. injection Heq as _ Heq.
        exists before, after. exact Heq.
Qed.

(** The empty string occurs in every string. *)
Lemma str_in_empty (s : string) : Py.str_in EmptyString s = true.
Proof. destruct s; reflexivity. Qed.

(* ================================================================= *)
(** ** The sort *)

Section Sorting.
Import ThreatIntelligenceManager.

Lemma insert_desc_perm x l : Permutation (x :: l) (insert_desc x l).
Proof.
  induction l as [|y l IH]; simpl.
  - apply Permutation_refl.
  - destruct (String.ltb (sort_key x) (sort_key y)).
    + eapply perm_trans; [apply perm_swap|]. apply perm_skip. exact IH.
    + apply Permutation_refl.
Qed.

Lemma sort_desc_perm l : Permutation l (sort_desc l).
Proof.
  induction l as [|x l IH]; simpl.
  - constructor.
  - eapply perm_trans; [apply perm_skip; exact IH|]. apply insert_desc_perm.
Qed.

Lemma date_ge_trans a b c : date_ge a b -> date_ge b c -> date_ge a c.
Proof. unfold date_ge. intros Hab Hbc. eapply leb_trans; eassumption. Qed.

Lemma insert_desc_sorted x l :
  sorted_by_date_desc l -> sorted_by_date_desc (insert_desc x l).
Proof.
  unfold sorted_by_date_desc.
  induction l as [|y l IH]; simpl; intros Hsorted.
  - constructor; constructor.
  - apply StronglySorted_inv in Hsorted. destruct Hsorted as [Htail Hhead].
    destruct (String.ltb (sort_key x) (sort_key y)) eqn:Hlt.
    + constructor; [apply IH; exact Htail|].
      eapply Permutation_Forall; [apply insert_desc_perm|].
      constructor; [|exact Hhead].
      unfold date_ge. apply ltb_leb. exact Hlt.
    + assert (Hxy : date_ge x y) by (apply ltb_false_leb; exact Hlt).
      constructor; [constructor; assumption|].
      constructor; [exact Hxy|].
      eapply Forall_impl; [|exact Hhead].
      intros z Hyz. eapply date_ge_trans; eassumption.
Qed.

Lemma sort_desc_sorted l : sorted_by_date_desc (sort_desc l).
Proof.
  induction l as [|x l IH]; simpl.
  - constructor.
  - apply insert_desc_sorted. exact IH.
Qed.

(** The sort is stable: items with the same key keep their order. *)
Lemma insert_desc_stable key x l :
  filter (fun y => String.eqb (sort_key y) key) (insert_desc x l) =
  filter (fun y => String.eqb (sort_key y) key) (x :: l).
Proof.
  induction l as [|y l IH]; [reflexivity|].
  simpl insert_desc.
  destruct (String.ltb (sort_key x) (sort_key y)) eqn:Hlt; [|reflexivity].
  simpl in *. rewrite IH.
  destruct (String.eqb (sort_key x) key) eqn:Hx; [|reflexivity].
  destruct (String.eqb (sort_key y) key) eqn:Hy; [|reflexivity].
  apply String.eqb_eq in Hx, Hy. rewrite Hx, Hy in Hlt.
  unfold String.ltb in Hlt.
  assert (Heq : String.compare key key = Eq)
    by (apply String_as_OT.cmp_eq; reflexivity).
  rewrite Heq in Hlt. discriminate.
Qed.

Lemma sort_desc_stable key l :
  filter (fun y => String.eqb (sort_key y) key) (sort_desc l) =
  filter (fun y => String.eqb (sort_key y) key) l.
Proof.
  induction l as [|x l IH]; [reflexivity|].
  simpl sort_desc. rewrite insert_desc_stable. simpl. rewrite IH. reflexivity.
Qed.

Lemma sorted_app_inv (l1 l2 : list threat) :
  sorted_by_date_desc (l1 ++ l2) -> sorted_by_date_desc l2.
Proof.
  unfold sorted_by_date_desc. induction l1 as [|x l1 IH]; simpl; intros Hs.
  - exact Hs.
  - apply StronglySorted_inv in Hs. apply IH. apply Hs.
Qed.

(** In a list sorted this way the undated items stand at the end. *)
Lemma sorted_undated_last l : sorted_by_date_desc l -> undated_last l.
Proof.
  intros Hsorted before x after Heq Hnone. subst l.
  apply sorted_app_inv in Hsorted.
  apply StronglySorted_inv in Hsorted. destruct Hsorted as [_ Hhead].
  eapply Forall_impl; [|exact Hhead].
  intros y Hxy. unfold date_ge, sort_key in Hxy. rewrite Hnone in Hxy.
  simpl in Hxy. apply leb_empty. exact Hxy.
Qed.

End Sorting.

(* ================================================================= *)
(** ** Slices *)

Lemma slice_to_length {A : Type} (limit : Z) (l : list A) :
  (0 <= limit)%Z -> List.length (Py.slice_to limit l) <= Z.to_nat limit.
Proof.
  intros Hpos. unfold Py.slice_to.
  destruct (limit <? 0)%Z eqn:Hneg; [apply Z.ltb_lt in Hneg; lia|].
  rewrite length_firstn. lia.
Qed.

Lemma slice_to_firstn {A : Type} (n : nat) (l : list A) :
  Py.slice_to (Z.of_nat n) l = firstn n l.
Proof.
  unfold Py.slice_to.
  destruct (Z.of_nat n <? 0)%Z eqn:Hneg; [apply Z.ltb_lt in Hneg; lia|].
  rewrite Nat2Z.id. reflexivity.
Qed.

(* ================================================================= *)
(** ** The scrapers *)

Section ScraperFacts.
Context {W : Type} `{Env W}.

Lemma utcnow_isoformat_run (w : W) :
  utcnow_isoformat w =
    (Returns (fst (clock_isoformat w)), snd (clock_isoformat w)).
Proof. unfold utcnow_isoformat. destruct (clock_isoformat w); reflexivity. Qed.

(** [_fetch_from_rss] of the CISA scraper absorbs every failure of the
    feed. *)
Lemma cisa_fetch_from_rss_run limit (w : W) :
  exists threats w',
    CISAScraper._fetch_from_rss limit w = (Returns threats, w').
Proof.
  unfold CISAScraper._fetch_from_rss, try_except.
  destruct (bind _ _ w) as [[threats|err] w']; eexists _, _; reflexivity.
Qed.

Lemma cisa_fetch_from_web_run limit (w : W) :
  exists w', CISAScraper._fetch_from_web limit w = (Returns [], w').
Proof.
  unfold CISAScraper._fetch_from_web, try_except, bind, ret.
  destruct (requests_get _ w) as [[u|err] w']; eexists; reflexivity.
Qed.

(** What [CISAScraper.fetch_threats] returns is what the RSS feed gave: an
    empty or failed feed leads to the web page, which yields nothing, and the
    handler that holds the fallback list is never entered. *)
Lemma cisa_fetch_threats_is_rss limit (w : W) :
  fst (CISAScraper.fetch_threats limit w) =
  fst (CISAScraper._fetch_from_rss limit w).
Proof.
  unfold CISAScraper.fetch_threats, try_except. unfold bind at 1.
  destruct (cisa_fetch_from_rss_run limit w) as (threats & w1 & Hrss).
  rewrite Hrss. destruct threats as [|t threats]; simpl.
  - destruct (cisa_fetch_from_web_run limit w1) as (w2 & Hweb).
    unfold bind. rewrite Hweb. reflexivity.
  - reflexivity.
Qed.

Lemma cisa_failed_feed_gives_nothing limit (w : W) err :
  fst (feedparser_parse CISAScraper.alerts_feed w) = Raises err ->
  fst (CISAScraper.fetch_threats limit w) = Returns [].
Proof.
  intros Hfeed. rewrite cisa_fetch_threats_is_rss.
  unfold CISAScraper._fetch_from_rss, try_except, bind.
  destruct (feedparser_parse CISAScraper.alerts_feed w) as [r w1].
  simpl in Hfeed. subst r. reflexivity.
Qed.

(** The other three scrapers cut their fallback list to the limit. *)
Lemma fbi_fetch_threats_run limit (w : W) :
  exists fallback w',
    FBIScraper._get_fallback_data w = (Returns fallback, w')
    /\ List.length fallback = 4
    /\ FBIScraper.fetch_threats limit w =
         (Returns (Py.slice_to limit fallback), w').
Proof.
  unfold FBIScraper.fetch_threats, FBIScraper._get_fallback_data.
  unfold try_except, list_literal, mock_threat, bind, ret.
  rewrite !utcnow_isoformat_run.
  eexists _, _. split; [reflexivity|]. split; reflexivity.
Qed.

Lemma certin_fetch_threats_run limit (w : W) :
  exists fallback w',
    CERTINScraper._get_fallback_data w = (Returns fallback, w')
    /\ List.length fallback = 4
    /\ CERTINScraper.fetch_threats limit w =
         (Returns (Py.slice_to limit fallback), w').
Proof.
  unfold CERTINScraper.fetch_threats, CERTINScraper._get_fallback_data.
  unfold try_except, list_literal, mock_threat, bind, ret.
  rewrite !utcnow_isoformat_run.
  eexists _, _. split; [reflexivity|]. split; reflexivity.
Qed.

Lemma bleeping_fallback_run (w : W) :
  exists fallback w',
    BleepingComputerScraper._get_fallback_data w = (Returns fallback, w')
    /\ List.length fallback = 5.
Proof.
  unfold BleepingComputerScraper._get_fallback_data.
  unfold list_literal, mock_threat, bind, ret.
  rewrite !utcnow_isoformat_run.
  eexists _, _. split; reflexivity.
Qed.

Lemma bleeping_failed_feed_falls_back limit (w : W) err :
  fst (feedparser_parse BleepingComputerScraper.rss_feed w) = Raises err ->
  exists fallback,
    fst (BleepingComputerScraper._get_fallback_data
           (snd (feedparser_parse BleepingComputerScraper.rss_feed w)))
      = Returns fallback
    /\ fst (BleepingComputerScraper.fetch_threats limit w)
       = Returns (Py.slice_to limit fallback).
Proof.
  intros Hfeed.
  unfold BleepingComputerScraper.fetch_threats,
    BleepingComputerScraper._fetch_from_rss, try_except.
  unfold bind at 1 2.
  destruct (feedparser_parse BleepingComputerScraper.rss_feed w) as [r w1].
  simpl in *. subst r. unfold ret at 1. simpl.
  destruct (bleeping_fallback_run w1) as (fallback & w2 & Hfb & _).
  exists fallback. unfold bind. rewrite Hfb. simpl. split; reflexivity.
Qed.

Lemma cisa_fallback_run (w : W) :
  exists fallback w',
    CISAScraper._get_fallback_data w = (Returns fallback, w')
    /\ List.length fallback = 2.
Proof.
  unfold CISAScraper._get_fallback_data.
  unfold list_literal, mock_threat, bind, ret.
  rewrite !utcnow_isoformat_run.
  eexists _, _. split; reflexivity.
Qed.

(** No scraper lets an exception out of [fetch_threats]. *)
Lemma cisa_fetch_threats_never_raises limit :
  never_raises (CISAScraper.fetch_threats (W := W) limit).
Proof.
  apply try_except_never_raises. intros e w.
  destruct (cisa_fallback_run w) as (fallback & w' & Hrun & _).
  exists fallback. rewrite Hrun. reflexivity.
Qed.

Lemma fbi_fetch_threats_never_raises limit :
  never_raises (FBIScraper.fetch_threats (W := W) limit).
Proof.
  intros w.
  destruct (fbi_fetch_threats_run limit w) as (fallback & w' & _ & _ & Hrun).
  exists (Py.slice_to limit fallback). rewrite Hrun. reflexivity.
Qed.

Lemma certin_fetch_threats_never_raises limit :
  never_raises (CERTINScraper.fetch_threats (W := W) limit).
Proof.
  intros w.
  destruct (certin_fetch_threats_run limit w)
    as (fallback & w' & _ & _ & Hrun).
  exists (Py.slice_to limit fallback). rewrite Hrun. reflexivity.
Qed.

Lemma bleeping_fetch_threats_never_raises limit :
  never_raises (BleepingComputerScraper.fetch_threats (W := W) limit).
Proof.
  apply try_except_never_raises. intros e w.
  destruct (bleeping_fallback_run w) as (fallback & w' & Hrun & _).
  exists (Py.slice_to limit fallback). unfold bind. rewrite Hrun. reflexivity.
Qed.

(** With a limit that is not negative, the FBI and CERT-IN scrapers return at
    most that many items. *)
Lemma fbi_fetch_threats_within_limit limit (w : W) :
  (0 <= limit)%Z ->
  exists threats,
    fst (FBIScraper.fetch_threats limit w) = Returns threats
    /\ List.length threats <= Z.to_nat limit.
Proof.
  intros Hpos.
  destruct (fbi_fetch_threats_run limit w) as (fallback & w' & _ & _ & Hrun).
  exists (Py.slice_to limit fallback). rewrite Hrun. split; [reflexivity|].
  apply slice_to_length. exact Hpos.
Qed.

Lemma certin_fetch_threats_within_limit limit (w : W) :
  (0 <= limit)%Z ->
  exists threats,
    fst (CERTINScraper.fetch_threats limit w) = Returns threats
    /\ List.length threats <= Z.to_nat limit.
Proof.
  intros Hpos.
  destruct (certin_fetch_threats_run limit w)
    as (fallback & w' & _ & _ & Hrun).
  exists (Py.slice_to limit fallback). rewrite Hrun. split; [reflexivity|].
  apply slice_to_length. exact Hpos.
Qed.

End ScraperFacts.

(* ================================================================= *)
(** ** The AI processor *)

Section ProcessorFacts.
Context {W : Type} `{Env W} `{PySet} {U : Unicode}.
Variable client : bool.

Import AIThreatProcessor.

Lemma generate_quick_summary_run threat (w : W) :
  exists summary w',
    generate_quick_summary client threat w = (Returns summary, w').
Proof.
  unfold generate_quick_summary, try_except, bind, ret.
  destruct client; simpl; [|eexists _, _; reflexivity].
  destruct (chat_completion Summary threat w) as [[content|err] w'];
    eexists _, _; reflexivity.
Qed.

(** [extract_iocs] returns the fallback, or nothing when the model says
    there is none, or the first ten stripped lines of its answer. *)
Lemma extract_iocs_run threat (w : W) :
  exists found w',
    extract_iocs client threat w = (Returns found, w')
    /\ (found = _fallback_iocs threat
        \/ found = []
        \/ exists content,
             client = true
             /\ fst (chat_completion Iocs threat w) = Returns content
             /\ found = firstn 10 (stripped_lines (Py.strip content))).
Proof.
  unfold extract_iocs, try_except, bind, ret.
  destruct client; simpl; [|eexists _, _; split; [reflexivity | tauto]].
  destruct (chat_completion Iocs threat w) as [[content|err] w'] eqn:Hchat;
    [|eexists _, _; split; [reflexivity | tauto]].
  destruct (String.eqb (Py.lower (Py.strip content)) "none").
  - eexists _, _. split; [reflexivity | tauto].
  - eexists _, _. split; [reflexivity|]. right. right. exists content.
    repeat split.
Qed.

Lemma identify_affected_systems_run threat (w : W) :
  exists systems w',
    identify_affected_systems client threat w = (Returns systems, w')
    /\ (systems = _fallback_affected_systems threat
        \/ systems = ["Not specified in alert"]
        \/ exists content,
             client = true
             /\ fst (chat_completion AffectedSystems threat w)
                = Returns content
             /\ systems = firstn 5 (stripped_lines (Py.strip content))).
Proof.
  unfold identify_affected_systems, try_except, bind, ret.
  destruct client; simpl; [|eexists _, _; split; [reflexivity | tauto]].
  destruct (chat_completion AffectedSystems threat w)
    as [[content|err] w'] eqn:Hchat;
    [|eexists _, _; split; [reflexivity | tauto]].
  destruct (String.eqb (Py.lower (Py.strip content)) "not specified").
  - eexists _, _. split; [reflexivity | tauto].
  - eexists _, _. split; [reflexivity|]. right. right. exists content.
    repeat split.
Qed.

Lemma generate_recommendations_run threat (w : W) :
  exists recs w',
    generate_recommendations client threat w = (Returns recs, w')
    /\ (recs = _fallback_recommendations threat
        \/ exists content,
             client = true
             /\ fst (chat_completion Recommendations threat w)
                = Returns content
             /\ recs = firstn 5 (parse_recommendations (Py.strip content))).
Proof.
  unfold generate_recommendations, try_except, bind, ret.
  destruct client; simpl; [|eexists _, _; split; [reflexivity | tauto]].
  destruct (chat_completion Recommendations threat w)
    as [[content|err] w'] eqn:Hchat;
    [|eexists _, _; split; [reflexivity | tauto]].
  eexists _, _. split; [reflexivity|]. right. exists content.
  repeat split.
Qed.

(** The fallback lists are short. *)
Lemma fallback_iocs_length threat :
  List.length (_fallback_iocs threat) <= 5.
Proof. unfold _fallback_iocs. apply (slice_to_length 5). lia. Qed.

Lemma fallback_affected_systems_length threat :
  List.length (_fallback_affected_systems threat) <= 5.
Proof.
  unfold _fallback_affected_systems.
  destruct (Py.nonempty _); [apply (slice_to_length 5); lia | simpl; lia].
Qed.

Lemma fallback_recommendations_length threat :
  List.length (_fallback_recommendations threat) <= 5.
Proof. unfold _fallback_recommendations. apply (slice_to_length 5). lia. Qed.

(** The fallback indicators are distinct matches of the pattern. *)
Lemma fallback_iocs_distinct threat :
  NoDup (_fallback_iocs threat)
  /\ forall x, In x (_fallback_iocs threat) ->
       In x (re_findall_cve
               (get (full_content threat) "" ++ " "
                  ++ get (title threat) "")%string).
Proof.
  unfold _fallback_iocs. rewrite (slice_to_firstn 5). simpl app. split.
  - apply NoDup_firstn. apply list_of_set_NoDup.
  - intros x Hin. apply In_firstn in Hin.
    apply (proj1 (list_of_set_In _ _)) in Hin. exact Hin.
Qed.

(** [enrich_threat] returns the dictionary it was given with the four
    enrichment keys set; it does not raise, so its handler is never
    reached. *)
Lemma enrich_threat_run threat (w : W) :
  exists summary found systems recs w',
    enrich_threat client threat w =
      (Returns
         {| feed_id := feed_id threat; source := source threat;
            source_url := source_url threat; title := title threat;
            severity := severity threat;
            published_date := published_date threat;
            fetched_date := fetched_date threat;
            full_content := full_content threat; tags := tags threat;
            quick_summary := Some summary; iocs := Some found;
            affected_systems := Some systems;
            recommendations := Some recs |},
       w')
    /\ List.length found <= 10
    /\ List.length systems <= 5
    /\ List.length recs <= 5.
Proof.
  destruct (generate_quick_summary_run threat w) as (summary & w1 & H1).
  destruct (extract_iocs_run threat w1) as (found & w2 & H2 & Hfound).
  destruct (identify_affected_systems_run threat w2)
    as (systems & w3 & H3 & Hsystems).
  destruct (generate_recommendations_run threat w3)
    as (recs & w4 & H4 & Hrecs).
  exists summary, found, systems, recs, w4. split; [|split; [|split]].
  - unfold enrich_threat. apply try_except_returns.
    erewrite bind_returns by exact H1.
    erewrite bind_returns by exact H2.
    erewrite bind_returns by exact H3.
    erewrite bind_returns by exact H4.
    reflexivity.
  - destruct Hfound as [-> | [-> | (content & _ & _ & ->)]].
    + pose proof (fallback_iocs_length threat). lia.
    + simpl. lia.
    + rewrite length_firstn. lia.
  - destruct Hsystems as [-> | [-> | (content & _ & _ & ->)]].
    + apply fallback_affected_systems_length.
    + simpl. lia.
    + rewrite length_firstn. lia.
  - destruct Hrecs as [-> | (content & _ & _ & ->)].
    + apply fallback_recommendations_length.
    + rewrite length_firstn. lia.
Qed.

Lemma enrich_threat_never_raises threat :
  never_raises (enrich_threat (W := W) client threat).
Proof.
  intros w.
  destruct (enrich_threat_run threat w)
    as (summary & found & systems & recs & w' & Hrun & _).
  eexists. rewrite Hrun. reflexivity.
Qed.


End ProcessorFacts.

(* ================================================================= *)
(** ** The manager *)

Section ManagerFacts.
Context {W : Type} `{Env W}.
Variable scrapers : list (string * (Z -> M W (list threat))).
Variable enrich_threat : threat -> M W threat.

Import ThreatIntelligenceManager.

#[local] Abbreviation fetch_all_threats := (fetch_all_threats scrapers enrich_threat).
#[local] Abbreviation enrich_all := (enrich_all enrich_threat).
#[local] Abbreviation fetch_source := (fetch_source enrich_threat).
#[local] Abbreviation enrich_outcome := (enrich_outcome enrich_threat).
#[local] Abbreviation contribution := (contribution enrich_threat).
#[local] Abbreviation merged := (merged enrich_threat).

Lemma lift_run {A : Type} (m : M W A) s :
  exists r w', m (world s) = (r, w')
               /\ lift m s = (r, mk_state (self s) w' (calls s)).
Proof.
  unfold lift. destruct (m (world s)) as [r w'].
  exists r, w'. split; reflexivity.
Qed.

Lemma utcnow_run (w : W) :
  utcnow w = (Returns (fst (clock w)), snd (clock w)).
Proof. unfold utcnow. destruct (clock w); reflexivity. Qed.

Lemma enrich_all_spec threats s :
  exists out w',
    enrich_all threats s = (Returns out, mk_state (self s) w' (calls s))
    /\ Forall2 enrich_outcome threats out.
Proof.
  unfold ThreatIntelligenceManager.enrich_all.
  destruct (@for_each_invariant (state W) threat (list threat)
              (fun visited acc s' =>
                 self s' = self s /\ calls s' = calls s
                 /\ Forall2 enrich_outcome visited acc)
              (fun threat enriched_threats =>
                 try_except
                   (enriched <- lift (enrich_threat threat) ;;
                    ret (enriched_threats ++ [enriched]))
                   (fun _ => ret (enriched_threats ++ [threat]))))
    with (xs := threats) (visited := @nil threat) (acc := @nil threat) (s := s)
    as (out & s' & Hrun & Hself & Hcalls & Hall).
  - intros x visited acc s1 (Hself & Hcalls & Hall).
    unfold try_except, bind, ret, lift.
    pose (w := world s1).
    assert (Hout : forall o, (match fst (enrich_threat x w) with
                              | Returns e => o = e | Raises _ => o = x end)
                             -> enrich_outcome x o)
      by (intros o Ho; exists w; exact Ho).
    subst w. destruct (enrich_threat x (world s1)) as [[e|err] w1]; simpl in *.
    + eexists _, _. split; [reflexivity|]. simpl.
      repeat split; try assumption.
      apply Forall2_app; [assumption|]. constructor; [|constructor].
      apply Hout. reflexivity.
    + eexists _, _. split; [reflexivity|]. simpl.
      repeat split; try assumption.
      apply Forall2_app; [assumption|]. constructor; [|constructor].
      apply Hout. reflexivity.
  - repeat split. constructor.
  - exists out, (world s'). simpl in Hall. split; [|assumption].
    rewrite Hrun. destruct s' as [me w' cs]. simpl in *. subst. reflexivity.
Qed.


Lemma call_fetch_threats_run name (scraper : Z -> M W (list threat)) limit
    (s : state W) :
  exists r w',
    scraper limit (world s) = (r, w')
    /\ call_fetch_threats name scraper limit s =
       (r, mk_state (self s) w' (calls s ++ [Fetched name limit r])).
Proof.
  unfold call_fetch_threats. destruct (scraper limit (world s)) as [r w'].
  exists r, w'. split; reflexivity.
Qed.

Lemma contribution_length use_ai ev items :
  contribution use_ai ev items -> List.length items = fetched_count ev.
Proof.
  destruct ev as [name limit [threats|err]]; simpl.
  - destruct use_ai.
    + intros Hall. symmetry. eapply Forall2_length. exact Hall.
    + intros ->. reflexivity.
  - intros ->. reflexivity.
Qed.

(** The merged list has as many items as the calls gave. *)
Lemma merged_length use_ai evs all_threats :
  merged use_ai evs all_threats ->
  List.length all_threats = total_fetched evs.
Proof.
  intros (parts & -> & Hparts). unfold total_fetched.
  induction Hparts as [|ev items evs parts Hone _ IH]; simpl.
  - reflexivity.
  - rewrite length_app, IH, (contribution_length _ _ _ Hone). reflexivity.
Qed.

Lemma merged_snoc use_ai evs all_threats ev items :
  merged use_ai evs all_threats ->
  contribution use_ai ev items ->
  merged use_ai (evs ++ [ev]) (all_threats ++ items).
Proof.
  intros (parts & -> & Hparts) Hone. exists (parts ++ [items]). split.
  - rewrite concat_app. simpl. rewrite app_nil_r. reflexivity.
  - apply Forall2_app; [exact Hparts|]. constructor; [exact Hone|constructor].
Qed.

(** One turn of the loop over the sources: it returns, records one call, and
    appends the contribution of that call. *)
Lemma fetch_source_spec limit use_ai name scraper all_threats (s : state W) :
  exists out r w',
    fetch_source limit use_ai (name, scraper) all_threats s =
      (Returns (all_threats ++ out),
       mk_state (self s) w' (calls s ++ [Fetched name limit r]))
    /\ contribution use_ai (Fetched name limit r) out.
Proof.
  unfold ThreatIntelligenceManager.fetch_source, try_except, bind.
  destruct (call_fetch_threats_run name scraper limit s)
    as (r & w1 & _ & Hcall).
  rewrite Hcall. destruct r as [threats|err].
  - destruct (use_ai && Py.nonempty threats) eqn:Hai.
    + destruct (enrich_all_spec threats
                  (mk_state (self s) w1
                     (calls s ++ [Fetched name limit (Returns threats)])))
        as (out & w2 & Hrun & Hall).
      rewrite Hrun. simpl. exists out, (Returns threats), w2.
      split; [reflexivity|].
      apply andb_true_iff in Hai. destruct Hai as [-> _]. exact Hall.
    + exists threats, (Returns threats), w1. split; [reflexivity|]. simpl.
      destruct use_ai; [|reflexivity].
      destruct threats; [constructor | discriminate].
  - exists [], (Raises err), w1. rewrite app_nil_r. split; reflexivity.
Qed.

(** The whole loop: one recorded call per registered source, in the order of
    the registry, each with the limit asked for. *)
Lemma fan_out_spec limit use_ai (s : state W) :
  exists out evs w',
    for_each scrapers (fetch_source limit use_ai) [] s =
      (Returns out, mk_state (self s) w' (calls s ++ evs))
    /\ map fetched_source evs = map fst scrapers
    /\ Forall (fun ev => fetched_limit ev = limit) evs
    /\ merged use_ai evs out.
Proof.
  destruct (@for_each_invariant (state W) _ (list threat)
              (fun visited acc s' =>
                 self s' = self s
                 /\ exists evs,
                      calls s' = calls s ++ evs
                      /\ map fetched_source evs = map fst visited
                      /\ Forall (fun ev => fetched_limit ev = limit) evs
                      /\ merged use_ai evs acc)
              (fetch_source limit use_ai))
    with (xs := scrapers) (visited := @nil (string * (Z -> M W (list threat))))
         (acc := @nil threat) (s := s)
    as (out & s' & Hrun & Hself & evs & Hcalls & Hnames & Hlimits & Hlen).
  - intros [name scraper] visited acc s1
           (Hself & evs & Hcalls & Hnames & Hlimits & Hlen).
    destruct (fetch_source_spec limit use_ai name scraper acc s1)
      as (out & r & w1 & Hrun & Hcount).
    eexists _, _. split; [exact Hrun|]. simpl. split; [assumption|].
    exists (evs ++ [Fetched name limit r]).
    rewrite Hcalls, app_assoc. split; [reflexivity|].
    rewrite !map_app. simpl. rewrite Hnames. split; [reflexivity|].
    split.
    + apply Forall_app. split; [assumption|]. constructor; [reflexivity|constructor].
    + apply merged_snoc; assumption.
  - split; [reflexivity|]. exists []. rewrite app_nil_r.
    repeat split; [constructor|]. exists []. split; [reflexivity|constructor].
  - exists out, evs, (world s'). simpl in Hnames.
    repeat split; try assumption.
    rewrite Hrun. destruct s' as [me w' cs]. simpl in *. subst. reflexivity.
Qed.

(** [_is_cache_valid] reads the clock only when there is a cache and a fetch
    time, and then compares the age with [cache_duration]. *)
Lemma is_cache_valid_spec (s : state W) :
  match threat_cache (self s), last_fetch_time (self s) with
  | _ :: _, Some fetched_at =>
      _is_cache_valid s =
        (Returns (fst (clock (world s)) - fetched_at <? cache_duration)%Z,
         mk_state (self s) (snd (clock (world s))) (calls s))
  | _, _ => _is_cache_valid s = (Returns false, s)
  end.
Proof.
  unfold _is_cache_valid, bind, get_self, ret, lift.
  destruct (threat_cache (self s)) as [|t cache]; [reflexivity|].
  destruct (last_fetch_time (self s)) as [fetched_at|]; [|reflexivity].
  rewrite utcnow_run. reflexivity.
Qed.

Lemma is_cache_valid_run (s : state W) :
  exists valid w',
    _is_cache_valid s = (Returns valid, mk_state (self s) w' (calls s)).
Proof.
  pose proof (is_cache_valid_spec s) as Hspec.
  destruct s as [me w cs]. simpl in *.
  destruct (threat_cache me) as [|t cache].
  - exists false, w. exact Hspec.
  - destruct (last_fetch_time me) as [fetched_at|].
    + eexists _, _. exact Hspec.
    + exists false, w. exact Hspec.
Qed.

(** [fetch_all_threats] in full: it serves the cache when the cache is valid,
    and otherwise asks every source, sorts what it got, stores and returns
    it.  The handler of its outer [try] is never reached. *)
Lemma fetch_all_threats_spec limit use_ai (s : state W) :
  exists valid w0,
    _is_cache_valid s = (Returns valid, mk_state (self s) w0 (calls s))
    /\ if valid
       then fetch_all_threats limit use_ai s =
              (Returns (threat_cache (self s)),
               mk_state (self s) w0 (calls s))
       else exists out evs w1,
              for_each scrapers (fetch_source limit use_ai) []
                (mk_state (self s) w0 (calls s)) =
                (Returns out, mk_state (self s) w1 (calls s ++ evs))
              /\ fetch_all_threats limit use_ai s =
                   (Returns (sort_desc out),
                    mk_state
                      (mk_manager (sort_desc out) (Some (fst (clock w1))))
                      (snd (clock w1)) (calls s ++ evs))
              /\ map fetched_source evs = map fst scrapers
              /\ Forall (fun ev => fetched_limit ev = limit) evs
              /\ merged use_ai evs out.
Proof.
  destruct (is_cache_valid_run s) as (valid & w0 & Hvalid).
  exists valid, w0. split; [exact Hvalid|].
  unfold ThreatIntelligenceManager.fetch_all_threats.
  destruct valid.
  - apply try_except_returns.
    erewrite bind_returns by exact Hvalid. reflexivity.
  - destruct (fan_out_spec limit use_ai (mk_state (self s) w0 (calls s)))
      as (out & evs & w1 & Hrun & Hnames & Hlimits & Hlen).
    simpl in Hrun. exists out, evs, w1.
    split; [exact Hrun|]. split; [|repeat split; assumption].
    apply try_except_returns.
    erewrite bind_returns by exact Hvalid. cbv beta iota.
    erewrite bind_returns by exact Hrun.
    unfold bind, set_threat_cache, set_last_fetch_time, lift, ret. simpl.
    rewrite utcnow_run. reflexivity.
Qed.


(** [force_refresh] is [fetch_all_threats] run on an emptied manager. *)
Lemma force_refresh_unfold use_ai (s : state W) :
  force_refresh scrapers enrich_threat use_ai s =
  fetch_all_threats 10 use_ai
    (mk_state (mk_manager [] None) (world s) (calls s)).
Proof. reflexivity. Qed.

Lemma fetch_all_threats_cache_sorted limit use_ai (s : state W) :
  sorted_by_date_desc (threat_cache (self s)) ->
  sorted_by_date_desc
    (threat_cache (self (snd (fetch_all_threats limit use_ai s)))).
Proof.
  intros Hsorted.
  destruct (fetch_all_threats_spec limit use_ai s)
    as (valid & w0 & _ & Hrun).
  destruct valid.
  - rewrite Hrun. exact Hsorted.
  - destruct Hrun as (out & evs & w1 & _ & Hall & _).
    rewrite Hall. simpl. apply sort_desc_sorted.
Qed.

(** [fetch_threats_by_source] does not write to the manager. *)
Lemma fetch_threats_by_source_self source limit use_ai (s : state W) :
  self (snd (fetch_threats_by_source scrapers enrich_threat
               source limit use_ai s)) = self s.
Proof.
  unfold fetch_threats_by_source, try_except.
  destruct (scrapers_get scrapers source) as [scraper|]; [|reflexivity].
  unfold bind.
  destruct (call_fetch_threats_run source scraper limit s)
    as (r & w1 & _ & Hcall).
  rewrite Hcall. destruct r as [threats|err]; [|reflexivity].
  destruct (use_ai && Py.nonempty threats); [|reflexivity].
  destruct (enrich_all_spec threats
              (mk_state (self s) w1
                 (calls s ++ [Fetched source limit (Returns threats)])))
    as (out & w2 & Hrun & _).
  rewrite Hrun. reflexivity.
Qed.

(** The loop of [search_threats] keeps, in order, the threats that pass the
    rule under the filter that is applied. *)
Lemma search_loop query severity_filter (cache results : list threat) :
  fold_left (fun results threat =>
               search_step (Py.lower query) severity_filter threat results)
            cache results =
  results ++ filter (search_spec query (applied_filter severity_filter)) cache.
Proof.
  revert results. induction cache as [|t cache IH]; intros results; simpl.
  - rewrite app_nil_r. reflexivity.
  - rewrite IH. unfold search_step, search_spec, applied_filter.
    destruct (Py.str_in (Py.lower query) (Py.lower (get (title t) ""))
              || Py.str_in (Py.lower query)
                   (Py.lower (get (full_content t) ""))
              || Py.str_in (Py.lower query)
                   (Py.lower (Py.join " " (get (tags t) [])))); simpl.
    + destruct severity_filter as [wanted|].
      * destruct (Py.truthy wanted).
        -- destruct (String.eqb (Py.lower (get (severity t) ""))
                       (Py.lower wanted)).
           ++ rewrite <- app_assoc. reflexivity.
           ++ reflexivity.
        -- rewrite <- app_assoc. reflexivity.
      * rewrite <- app_assoc. reflexivity.
    + reflexivity.
Qed.

(** [search_threats] in full: it fills an empty cache first, then filters
    the cache it finds; the handler of its [try] is never reached. *)
Lemma search_threats_spec query severity_filter (s : state W) :
  let s1 := if Py.nonempty (threat_cache (self s)) then s
            else snd (fetch_all_threats 10 true s) in
  search_threats scrapers enrich_threat query severity_filter s =
    (Returns (filter (search_spec query (applied_filter severity_filter))
                (threat_cache (self s1))),
     s1).
Proof.
  unfold search_threats. cbv zeta.
  apply try_except_returns.
  unfold bind at 1. unfold get_self at 1.
  destruct (threat_cache (self s)) as [|t cache] eqn:Hcache; simpl.
  - destruct (fetch_all_threats_spec 10 true s) as (valid & w0 & _ & Hrun).
    assert (Hret : exists l s', fetch_all_threats 10 true s = (Returns l, s')).
    { destruct valid.
      - eexists _, _. exact Hrun.
      - destruct Hrun as (out & evs & w1 & _ & Hall & _).
        eexists _, _. exact Hall. }
    destruct Hret as (l & s' & Hret).
    unfold bind at 1. unfold bind at 1. rewrite Hret. simpl.
    unfold bind, get_self, ret. rewrite search_loop. reflexivity.
  - unfold bind, get_self, ret. rewrite Hcache, search_loop. reflexivity.
Qed.

(** The test used as the filter says what the rule says. *)
Lemma search_spec_iff query severity_filter t :
  search_spec query severity_filter t = true <->
  text_matches query t /\ severity_matches severity_filter t.
Proof.
  unfold search_spec, text_matches, severity_matches.
  rewrite andb_true_iff, !orb_true_iff, !str_in_occurs.
  destruct severity_filter as [wanted|].
  - rewrite String.eqb_eq. tauto.
  - tauto.
Qed.

(** No public method of the manager raises, whatever the scrapers and the
    enricher do. *)
Lemma fetch_all_threats_never_raises limit use_ai :
  never_raises (fetch_all_threats limit use_ai).
Proof.
  intros s.
  destruct (fetch_all_threats_spec limit use_ai s)
    as (valid & w0 & _ & Hrun).
  destruct valid.
  - eexists. rewrite Hrun. reflexivity.
  - destruct Hrun as (out & evs & w1 & _ & Hall & _).
    eexists. rewrite Hall. reflexivity.
Qed.

Lemma fetch_threats_by_source_never_raises source limit use_ai :
  never_raises
    (fetch_threats_by_source scrapers enrich_threat source limit use_ai).
Proof.
  apply try_except_never_raises. intros e s. exists []. reflexivity.
Qed.

Lemma search_threats_never_raises query severity_filter :
  never_raises (search_threats scrapers enrich_threat query severity_filter).
Proof.
  apply try_except_never_raises. intros e s. exists []. reflexivity.
Qed.

Lemma force_refresh_never_raises use_ai :
  never_raises (force_refresh scrapers enrich_threat use_ai).
Proof.
  intros s. rewrite force_refresh_unfold. apply fetch_all_threats_never_raises.
Qed.

(* ----------------------------------------------------------------- *)
(** *** Claims about the cache policy *)

(** C5. While the cache is populated and younger than [cache_duration],
    [fetch_all_threats] returns the cached list, calls no source, and leaves
    the cache and its fetch time as they were; a second call that still reads
    a time inside the window returns the same list again. *)
Theorem fetch_all_threats_serves_fresh_cache
    limit use_ai limit' use_ai' (s : state W) fetched_at :
  threat_cache (self s) <> [] ->
  last_fetch_time (self s) = Some fetched_at ->
  (fst (clock (world s)) - fetched_at < cache_duration)%Z ->
  let w1 := snd (clock (world s)) in
  fetch_all_threats limit use_ai s =
    (Returns (threat_cache (self s)), mk_state (self s) w1 (calls s))
  /\ ((fst (clock w1) - fetched_at < cache_duration)%Z ->
      fetch_all_threats limit' use_ai' (mk_state (self s) w1 (calls s)) =
        (Returns (threat_cache (self s)),
         mk_state (self s) (snd (clock w1)) (calls s))).
Proof.
  intros Hcache Htime Hage w1.
  assert (Hfresh : forall lim ai (s0 : state W),
            threat_cache (self s0) <> [] ->
            last_fetch_time (self s0) = Some fetched_at ->
            (fst (clock (world s0)) - fetched_at < cache_duration)%Z ->
            fetch_all_threats lim ai s0 =
              (Returns (threat_cache (self s0)),
               mk_state (self s0) (snd (clock (world s0))) (calls s0))).
  { intros lim ai s0 Hc Ht Ha.
    destruct (fetch_all_threats_spec lim ai s0) as (valid & w0 & Hvalid & Hrun).
    pose proof (is_cache_valid_spec s0) as Hspec.
    destruct (threat_cache (self s0)) as [|t cache] eqn:Ecache;
      [contradiction|].
    rewrite Ht in Hspec. rewrite Hspec in Hvalid.
    apply Z.ltb_lt in Ha. rewrite Ha in Hvalid.
    injection Hvalid as Hv Hw. subst valid w0. exact Hrun. }
  split.
  - apply Hfresh; assumption.
  - intros Hage'. apply (Hfresh limit' use_ai' (mk_state (self s) w1 (calls s)));
      assumption.
Qed.

(** C1, as the code has it.  When a refresh gets no item from any source,
    [fetch_all_threats] returns the empty list, stores it as the cache and
    stamps the fetch time, whether or not there was a cache before. *)
Theorem fetch_all_threats_empty_refresh limit use_ai (s : state W) :
  fst (_is_cache_valid s) = Returns false ->
  total_fetched
    (skipn (List.length (calls s))
       (calls (snd (fetch_all_threats limit use_ai s)))) = 0 ->
  fst (fetch_all_threats limit use_ai s) = Returns []
  /\ threat_cache (self (snd (fetch_all_threats limit use_ai s))) = []
  /\ exists now,
       last_fetch_time (self (snd (fetch_all_threats limit use_ai s)))
       = Some now.
Proof.
  intros Hinvalid Hzero.
  destruct (fetch_all_threats_spec limit use_ai s)
    as (valid & w0 & Hvalid & Hrun).
  rewrite Hvalid in Hinvalid. simpl in Hinvalid.
  injection Hinvalid as Hv. subst valid.
  destruct Hrun as (out & evs & w1 & _ & Hall & _ & _ & Hlen).
  apply merged_length in Hlen.
  rewrite Hall in *. simpl in *.
  rewrite skipn_app, skipn_all, Nat.sub_diag in Hzero. simpl in Hzero.
  rewrite Hzero in Hlen. apply length_zero_iff_nil in Hlen. subst out.
  simpl. repeat split. eexists. reflexivity.
Qed.

Lemma scrapers_get_None source :
  ~ In source (map fst scrapers) -> scrapers_get scrapers source = None.
Proof.
  induction scrapers as [|[name scraper] rest IH]; simpl; intros Hnot.
  - reflexivity.
  - destruct (String.eqb name source) eqn:Heq.
    + apply String.eqb_eq in Heq. exfalso. apply Hnot. left. exact Heq.
    + apply IH. intros Hin. apply Hnot. right. exact Hin.
Qed.

(** C2, as the code has it.  For a name that is not registered,
    [fetch_threats_by_source] returns the empty list and raises nothing; it
    calls no source, does not read the clock, and leaves the cache and the
    fetch time untouched, whatever they hold. *)
Theorem fetch_threats_by_source_unknown source limit use_ai (s : state W) :
  ~ In source (map fst scrapers) ->
  fetch_threats_by_source scrapers enrich_threat source limit use_ai s =
    (Returns [], s).
Proof.
  intros Hnot. unfold fetch_threats_by_source, try_except.
  rewrite (scrapers_get_None _ Hnot). reflexivity.
Qed.


(** The sort of a refresh.  A refresh returns, and stores as the cache, the
    merged contributions of the sources rearranged so that the
    [published_date] strings go from the largest to the smallest, a missing
    date counting as the empty string, so that whatever follows an undated
    item has an empty key as well; and the cache of a manager is sorted in
    this way after any sequence of calls.  The order is that of the strings
    as they are stored, whatever they say. *)
Theorem refresh_sorted_by_date :
  (forall limit use_ai (s : state W),
     fst (_is_cache_valid s) = Returns false ->
     exists l all_threats,
       fst (fetch_all_threats limit use_ai s) = Returns l
       /\ threat_cache (self (snd (fetch_all_threats limit use_ai s))) = l
       /\ sorted_by_date_desc l
       /\ undated_last l
       /\ Permutation all_threats l
       /\ merged use_ai
            (skipn (List.length (calls s))
               (calls (snd (fetch_all_threats limit use_ai s))))
            all_threats)
  /\ (forall s : state W,
        reachable scrapers enrich_threat s ->
        sorted_by_date_desc (threat_cache (self s))
        /\ undated_last (threat_cache (self s))).
Proof.
  split.
  - intros limit use_ai s Hinvalid.
    destruct (fetch_all_threats_spec limit use_ai s)
      as (valid & w0 & Hvalid & Hrun).
    rewrite Hvalid in Hinvalid. simpl in Hinvalid.
    injection Hinvalid as Hv. subst valid.
    destruct Hrun as (out & evs & w1 & _ & Hall & _ & _ & Hmerged).
    exists (sort_desc out), out. rewrite Hall. simpl.
    rewrite skipn_app, skipn_all, Nat.sub_diag. simpl.
    repeat split; try reflexivity.
    + apply sort_desc_sorted.
    + apply sorted_undated_last, sort_desc_sorted.
    + apply sort_desc_perm.
    + exact Hmerged.
  - assert (Hinv : forall s : state W,
              reachable scrapers enrich_threat s ->
              sorted_by_date_desc (threat_cache (self s))).
    { intros s Hreach. induction Hreach as [w | s s' _ IH Hstep].
      - simpl. constructor.
      - destruct Hstep as [limit use_ai s | source limit use_ai s
                          | query severity_filter s | use_ai s].
        + apply fetch_all_threats_cache_sorted. exact IH.
        + rewrite fetch_threats_by_source_self. exact IH.
        + rewrite search_threats_spec. simpl.
          destruct (Py.nonempty (threat_cache (self s))); [exact IH|].
          apply fetch_all_threats_cache_sorted. exact IH.
        + rewrite force_refresh_unfold.
          apply fetch_all_threats_cache_sorted. constructor. }
    intros s Hreach. split; [|apply sorted_undated_last]; apply Hinv; exact Hreach.
Qed.

(** C9, as the code has it.  [search_threats] fills the cache first when it
    is empty, and then returns, in cache order, exactly the cached threats
    whose lower-cased title, content or space-joined tags contain the
    lower-cased query and whose severity equals the filter without regard to
    case; a filter that is the empty string is not applied, as if none had
    been given. *)
Theorem search_threats_filters_cache query severity_filter (s : state W) :
  let s1 := if Py.nonempty (threat_cache (self s)) then s
            else snd (fetch_all_threats 10 true s) in
  search_threats scrapers enrich_threat query severity_filter s =
    (Returns (filter (search_spec query (applied_filter severity_filter))
                (threat_cache (self s1))),
     s1)
  /\ forall t,
       search_spec query (applied_filter severity_filter) t = true <->
       text_matches query t
       /\ severity_matches (applied_filter severity_filter) t.
Proof.
  split.
  - apply search_threats_spec.
  - intros t. apply search_spec_iff.
Qed.

(** C10, as the code has it.  On a cache that is not empty, the empty query
    matches every threat: without a filter, or with the empty string as the
    filter, the whole cache is returned in its order; with a filter that is
    not empty, exactly the cached threats of that severity, compared without
    regard to case.  The cache is not refreshed. *)
Theorem search_threats_empty_query severity_filter (s : state W) :
  threat_cache (self s) <> [] ->
  search_threats scrapers enrich_threat EmptyString severity_filter s =
    (Returns
       (filter (fun t =>
                  match applied_filter severity_filter with
                  | None => true
                  | Some wanted =>
                      String.eqb (Py.lower (get (severity t) ""))
                        (Py.lower wanted)
                  end)
               (threat_cache (self s))),
     s)
  /\ (applied_filter severity_filter = None ->
      fst (search_threats scrapers enrich_threat EmptyString
             severity_filter s)
      = Returns (threat_cache (self s))).
Proof.
  intros Hcache.
  pose proof (search_threats_spec EmptyString severity_filter s) as Hrun.
  cbv zeta in Hrun.
  destruct (threat_cache (self s)) as [|t0 cache] eqn:Ecache;
    [contradiction|].
  simpl Py.nonempty in Hrun. cbv iota in Hrun. rewrite Ecache in Hrun.
  assert (Hsame : forall l : list threat,
            filter (search_spec EmptyString (applied_filter severity_filter)) l
            = filter (fun t =>
                        match applied_filter severity_filter with
                        | None => true
                        | Some wanted =>
                            String.eqb (Py.lower (get (severity t) ""))
                              (Py.lower wanted)
                        end) l).
  { intros l. apply filter_ext. intros t. unfold search_spec.
    simpl Py.lower. rewrite str_in_empty. reflexivity. }
  rewrite Hsame in Hrun. split; [exact Hrun|].
  intros Hnone. rewrite Hrun, Hnone. simpl fst.
  assert (Hall : forall l : list threat, filter (fun _ => true) l = l)
    by (intros l; induction l as [|t l IH]; simpl; congruence).
  rewrite Hall. reflexivity.
Qed.

End ManagerFacts.

(* ================================================================= *)
(** ** The record of a pass over the sources *)

Section FetchRecord.
Context {W : Type} `{Env W}.
Variable scrapers : list (string * (Z -> M W (list threat))).
Variable enrich_threat : threat -> M W threat.

Import ThreatIntelligenceManager.

#[local] Abbreviation fetches := (fetches enrich_threat).

(** [enrich_all] leaves the world that running [enrich_threat] on each
    threat in turn leaves. *)
Lemma enrich_all_world threats (s : state W) :
  exists out,
    enrich_all enrich_threat threats s
    = (Returns out,
       mk_state (self s)
         (world_after_enrichment enrich_threat threats (world s))
         (calls s)).
Proof.
  unfold enrich_all.
  assert (Hgen : forall acc (s0 : state W),
            exists out,
              for_each threats
                (fun threat enriched_threats =>
                   try_except
                     (enriched <- lift (enrich_threat threat) ;;
                      ret (enriched_threats ++ [enriched]))
                     (fun _ => ret (enriched_threats ++ [threat])))
                acc s0
              = (Returns out,
                 mk_state (self s0)
                   (world_after_enrichment enrich_threat threats (world s0))
                   (calls s0))).
  { induction threats as [|t rest IH]; intros acc s0.
    - exists acc. destruct s0; reflexivity.
    - simpl for_each. simpl world_after_enrichment.
      unfold bind at 1. unfold try_except, bind, lift, ret.
      destruct (enrich_threat t (world s0)) as [[e|err] w1]; cbn [snd].
      + destruct (IH (acc ++ [e]) (mk_state (self s0) w1 (calls s0)))
          as [out Hout]. exists out. exact Hout.
      + destruct (IH (acc ++ [t]) (mk_state (self s0) w1 (calls s0)))
          as [out Hout]. exists out. exact Hout. }
  apply Hgen.
Qed.

(** One turn of the loop over the sources runs the scraper in the world it
    finds, records what the scraper returned, and appends to [all_threats]. *)
Lemma fetch_source_exact limit use_ai name scraper all_threats
    (s : state W) :
  exists out,
    fetch_source enrich_threat limit use_ai (name, scraper) all_threats s
    = (Returns (all_threats ++ out),
       mk_state (self s)
         (world_after_source enrich_threat use_ai
            (fst (scraper limit (world s))) (snd (scraper limit (world s))))
         (calls s ++ [Fetched name limit (fst (scraper limit (world s)))])).
Proof.
  unfold fetch_source, try_except, bind.
  destruct (call_fetch_threats_run name scraper limit s)
    as (r & w1 & Hscraper & Hcall).
  rewrite Hcall, Hscraper. cbn [fst snd].
  destruct r as [threats|err].
  - destruct use_ai; cbn [andb world_after_source].
    + destruct threats as [|t threats]; cbn [Py.nonempty].
      * exists []. reflexivity.
      * destruct (enrich_all_world (t :: threats)
                    (mk_state (self s) w1
                       (calls s
                          ++ [Fetched name limit (Returns (t :: threats))])))
          as [out Hrun].
        rewrite Hrun. exists out. reflexivity.
    + exists threats. reflexivity.
  - exists []. rewrite app_nil_r. reflexivity.
Qed.

(** The loop over the sources leaves the record and the world of
    [fetches]. *)
Lemma fan_out_fetches limit use_ai registry all_threats (s : state W) :
  exists out,
    for_each registry (fetch_source enrich_threat limit use_ai) all_threats s
    = (Returns (all_threats ++ out),
       mk_state (self s)
         (snd (fetches limit use_ai registry (world s)))
         (calls s ++ fst (fetches limit use_ai registry (world s)))).
Proof.
  revert all_threats s.
  induction registry as [|[name scraper] rest IH]; intros all_threats s.
  - exists []. simpl. rewrite !app_nil_r. destruct s; reflexivity.
  - destruct (fetch_source_exact limit use_ai name scraper all_threats s)
      as [items Hone].
    simpl for_each. erewrite bind_returns by exact Hone.
    destruct (IH (all_threats ++ items)
                (mk_state (self s)
                   (world_after_source enrich_threat use_ai
                      (fst (scraper limit (world s)))
                      (snd (scraper limit (world s))))
                   (calls s
                      ++ [Fetched name limit
                            (fst (scraper limit (world s)))])))
      as [out Hloop].
    exists (items ++ out). rewrite Hloop. cbn [self world calls].
    simpl ThreatIntelligenceManager.fetches.
    destruct (scraper limit (world s)) as [r w1]. cbn [fst snd].
    destruct (ThreatIntelligenceManager.fetches enrich_threat limit use_ai
                rest (world_after_source enrich_threat use_ai r w1))
      as [evs w']. cbn [fst snd].
    rewrite <- !app_assoc. reflexivity.
Qed.

(** A refresh records the fetches of the pass that starts in the world the
    validity test left, and reads the clock once after them. *)
Lemma fetch_all_threats_fetches limit use_ai (s : state W) :
  fst (_is_cache_valid s) = Returns false ->
  let w0 := world (snd (_is_cache_valid s)) in
  exists out,
    fetch_all_threats scrapers enrich_threat limit use_ai s
    = (Returns (sort_desc out),
       mk_state
         (mk_manager (sort_desc out)
            (Some (fst (clock (snd (fetches limit use_ai scrapers w0))))))
         (snd (clock (snd (fetches limit use_ai scrapers w0))))
         (calls s ++ fst (fetches limit use_ai scrapers w0)))
    /\ merged enrich_threat use_ai (fst (fetches limit use_ai scrapers w0))
         out.
Proof.
  intros Hinvalid w0.
  destruct (fetch_all_threats_spec scrapers enrich_threat limit use_ai s)
    as (valid & w & Hvalid & Hrun).
  subst w0. rewrite Hvalid in *. cbn [fst snd world] in *.
  injection Hinvalid as Hv. subst valid.
  destruct Hrun as (out & evs & w1 & Hloop & Hall & _ & _ & Hmerged).
  destruct (fan_out_fetches limit use_ai scrapers []
              (mk_state (self s) w (calls s))) as [out' Hloop'].
  rewrite Hloop in Hloop'. cbn [self world calls app] in Hloop'.
  injection Hloop' as Hout Hw Hevs.
  apply app_inv_head in Hevs. subst out' w1 evs.
  exists out. split; [exact Hall | exact Hmerged].
Qed.

(** C8. [force_refresh] empties the cache and clears the fetch time, and
    then runs every registered scraper, in the order of the registry, with
    the limit 10, whatever the cache held and however recent it was; the
    clock is not consulted before the sources are asked.  The first scraper
    is run in the world of the call and each next one in the world the one
    before it left; what each returned is recorded, the merged
    contributions of these runs are sorted, stored and returned, and the
    clock is read once at the end. *)
Theorem force_refresh_fans_out use_ai (s : state W) :
  exists out evs w1,
    for_each scrapers (fetch_source enrich_threat 10 use_ai) []
      (mk_state (mk_manager [] None) (world s) (calls s)) =
      (Returns out, mk_state (mk_manager [] None) w1 (calls s ++ evs))
    /\ force_refresh scrapers enrich_threat use_ai s =
         (Returns (sort_desc out),
          mk_state (mk_manager (sort_desc out) (Some (fst (clock w1))))
            (snd (clock w1)) (calls s ++ evs))
    /\ map fetched_source evs = map fst scrapers
    /\ Forall (fun ev => fetched_limit ev = 10%Z) evs
    /\ (evs, w1) = fetches 10 use_ai scrapers (world s)
    /\ merged enrich_threat use_ai evs out.
Proof.
  pose (s0 := mk_state (mk_manager [] None) (world s) (calls s)).
  destruct (fetch_all_threats_spec scrapers enrich_threat 10 use_ai s0)
    as (valid & w0 & Hvalid & Hrun).
  pose proof (is_cache_valid_spec s0) as Hspec. simpl in Hspec.
  rewrite Hspec in Hvalid. injection Hvalid as Hv Hw. subst valid w0.
  destruct Hrun as (out & evs & w1 & Hloop & Hall & Hnames & Hlimits & Hmerged).
  destruct (fan_out_fetches 10 use_ai scrapers [] s0) as [out' Hloop'].
  subst s0. cbn [self world calls] in *.
  rewrite Hloop in Hloop'. cbn [app] in Hloop'.
  injection Hloop' as _ Hw Hevs. apply app_inv_head in Hevs.
  exists out, evs, w1.
  split; [exact Hloop|]. split; [rewrite force_refresh_unfold; exact Hall|].
  split; [exact Hnames|]. split; [exact Hlimits|].
  split; [|exact Hmerged].
  rewrite Hw, Hevs. symmetry. apply surjective_pairing.
Qed.

End FetchRecord.

(* ================================================================= *)
(** ** Enrichment *)


(* ================================================================= *)
(** ** The code run on concrete inputs *)

(** C1: a stale cache of two threats, every source asked for 0 items.  The
    refresh gets nothing; the call returns the empty list and the two cached
    threats are gone. *)
Lemma stale_cache_is_not_served :
  threat_cache (self Scenario.stale)
    = [Scenario.ransomware_alert; Scenario.chrome_alert]
  /\ fst (Scenario.fetch_all_threats false 0 true Scenario.stale) = Returns []
  /\ threat_cache
       (self (snd (Scenario.fetch_all_threats false 0 true Scenario.stale)))
     = [].
Proof. vm_compute. repeat split. Qed.

Lemma fetch_all_threats_empty_refresh_witness :
  fst (Scenario.fetch_all_threats false 0 true Scenario.stale) = Returns []
  /\ threat_cache
       (self (snd (Scenario.fetch_all_threats false 0 true Scenario.stale)))
     = []
  /\ exists now,
       last_fetch_time
         (self (snd (Scenario.fetch_all_threats false 0 true Scenario.stale)))
       = Some now.
Proof.
  apply (fetch_all_threats_empty_refresh
           ThreatIntelligenceManager.registered_scrapers
           (AIThreatProcessor.enrich_threat false) 0%Z true Scenario.stale).
  - vm_compute. reflexivity.
  - vm_compute. reflexivity.
Defined.

(** C2: a name that is not registered gets the same answer as a registered
    source asked for 0 items: the empty list, returned, not raised. *)
Lemma unknown_source_returns_empty_list :
  existsb (String.eqb "Unknown")
    (map fst (ThreatIntelligenceManager.registered_scrapers
                (W := Scenario.world))) = false
  /\ fst (Scenario.fetch_threats_by_source false "Unknown" 20 true
            Scenario.fresh) = Returns []
  /\ fst (Scenario.fetch_threats_by_source false "FBI" 0 true
            Scenario.fresh) = Returns [].
Proof. vm_compute. repeat split. Qed.

Lemma fetch_threats_by_source_unknown_witness :
  Scenario.fetch_threats_by_source false "Unknown" 20 true Scenario.fresh
  = (Returns [], Scenario.fresh).
Proof.
  apply (fetch_threats_by_source_unknown
           ThreatIntelligenceManager.registered_scrapers
           (AIThreatProcessor.enrich_threat false)
           "Unknown" 20%Z true Scenario.fresh).
  simpl. intros [Hin | [Hin | [Hin | [Hin | []]]]]; discriminate.
Defined.

(** C3: the CISA feed cannot be read and one item is asked for.  The CISA
    scraper returns nothing, though its fallback list cut to one item is not
    empty; the BleepingComputer scraper, in the same world, returns the
    first item of its fallback list. *)
Theorem cisa_outage_returns_no_fallback :
  fst (CISAScraper.fetch_threats 1 (Scenario.outage 0)) = Returns []
  /\ (exists fallback,
        fst (CISAScraper._get_fallback_data (Scenario.outage 0))
          = Returns fallback
        /\ map feed_id (Py.slice_to 1 fallback) = [Some "cisa_mock_001"])
  /\ (exists threats,
        fst (BleepingComputerScraper.fetch_threats 1 (Scenario.outage 0))
          = Returns threats
        /\ map feed_id threats = [Some "bleeping_mock_001"]).
Proof.
  split; [|split].
  - vm_compute. reflexivity.
  - eexists. split; vm_compute; reflexivity.
  - eexists. split; vm_compute; reflexivity.
Qed.


(** Whatever order a set gives, the fallback cannot return the three matches
    of this content: it returns distinct strings. *)
Lemma fallback_iocs_drops_repeats (P : PySet) (U : Unicode) :
  AIThreatProcessor._fallback_iocs Scenario.repeated_cve
  <> ["CVE-2024-0001"; "CVE-2024-0002"; "CVE-2024-0001"].
Proof.
  intros Heq.
  destruct (fallback_iocs_distinct Scenario.repeated_cve) as [Hnd _].
  rewrite Heq in Hnd.
  inversion Hnd as [|x l Hnotin _]; subst.
  apply Hnotin. right. left. reflexivity.
Qed.

(** C5: ten minutes after the fetch the cache is served as it is. *)
Lemma fetch_all_threats_serves_fresh_cache_witness :
  Scenario.fetch_all_threats false 10 true Scenario.fresh
  = (Returns [Scenario.ransomware_alert; Scenario.chrome_alert],
     mk_state (self Scenario.fresh) (Scenario.tick (world Scenario.fresh)) []).
Proof.
  refine (proj1 (fetch_all_threats_serves_fresh_cache
                   ThreatIntelligenceManager.registered_scrapers
                   (AIThreatProcessor.enrich_threat false)
                   10%Z true 10%Z true Scenario.fresh 0%Z _ _ _)).
  - discriminate.
  - reflexivity.
  - vm_compute. reflexivity.
Defined.

(** C6.  The CISA feed gives an advisory dated 6 May and one dated 30
    April, written as an RSS feed writes its dates; the other sources give
    their fallback items, dated by the clock on 7 May.  [_parse_date] keeps
    a date that is a string as it is, so the refresh stores the two feed
    dates un-normalised, not in ISO-8601, and sorts the strings: the
    advisory of 30 April comes first, before the one of 6 May, and the
    items of 7 May come last. *)
Theorem refresh_orders_feed_dates_as_strings :
  exists l,
    fst (Scenario.fetch_all_threats false 2 false Scenario.started_with_feed)
      = Returns l
    /\ threat_cache
         (self (snd (Scenario.fetch_all_threats false 2 false
                       Scenario.started_with_feed))) = l
    /\ ThreatIntelligenceManager.sorted_by_date_desc l
    /\ map (fun t => (get (feed_id t) "",
                      ThreatIntelligenceManager.sort_key t)) l
       = [ ("cisa_aa24-121a", "Tue, 30 Apr 2024 09:00:00 +0000");
           ("cisa_aa24-127a", "Mon, 06 May 2024 09:00:00 +0000");
           ("certin_mock_001", "2024-05-07T12:00:00.000000");
           ("certin_mock_002", "2024-05-07T12:00:00.000000");
           ("fbi_mock_001", "2024-05-07T12:00:00.000000");
           ("fbi_mock_002", "2024-05-07T12:00:00.000000");
           ("bleeping_mock_001", "2024-05-07T12:00:00.000000");
           ("bleeping_mock_002", "2024-05-07T12:00:00.000000") ]
    /\ map (fun t => ThreatIntelligenceManager.iso_8601
                       (ThreatIntelligenceManager.sort_key t)) l
       = [false; false; true; true; true; true; true; true].
Proof.
  destruct (proj1 (refresh_sorted_by_date
                     ThreatIntelligenceManager.registered_scrapers
                     (AIThreatProcessor.enrich_threat false))
              2%Z false Scenario.started_with_feed eq_refl)
    as (l & all_threats & Hrun & Hcache & Hsorted & _).
  exists l. split; [exact Hrun|]. split; [exact Hcache|].
  split; [exact Hsorted|].
  unfold Scenario.fetch_all_threats.
  vm_compute in Hrun. injection Hrun as <-.
  split; vm_compute; reflexivity.
Qed.


(** C9: the empty string as the severity filter.  The search for
    [ransomware] returns the critical alert, though its severity is not the
    empty string: the rule with this filter keeps nothing. *)
Lemma empty_filter_is_not_applied :
  fst (Scenario.search_threats false "ransomware" (Some EmptyString)
         Scenario.fresh)
    = Returns [Scenario.ransomware_alert]
  /\ filter (ThreatIntelligenceManager.search_spec "ransomware"
               (Some EmptyString))
       (threat_cache (self Scenario.fresh)) = [].
Proof. vm_compute. repeat split. Qed.

(** C10: the empty query with the empty string as the filter returns the
    whole cache, and no cached threat has the empty severity. *)
Lemma empty_query_empty_filter_returns_all :
  fst (Scenario.search_threats false EmptyString (Some EmptyString)
         Scenario.fresh)
    = Returns [Scenario.ransomware_alert; Scenario.chrome_alert]
  /\ filter (fun t => String.eqb (Py.lower (get (severity t) ""))
                        (Py.lower EmptyString))
       (threat_cache (self Scenario.fresh)) = [].
Proof. vm_compute. repeat split. Qed.

Lemma search_threats_empty_query_witness :
  Scenario.search_threats false EmptyString (Some "HIGH") Scenario.fresh
  = (Returns [Scenario.chrome_alert], Scenario.fresh).
Proof.
  refine (proj1 (search_threats_empty_query
                   ThreatIntelligenceManager.registered_scrapers
                   (AIThreatProcessor.enrich_threat false)
                   (Some "HIGH") Scenario.fresh _)).
  discriminate.
Defined.

(* ================================================================= *)
(** * More of the code *)
(* ================================================================= *)
(** * Further properties *)

(** ** Case and keyword tables *)

Lemma lower_char_idempotent (c : ascii) :
  Py.lower_char (Py.lower_char c) = Py.lower_char c.
Proof.
  destruct c as [[] [] [] [] [] [] [] []]; reflexivity.
Qed.

Lemma lower_idempotent (s : string) : Py.lower (Py.lower s) = Py.lower s.
Proof.
  induction s as [|c s IH]; simpl.
  - reflexivity.
  - rewrite lower_char_idempotent, IH. reflexivity.
Qed.

(** The loop that collects the keywords found in a text keeps, in the order
    of the table, the keywords that pass the test. *)
Lemma collect_keywords (test : string -> bool) (rename : string -> string)
    (table tags : list string) :
  fold_left (fun tags keyword =>
               if test keyword then tags ++ [rename keyword] else tags)
            table tags
  = tags ++ map rename (filter test table).
Proof.
  revert tags. induction table as [|k table IH]; intros tags; simpl.
  - rewrite app_nil_r. reflexivity.
  - rewrite IH. destruct (test k); simpl.
    + rewrite <- app_assoc. reflexivity.
    + reflexivity.
Qed.

(** ** The severity heuristics *)

Ltac severity_ladder :=
  cbv zeta;
  repeat match goal with
         | |- context [if ?b then _ else _] => destruct b
         end;
  simpl; tauto.

Lemma cisa_severity_level text :
  In (CISAScraper._determine_severity text) severity_levels.
Proof. unfold CISAScraper._determine_severity. severity_ladder. Qed.

Lemma certin_severity_level text :
  In (CERTINScraper._determine_severity text) severity_levels.
Proof. unfold CERTINScraper._determine_severity. severity_ladder. Qed.

Lemma fbi_severity_level text :
  In (FBIScraper._determine_severity text) severity_levels.
Proof. unfold FBIScraper._determine_severity. severity_ladder. Qed.

Lemma bleeping_severity_level text :
  In (BleepingComputerScraper._determine_severity text) severity_levels.
Proof.
  unfold BleepingComputerScraper._determine_severity. severity_ladder.
Qed.

(** X1. Each of the four [_determine_severity] functions returns one of
    critical, high, medium and low, whatever the text; it does not tell
    upper case from lower case; and a text in which [critical] occurs is
    critical for all four. *)
Theorem determine_severity_levels (text : string) :
  (In (CISAScraper._determine_severity text) severity_levels
   /\ In (CERTINScraper._determine_severity text) severity_levels
   /\ In (FBIScraper._determine_severity text) severity_levels
   /\ In (BleepingComputerScraper._determine_severity text) severity_levels)
  /\ (CISAScraper._determine_severity (Py.lower text)
        = CISAScraper._determine_severity text
      /\ CERTINScraper._determine_severity (Py.lower text)
        = CERTINScraper._determine_severity text
      /\ FBIScraper._determine_severity (Py.lower text)
        = FBIScraper._determine_severity text
      /\ BleepingComputerScraper._determine_severity (Py.lower text)
        = BleepingComputerScraper._determine_severity text)
  /\ (ThreatIntelligenceManager.occurs "critical" (Py.lower text) ->
      CISAScraper._determine_severity text = "critical"
      /\ CERTINScraper._determine_severity text = "critical"
      /\ FBIScraper._determine_severity text = "critical"
      /\ BleepingComputerScraper._determine_severity text = "critical").
Proof.
  split; [|split].
  - repeat split.
    + apply cisa_severity_level.
    + apply certin_severity_level.
    + apply fbi_severity_level.
    + apply bleeping_severity_level.
  - unfold CISAScraper._determine_severity, CERTINScraper._determine_severity,
      FBIScraper._determine_severity,
      BleepingComputerScraper._determine_severity.
    cbv zeta. rewrite lower_idempotent. repeat split.
  - intros Hcritical. apply str_in_occurs in Hcritical.
    unfold CISAScraper._determine_severity, CERTINScraper._determine_severity,
      FBIScraper._determine_severity,
      BleepingComputerScraper._determine_severity, Py.any_in.
    cbv zeta. cbn [existsb]. rewrite Hcritical.
    rewrite !orb_true_r. cbn [orb]. repeat split.
Qed.

(** ** The tag tables *)

Lemma renamed_kept_distinct {K T : Type} (test : K -> bool)
    (rename : K -> T) (table : list K) (Hnd : NoDup (map rename table)) :
  NoDup (map rename (filter test table)).
Proof.
  induction table as [|keyword table IH]; simpl in *; [constructor|].
  inversion Hnd as [|? ? Hnotin Hrest]; subst.
  destruct (test keyword); simpl; [|apply IH; exact Hrest].
  constructor; [|apply IH; exact Hrest].
  intros Hin. apply Hnotin. apply in_map_iff in Hin.
  destruct Hin as (y & Hy & Hin). apply filter_In in Hin.
  apply in_map_iff. exists y. tauto.
Qed.

(** What a loop over a keyword table returns once cut to five: at most five
    tags, no tag twice, each the renamed form of a keyword of the table that
    occurs in the lower-cased text. *)
Lemma tags_of_table (rename : string -> string) (table : list string)
    (text : string) :
  NoDup (map rename table) ->
  let tags :=
    Py.slice_to 5
      (fold_left (fun tags keyword =>
                    if Py.str_in keyword (Py.lower text)
                    then tags ++ [rename keyword] else tags)
                 table []) in
  tags = firstn 5 (map rename
                     (filter (fun k => Py.str_in k (Py.lower text)) table))
  /\ List.length tags <= 5
  /\ NoDup tags
  /\ Forall (fun tag =>
               exists keyword,
                 In keyword table /\ tag = rename keyword
                 /\ ThreatIntelligenceManager.occurs keyword (Py.lower text))
            tags.
Proof.
  intros Hnd tags. subst tags.
  rewrite (collect_keywords
             (fun k => Py.str_in k (Py.lower text)) rename table []).
  rewrite (slice_to_firstn 5). simpl app.
  split; [reflexivity|]. split; [rewrite length_firstn; lia|]. split.
  - apply NoDup_firstn. apply renamed_kept_distinct. exact Hnd.
  - apply Forall_forall. intros tag Hin. apply In_firstn in Hin.
    apply in_map_iff in Hin. destruct Hin as (k & Hk & Hin).
    apply filter_In in Hin. destruct Hin as [Hin Hocc].
    exists k. repeat split; [exact Hin | symmetry; exact Hk |].
    apply str_in_occurs. exact Hocc.
Qed.

Ltac distinct_strings :=
  repeat (constructor; [simpl; intuition discriminate|]); constructor.

(** X2. Each [_extract_tags] returns at most five tags, none twice, in the
    order of its keyword table; every tag is a keyword of the table that
    occurs in the lower-cased text, with its spaces turned into underscores
    by the FBI and BleepingComputer scrapers. *)
Theorem extract_tags_bounded (text : string) :
  (let tags := CISAScraper._extract_tags text in
   List.length tags <= 5 /\ NoDup tags
   /\ Forall (fun tag =>
                In tag CISAScraper.keywords
                /\ ThreatIntelligenceManager.occurs tag (Py.lower text)) tags)
  /\ (let tags := CERTINScraper._extract_tags text in
      List.length tags <= 5 /\ NoDup tags
      /\ Forall (fun tag =>
                   In tag CERTINScraper.keywords
                   /\ ThreatIntelligenceManager.occurs tag (Py.lower text))
                tags)
  /\ (let tags := FBIScraper._extract_tags text in
      List.length tags <= 5 /\ NoDup tags
      /\ Forall (fun tag =>
                   exists keyword,
                     In keyword FBIScraper.keywords
                     /\ tag = Py.replace " " "_" keyword
                     /\ ThreatIntelligenceManager.occurs keyword
                          (Py.lower text))
                tags)
  /\ (let tags := BleepingComputerScraper._extract_tags text in
      List.length tags <= 5 /\ NoDup tags
      /\ Forall (fun tag =>
                   exists keyword,
                     In keyword BleepingComputerScraper.keywords
                     /\ tag = BleepingComputerScraper.replace_space keyword
                     /\ ThreatIntelligenceManager.occurs keyword
                          (Py.lower text))
                tags).
Proof.
  split; [|split; [|split]]; cbv zeta.
  - destruct (tags_of_table (fun k => k) CISAScraper.keywords text)
      as (_ & Hlen & Hnd & Hall); [simpl; distinct_strings|].
    split; [exact Hlen|]. split; [exact Hnd|].
    eapply Forall_impl; [|exact Hall].
    intros tag (k & Hin & -> & Hocc). split; assumption.
  - destruct (tags_of_table (fun k => k) CERTINScraper.keywords text)
      as (_ & Hlen & Hnd & Hall); [simpl; distinct_strings|].
    split; [exact Hlen|]. split; [exact Hnd|].
    eapply Forall_impl; [|exact Hall].
    intros tag (k & Hin & -> & Hocc). split; assumption.
  - destruct (tags_of_table (Py.replace " " "_") FBIScraper.keywords text)
      as (_ & Hlen & Hnd & Hall); [simpl; distinct_strings|].
    split; [exact Hlen|]. split; [exact Hnd|]. exact Hall.
  - destruct (tags_of_table BleepingComputerScraper.replace_space
                BleepingComputerScraper.keywords text)
      as (_ & Hlen & Hnd & Hall); [simpl; distinct_strings|].
    split; [exact Hlen|]. split; [exact Hnd|]. exact Hall.
Qed.

(** ** Threats built from a feed *)

Lemma Forall_slice_to {A : Type} (P : A -> Prop) (limit : Z) (l : list A) :
  Forall P l -> Forall P (Py.slice_to limit l).
Proof.
  intros Hall. unfold Py.slice_to.
  destruct (limit <? 0)%Z; apply Forall_forall; intros x Hin;
    apply In_firstn in Hin; revert x Hin; apply Forall_forall; exact Hall.
Qed.

Section FeedFacts.
Context {W : Type} `{Env W}.

Lemma cisa_tags_length text : List.length (CISAScraper._extract_tags text) <= 5.
Proof.
  unfold CISAScraper._extract_tags. cbv zeta. apply slice_to_length. lia.
Qed.

Lemma bleeping_tags_length text :
  List.length (BleepingComputerScraper._extract_tags text) <= 5.
Proof.
  unfold BleepingComputerScraper._extract_tags. cbv zeta.
  apply slice_to_length. lia.
Qed.

(** One entry of the CISA feed always gives a threat. *)
Lemma cisa_entry_threat_run (e : entry) (w : W) :
  exists t w',
    CISAScraper.entry_threat e w = (Returns t, w')
    /\ CISAScraper.built_from e t
    /\ well_formed "CISA" t.
Proof.
  unfold CISAScraper.entry_threat, CISAScraper._parse_date, bind.
  destruct (Py.truthy (get (e_published e) "")) eqn:Hpub;
    cbn [negb]; unfold ret; cbv beta iota;
    rewrite ?utcnow_isoformat_run; cbv beta iota;
    rewrite ?utcnow_isoformat_run; cbv beta iota.
  - eexists _, _. split; [reflexivity|]. split.
    + unfold CISAScraper.built_from, raw_threat. simpl.
      repeat split. intros _.
      destruct (e_published e) as [p|]; [reflexivity | discriminate].
    + unfold well_formed, raw_threat. simpl.
      repeat split; try (eexists; reflexivity).
      * eexists. split; [reflexivity | apply cisa_severity_level].
      * eexists. split; [reflexivity | apply cisa_tags_length].
  - eexists _, _. split; [reflexivity|]. split.
    + unfold CISAScraper.built_from, raw_threat. simpl.
      repeat split. intros Habs. congruence.
    + unfold well_formed, raw_threat. simpl.
      repeat split; try (eexists; reflexivity).
      * eexists. split; [reflexivity | apply cisa_severity_level].
      * eexists. split; [reflexivity | apply cisa_tags_length].
Qed.

(** The CISA feed, entry by entry. *)
Lemma cisa_fetch_from_rss_spec (limit : Z) (w : W) :
  exists threats w',
    CISAScraper._fetch_from_rss limit w = (Returns threats, w')
    /\ Forall (well_formed "CISA") threats
    /\ match fst (feedparser_parse CISAScraper.alerts_feed w) with
       | Returns entries =>
           Forall2 CISAScraper.built_from (Py.slice_to limit entries) threats
       | Raises _ => threats = []
       end.
Proof.
  unfold CISAScraper._fetch_from_rss, try_except. unfold bind at 1.
  destruct (feedparser_parse CISAScraper.alerts_feed w) as [[entries|err] w1];
    simpl fst.
  - destruct (@for_each_invariant W entry (list threat)
                (fun visited acc _ =>
                   Forall2 CISAScraper.built_from visited acc
                   /\ Forall (well_formed "CISA") acc)
                (fun e threats =>
                   t <- CISAScraper.entry_threat e ;; ret (threats ++ [t])))
      with (xs := Py.slice_to limit entries) (visited := @nil entry)
           (acc := @nil threat) (s := w1)
      as (threats & w2 & Hrun & Hbuilt & Hwf).
    + intros e visited acc w' [Hbuilt Hwf].
      destruct (cisa_entry_threat_run e w') as (t & w'' & Hrun & Hfrom & Hok).
      exists (acc ++ [t]), w''. split.
      * unfold bind. rewrite Hrun. reflexivity.
      * split.
        -- apply Forall2_app; [exact Hbuilt|].
           constructor; [exact Hfrom|constructor].
        -- apply Forall_app. split; [exact Hwf|].
           constructor; [exact Hok|constructor].
    + split; constructor.
    + exists threats, w2. rewrite Hrun. repeat split; assumption.
  - exists [], w1. repeat split. constructor.
Qed.

(** X3. [CISAScraper.fetch_threats] returns one threat for each of the
    first [limit] entries of the feed, in the order of the feed, built from
    that entry: a missing title reads [Untitled Alert], a missing link is
    the site, a date that the feed gives is kept.  When the feed cannot be
    parsed it returns nothing. *)
Theorem cisa_feed_threats (limit : Z) (w : W) :
  exists threats,
    fst (CISAScraper.fetch_threats limit w) = Returns threats
    /\ Forall (well_formed "CISA") threats
    /\ match fst (feedparser_parse CISAScraper.alerts_feed w) with
       | Returns entries =>
           Forall2 CISAScraper.built_from (Py.slice_to limit entries) threats
       | Raises _ => threats = []
       end.
Proof.
  destruct (cisa_fetch_from_rss_spec limit w)
    as (threats & w' & Hrun & Hwf & Hbuilt).
  exists threats. rewrite cisa_fetch_threats_is_rss, Hrun.
  repeat split; assumption.
Qed.

(** One entry of the BleepingComputer feed always gives a threat. *)
Lemma bleeping_entry_threat_run (e : entry) (w : W) :
  exists t w',
    BleepingComputerScraper.entry_threat e (get (e_title e) "") w
      = (Returns t, w')
    /\ BleepingComputerScraper.built_from e t
    /\ well_formed "BleepingComputer" t.
Proof.
  unfold BleepingComputerScraper.entry_threat,
    BleepingComputerScraper._parse_date, bind.
  destruct (Py.truthy (get (e_published e) "")) eqn:Hpub;
    cbn [negb]; unfold ret; cbv beta iota;
    rewrite ?utcnow_isoformat_run; cbv beta iota;
    rewrite ?utcnow_isoformat_run; cbv beta iota.
  - eexists _, _. split; [reflexivity|]. split.
    + unfold BleepingComputerScraper.built_from, raw_threat. simpl.
      repeat split. intros _.
      destruct (e_published e) as [p|]; [reflexivity | discriminate].
    + unfold well_formed, raw_threat. simpl.
      repeat split; try (eexists; reflexivity).
      * eexists. split; [reflexivity | apply bleeping_severity_level].
      * eexists. split; [reflexivity | apply bleeping_tags_length].
  - eexists _, _. split; [reflexivity|]. split.
    + unfold BleepingComputerScraper.built_from, raw_threat. simpl.
      repeat split. intros Habs. congruence.
    + unfold well_formed, raw_threat. simpl.
      repeat split; try (eexists; reflexivity).
      * eexists. split; [reflexivity | apply bleeping_severity_level].
      * eexists. split; [reflexivity | apply bleeping_tags_length].
Qed.

(** The BleepingComputer feed: the entries with a security-related title
    among the first [limit]. *)
Lemma bleeping_fetch_from_rss_spec (limit : Z) (w : W) :
  exists threats w',
    BleepingComputerScraper._fetch_from_rss limit w = (Returns threats, w')
    /\ Forall (well_formed "BleepingComputer") threats
    /\ match fst (feedparser_parse BleepingComputerScraper.rss_feed w) with
       | Returns entries =>
           Forall2 BleepingComputerScraper.built_from
             (filter (fun e =>
                        BleepingComputerScraper._is_security_related
                          (get (e_title e) ""))
                     (Py.slice_to limit entries))
             threats
       | Raises _ => threats = []
       end.
Proof.
  unfold BleepingComputerScraper._fetch_from_rss, try_except.
  unfold bind at 1.
  destruct (feedparser_parse BleepingComputerScraper.rss_feed w)
    as [[entries|err] w1]; simpl fst.
  - destruct (@for_each_invariant W entry (list threat)
                (fun visited acc _ =>
                   Forall2 BleepingComputerScraper.built_from
                     (filter (fun e =>
                                BleepingComputerScraper._is_security_related
                                  (get (e_title e) ""))
                             visited) acc
                   /\ Forall (well_formed "BleepingComputer") acc)
                (fun e threats =>
                   if BleepingComputerScraper._is_security_related
                        (get (e_title e) "")
                   then t <- BleepingComputerScraper.entry_threat e
                               (get (e_title e) "") ;;
                        ret (threats ++ [t])
                   else ret threats))
      with (xs := Py.slice_to limit entries) (visited := @nil entry)
           (acc := @nil threat) (s := w1)
      as (threats & w2 & Hrun & Hbuilt & Hwf).
    + intros e visited acc w' [Hbuilt Hwf].
      rewrite filter_app. simpl filter.
      destruct (BleepingComputerScraper._is_security_related
                  (get (e_title e) "")).
      * destruct (bleeping_entry_threat_run e w')
          as (t & w'' & Hrun & Hfrom & Hok).
        exists (acc ++ [t]), w''. split.
        -- unfold bind. rewrite Hrun. reflexivity.
        -- split.
           ++ apply Forall2_app; [exact Hbuilt|].
              constructor; [exact Hfrom|constructor].
           ++ apply Forall_app. split; [exact Hwf|].
              constructor; [exact Hok|constructor].
      * exists acc, w'. split; [reflexivity|].
        rewrite app_nil_r. split; assumption.
    + split; constructor.
    + exists threats, w2. rewrite Hrun. repeat split; assumption.
  - exists [], w1. repeat split. constructor.
Qed.


Ltac well_formed_literal :=
  unfold well_formed, raw_threat, severity_levels; simpl;
  repeat split; try (eexists; reflexivity);
  eexists; (split; [reflexivity | simpl; first [tauto | lia]]).

Ltac fallback_literal :=
  unfold list_literal, mock_threat, bind, ret;
  rewrite !utcnow_isoformat_run;
  eexists _, _; split; [reflexivity|];
  repeat (constructor; [well_formed_literal|]); constructor.

Lemma certin_fallback_well_formed (w : W) :
  exists fallback w',
    CERTINScraper._get_fallback_data w = (Returns fallback, w')
    /\ Forall (well_formed "CERT-IN") fallback.
Proof. unfold CERTINScraper._get_fallback_data. fallback_literal. Qed.

Lemma fbi_fallback_well_formed (w : W) :
  exists fallback w',
    FBIScraper._get_fallback_data w = (Returns fallback, w')
    /\ Forall (well_formed "FBI") fallback.
Proof. unfold FBIScraper._get_fallback_data. fallback_literal. Qed.

Lemma bleeping_fallback_well_formed (w : W) :
  exists fallback w',
    BleepingComputerScraper._get_fallback_data w = (Returns fallback, w')
    /\ Forall (well_formed "BleepingComputer") fallback.
Proof. unfold BleepingComputerScraper._get_fallback_data. fallback_literal. Qed.

(** [BleepingComputerScraper.fetch_threats] in full. *)
Lemma bleeping_fetch_threats_spec (limit : Z) (w : W) :
  exists threats w1 result w',
    BleepingComputerScraper._fetch_from_rss limit w = (Returns threats, w1)
    /\ match fst (feedparser_parse BleepingComputerScraper.rss_feed w) with
       | Returns entries =>
           Forall2 BleepingComputerScraper.built_from
             (filter (fun e =>
                        BleepingComputerScraper._is_security_related
                          (get (e_title e) ""))
                     (Py.slice_to limit entries))
             threats
       | Raises _ => threats = []
       end
    /\ BleepingComputerScraper.fetch_threats limit w = (Returns result, w')
    /\ Forall (well_formed "BleepingComputer") result
    /\ match threats with
       | _ :: _ => result = threats
       | [] =>
           exists fallback,
             fst (BleepingComputerScraper._get_fallback_data w1)
               = Returns fallback
             /\ result = Py.slice_to limit fallback
       end.
Proof.
  destruct (bleeping_fetch_from_rss_spec limit w)
    as (threats & w1 & Hrss & Hwf & Hbuilt).
  unfold BleepingComputerScraper.fetch_threats, try_except.
  unfold bind at 1. rewrite Hrss.
  destruct threats as [|t threats]; simpl negb; cbv iota.
  - destruct (bleeping_fallback_well_formed w1)
      as (fallback & w2 & Hfb & Hfwf).
    exists [], w1, (Py.slice_to limit fallback), w2.
    split; [reflexivity|]. split; [exact Hbuilt|].
    unfold bind. rewrite Hfb. split; [reflexivity|].
    split; [apply Forall_slice_to; exact Hfwf|].
    exists fallback. split; reflexivity.
  - exists (t :: threats), w1, (t :: threats), w1.
    split; [reflexivity|]. split; [exact Hbuilt|].
    split; [reflexivity|]. split; [exact Hwf | reflexivity].
Qed.

(** X4. [BleepingComputerScraper.fetch_threats] cuts the feed to its first
    [limit] entries and then keeps those whose title is security-related,
    in the order of the feed; when none is left, or the feed cannot be
    parsed, it returns its fallback list cut to [limit]. *)
Theorem bleeping_feed_threats (limit : Z) (w : W) :
  exists threats result,
    fst (BleepingComputerScraper._fetch_from_rss limit w) = Returns threats
    /\ match fst (feedparser_parse BleepingComputerScraper.rss_feed w) with
       | Returns entries =>
           Forall2 BleepingComputerScraper.built_from
             (filter (fun e =>
                        BleepingComputerScraper._is_security_related
                          (get (e_title e) ""))
                     (Py.slice_to limit entries))
             threats
       | Raises _ => threats = []
       end
    /\ fst (BleepingComputerScraper.fetch_threats limit w) = Returns result
    /\ match threats with
       | _ :: _ => result = threats
       | [] =>
           exists fallback,
             fst (BleepingComputerScraper._get_fallback_data
                    (snd (BleepingComputerScraper._fetch_from_rss limit w)))
               = Returns fallback
             /\ result = Py.slice_to limit fallback
       end.
Proof.
  destruct (bleeping_fetch_threats_spec limit w)
    as (threats & w1 & result & w' & Hrss & Hbuilt & Hrun & _ & Hresult).
  exists threats, result. rewrite Hrss, Hrun. simpl.
  repeat split; assumption.
Qed.

(** Every registered scraper returns well-formed threats of its own. *)
Lemma registered_scraper_run (name : string)
    (scraper : Z -> M W (list threat)) (limit : Z) (w : W) :
  In (name, scraper) ThreatIntelligenceManager.registered_scrapers ->
  exists l w',
    scraper limit w = (Returns l, w') /\ Forall (well_formed name) l.
Proof.
  unfold ThreatIntelligenceManager.registered_scrapers.
  intros [Heq | [Heq | [Heq | [Heq | []]]]];
    injection Heq as <- <-.
  - destruct (cisa_fetch_from_rss_spec limit w)
      as (threats & w' & Hrss & Hwf & _).
    pose proof (cisa_fetch_threats_is_rss limit w) as Hsame.
    rewrite Hrss in Hsame. simpl in Hsame.
    destruct (CISAScraper.fetch_threats limit w) as [r w''] eqn:Hrun.
    simpl in Hsame. subst r. exists threats, w''. split; [reflexivity|exact Hwf].
  - destruct (certin_fallback_well_formed w) as (fb & w' & Hfb & Hwf).
    destruct (certin_fetch_threats_run limit w)
      as (fb' & w'' & Hfb' & _ & Hrun).
    rewrite Hfb in Hfb'. injection Hfb' as <- <-.
    exists (Py.slice_to limit fb), w'. split; [exact Hrun|].
    apply Forall_slice_to. exact Hwf.
  - destruct (fbi_fallback_well_formed w) as (fb & w' & Hfb & Hwf).
    destruct (fbi_fetch_threats_run limit w)
      as (fb' & w'' & Hfb' & _ & Hrun).
    rewrite Hfb in Hfb'. injection Hfb' as <- <-.
    exists (Py.slice_to limit fb), w'. split; [exact Hrun|].
    apply Forall_slice_to. exact Hwf.
  - destruct (bleeping_fetch_threats_spec limit w)
      as (threats & w1 & result & w' & _ & _ & Hrun & Hwf & _).
    exists result, w'. split; [exact Hrun | exact Hwf].
Qed.

(** X5. Whatever the feeds do, each of the four registered scrapers returns
    a list of well-formed threats: the nine raw keys are set, the source is
    the name the scraper is registered under, the severity is one of the
    four levels and there are at most five tags. *)
Theorem registered_scrapers_well_formed :
  Forall (fun item : string * (Z -> M W (list threat)) =>
            forall limit w,
              exists l,
                fst (snd item limit w) = Returns l
                /\ Forall (well_formed (fst item)) l)
         ThreatIntelligenceManager.registered_scrapers.
Proof.
  apply Forall_forall. intros [name scraper] Hin limit w.
  destruct (registered_scraper_run name scraper limit w Hin)
    as (l & w' & Hrun & Hwf).
  exists l. simpl. rewrite Hrun. split; [reflexivity | exact Hwf].
Qed.

End FeedFacts.

(** ** The pattern for CVE identifiers *)

Lemma substring_drop (n : nat) (s : string) :
  (substring 0 n s ++ Py.drop n s)%string = s.
Proof.
  revert s. induction n as [|n IH]; intros s.
  - destruct s; reflexivity.
  - destruct s as [|c s]; simpl; [reflexivity|]. rewrite IH. reflexivity.
Qed.

Lemma append_assoc (a b c : string) :
  ((a ++ b) ++ c)%string = (a ++ (b ++ c))%string.
Proof. induction a as [|x a IH]; simpl; [reflexivity|]. rewrite IH. reflexivity. Qed.

Lemma append_empty (a : string) : (a ++ "")%string = a.
Proof. induction a as [|x a IH]; simpl; [reflexivity|]. rewrite IH. reflexivity. Qed.

Lemma concat_digits (d : string) (l : list string) :
  String.concat "" (d :: l) = (d ++ String.concat "" l)%string.
Proof. destruct l; simpl; [rewrite append_empty|]; reflexivity. Qed.

Lemma substring_length (n : nat) (s : string) :
  n <= String.length s -> String.length (substring 0 n s) = n.
Proof.
  revert s. induction n as [|n IH]; intros s Hn.
  - destruct s; reflexivity.
  - destruct s as [|c s]; simpl in *; [lia|]. rewrite IH; [reflexivity | lia].
Qed.

Section PatternFacts.
Context {U : Unicode}.

(** [take_digits] splits the string into decimal digits, at most [n], and
    the rest. *)
Lemma take_digits_spec (n : nat) (s : string) :
  s = (String.concat "" (fst (AIThreatProcessor.take_digits n s))
         ++ snd (AIThreatProcessor.take_digits n s))%string
  /\ Forall AIThreatProcessor.decimal
             (fst (AIThreatProcessor.take_digits n s))
  /\ List.length (fst (AIThreatProcessor.take_digits n s)) <= n.
Proof.
  revert s. induction n as [|n IH]; intros s.
  - simpl. repeat split; [constructor | lia].
  - simpl. destruct (decimal_digit s) as [bytes|] eqn:Hdigit.
    + destruct (IH (Py.drop bytes s)) as (Heq & Hdigits & Hlen).
      destruct (AIThreatProcessor.take_digits n (Py.drop bytes s))
        as [d r]. cbn [fst snd] in *.
      pose proof (decimal_digit_bytes _ Hdigit) as Hbytes.
      repeat split.
      * rewrite concat_digits, append_assoc, <- Heq.
        symmetry. apply substring_drop.
      * constructor; [|exact Hdigits].
        exists (Py.drop bytes s).
        rewrite substring_drop, substring_length by lia. exact Hdigit.
      * simpl. lia.
    + simpl. repeat split; [constructor | lia].
Qed.

(** A match at the head of [s] is a prefix of [s] of the right shape. *)
Lemma match_cve_spec (s m : string) :
  AIThreatProcessor.match_cve s = Some m ->
  (exists rest, s = (m ++ rest)%string) /\ AIThreatProcessor.cve_shaped m.
Proof.
  unfold AIThreatProcessor.match_cve. cbv zeta.
  destruct (String.eqb (Py.lower (substring 0 4 s)) "cve-") eqn:Hhead;
    [|discriminate].
  apply String.eqb_eq in Hhead.
  destruct (take_digits_spec 4 (Py.drop 4 s)) as (Hyear & Hydigits & _).
  destruct (AIThreatProcessor.take_digits 4 (Py.drop 4 s))
    as [year after_year]. cbn [fst snd] in Hyear, Hydigits.
  destruct (List.length year =? 4) eqn:Hylen; [|discriminate].
  apply Nat.eqb_eq in Hylen.
  destruct after_year as [|[[] [] [] [] [] [] [] []] after_dash];
    try discriminate.
  destruct (take_digits_spec 7 after_dash) as (Hnum & Hndigits & Hnmax).
  destruct (AIThreatProcessor.take_digits 7 after_dash) as [number rest].
  cbn [fst snd] in Hnum, Hndigits, Hnmax.
  destruct (4 <=? List.length number) eqn:Hnmin; [|discriminate].
  apply Nat.leb_le in Hnmin.
  intros Hm. injection Hm as <-. split.
  - exists rest.
    transitivity (substring 0 4 s ++ Py.drop 4 s)%string;
      [symmetry; apply substring_drop|].
    rewrite Hyear, Hnum. rewrite !append_assoc. reflexivity.
  - exists (substring 0 4 s), year, number. repeat split; assumption.
Qed.

Lemma occurs_tail (m s : string) (c : ascii) :
  ThreatIntelligenceManager.occurs m s ->
  ThreatIntelligenceManager.occurs m (String c s).
Proof.
  intros (before & after & ->). exists (String c before), after. reflexivity.
Qed.

Lemma findall_from_spec (skip : nat) (s : string) :
  Forall (fun m => ThreatIntelligenceManager.occurs m s
                   /\ AIThreatProcessor.cve_shaped m)
         (AIThreatProcessor.findall_from skip s).
Proof.
  revert skip. induction s as [|c s IH]; intros skip; simpl.
  - constructor.
  - assert (Htail : forall k,
              Forall (fun m => ThreatIntelligenceManager.occurs m (String c s)
                               /\ AIThreatProcessor.cve_shaped m)
                     (AIThreatProcessor.findall_from k s)).
    { intros k. eapply Forall_impl; [|apply (IH k)].
      intros m [Hocc Hshape]. split; [apply occurs_tail|]; assumption. }
    destruct skip as [|k]; [|apply Htail].
    destruct (AIThreatProcessor.match_cve (String c s)) as [m|] eqn:Hmatch;
      [|apply Htail].
    constructor; [|apply Htail].
    destruct (match_cve_spec _ _ Hmatch) as [[rest Hrest] Hshape].
    split; [|exact Hshape].
    exists EmptyString, rest. exact Hrest.
Qed.

End PatternFacts.

(** On ASCII text every database of decimal digits gives the same
    matches. *)
Section AsciiText.
Variables U1 U2 : Unicode.

Lemma drop_ascii (n : nat) (s : string) :
  Py.is_ascii s = true -> Py.is_ascii (Py.drop n s) = true.
Proof.
  revert s. induction n as [|n IH]; intros s Hs.
  - destruct s; exact Hs.
  - destruct s as [|c s]; simpl in *; [reflexivity|].
    apply andb_true_iff in Hs. apply IH. tauto.
Qed.

Lemma decimal_digit_of_ascii (U : Unicode) (s : string) :
  Py.is_ascii s = true ->
  @decimal_digit U s
  = match s with
    | String c _ => if Py.is_digit c then Some 1 else None
    | EmptyString => None
    end.
Proof.
  destruct s as [|c s]; simpl; intros Hs.
  - destruct (@decimal_digit U "") as [n|] eqn:Hd; [|reflexivity].
    apply decimal_digit_bytes in Hd. simpl in Hd. lia.
  - apply andb_true_iff in Hs. destruct Hs as [Hc _].
    apply Nat.ltb_lt in Hc. apply decimal_digit_ascii. exact Hc.
Qed.

Lemma take_digits_of_ascii (n : nat) (s : string) :
  Py.is_ascii s = true ->
  @AIThreatProcessor.take_digits U1 n s = @AIThreatProcessor.take_digits U2 n s
  /\ Py.is_ascii (snd (@AIThreatProcessor.take_digits U1 n s)) = true.
Proof.
  revert s. induction n as [|n IH]; intros s Hs; simpl.
  - split; [reflexivity | exact Hs].
  - rewrite !decimal_digit_of_ascii by exact Hs.
    destruct s as [|c s]; [split; [reflexivity | exact Hs]|].
    destruct (Py.is_digit c); [|split; [reflexivity | exact Hs]].
    simpl in Hs. apply andb_true_iff in Hs. destruct Hs as [_ Hs].
    cbn [Py.drop]. destruct (IH s Hs) as [Heq Hrest]. rewrite <- Heq.
    destruct (@AIThreatProcessor.take_digits U1 n s) as [d r].
    split; [reflexivity | exact Hrest].
Qed.

Lemma match_cve_of_ascii (s : string) :
  Py.is_ascii s = true ->
  @AIThreatProcessor.match_cve U1 s = @AIThreatProcessor.match_cve U2 s.
Proof.
  intros Hs. unfold AIThreatProcessor.match_cve. cbv zeta.
  destruct (String.eqb (Py.lower (substring 0 4 s)) "cve-"); [|reflexivity].
  destruct (take_digits_of_ascii 4 (Py.drop 4 s) (drop_ascii 4 s Hs))
    as [Hyear Hafter].
  rewrite <- Hyear.
  destruct (@AIThreatProcessor.take_digits U1 4 (Py.drop 4 s))
    as [year after_year]. cbn [snd] in Hafter.
  destruct (List.length year =? 4); [|reflexivity].
  destruct after_year as [|c after_dash]; [reflexivity|].
  simpl in Hafter. apply andb_true_iff in Hafter.
  destruct Hafter as [_ Hafter].
  destruct (take_digits_of_ascii 7 after_dash Hafter) as [Hnumber _].
  rewrite <- Hnumber. reflexivity.
Qed.

Lemma ascii_matches_in_every_database (s : string) :
  Py.is_ascii s = true ->
  @AIThreatProcessor.re_findall_cve U1 s
  = @AIThreatProcessor.re_findall_cve U2 s.
Proof.
  unfold AIThreatProcessor.re_findall_cve. generalize 0 as skip.
  induction s as [|c s IH]; intros skip Hs; [reflexivity|].
  assert (Htail : Py.is_ascii s = true).
  { simpl in Hs. apply andb_true_iff in Hs. tauto. }
  simpl AIThreatProcessor.findall_from.
  destruct skip as [|k]; [|apply IH; exact Htail].
  rewrite (match_cve_of_ascii _ Hs).
  destruct (@AIThreatProcessor.match_cve U2 (String c s)) as [m|].
  - f_equal. apply IH. exact Htail.
  - apply IH. exact Htail.
Qed.

End AsciiText.

Section FallbackFacts.
Context {W : Type} `{Env W} `{PySet} {U : Unicode}.

(** X6. Every string the pattern finds occurs in the content and has the
    shape of a CVE identifier: [cve-] in any case, a year of four decimal
    digits, a dash and four to seven decimal digits, a decimal digit being
    any that Unicode has.  So has every indicator of [_fallback_iocs], which
    occurs in the content or the title of the threat. *)
Theorem cve_matches_are_identifiers (content : string) (threat : threat) :
  Forall (fun m => ThreatIntelligenceManager.occurs m content
                   /\ AIThreatProcessor.cve_shaped m)
         (AIThreatProcessor.re_findall_cve content)
  /\ Forall (fun m =>
               ThreatIntelligenceManager.occurs m
                 (get (full_content threat) "" ++ " "
                    ++ get (title threat) "")%string
               /\ AIThreatProcessor.cve_shaped m)
            (AIThreatProcessor._fallback_iocs threat).
Proof.
  split.
  - apply findall_from_spec.
  - apply Forall_forall. intros m Hin.
    apply (proj2 (fallback_iocs_distinct threat)) in Hin.
    revert m Hin. apply Forall_forall. apply findall_from_spec.
Qed.

(** The systems the fallback finds in a text. *)
Lemma fallback_systems_found (threat : threat) :
  let content :=
    Py.lower (get (title threat) "" ++ " "
                ++ get (full_content threat) "")%string in
  let found :=
    filter (fun system => Py.str_in (Py.lower system) content)
           AIThreatProcessor.common_systems in
  AIThreatProcessor._fallback_affected_systems threat
  = if Py.nonempty found then firstn 5 found
    else ["Multiple systems potentially affected"].
Proof.
  unfold AIThreatProcessor._fallback_affected_systems. cbv zeta.
  rewrite (collect_keywords
             (fun system =>
                Py.str_in (Py.lower system)
                  (Py.lower (get (title threat) "" ++ " "
                               ++ get (full_content threat) "")%string))
             (fun system => system) AIThreatProcessor.common_systems []).
  simpl app. rewrite map_id.
  destruct (Py.nonempty _); [apply (slice_to_firstn 5) | reflexivity].
Qed.

(** X7. [_fallback_affected_systems] never returns an empty list.  It
    returns the single sentence [Multiple systems potentially affected], or
    one to five distinct product names of its table, in the order of the
    table, each of which occurs in the title or the content of the threat
    without regard to case. *)
Theorem fallback_affected_systems_named (threat : threat) :
  let systems := AIThreatProcessor._fallback_affected_systems threat in
  1 <= List.length systems <= 5
  /\ (systems = ["Multiple systems potentially affected"]
      \/ (NoDup systems
          /\ Forall (fun system =>
                       In system AIThreatProcessor.common_systems
                       /\ ThreatIntelligenceManager.occurs (Py.lower system)
                            (Py.lower (get (title threat) "" ++ " "
                                         ++ get (full_content threat) "")%string))
                    systems)).
Proof.
  cbv zeta. rewrite fallback_systems_found. cbv zeta.
  set (found := filter _ AIThreatProcessor.common_systems).
  assert (Hfound : Forall (fun system =>
                     In system AIThreatProcessor.common_systems
                     /\ ThreatIntelligenceManager.occurs (Py.lower system)
                          (Py.lower (get (title threat) "" ++ " "
                                       ++ get (full_content threat) "")%string))
                   found).
  { apply Forall_forall. intros system Hin. apply filter_In in Hin.
    destruct Hin as [Hin Hocc]. split; [exact Hin|].
    apply str_in_occurs. exact Hocc. }
  assert (Hnd : NoDup found).
  { unfold found.
    rewrite <- (map_id (filter _ AIThreatProcessor.common_systems)).
    apply (renamed_kept_distinct _ (fun system : string => system)).
    rewrite map_id.
    unfold AIThreatProcessor.common_systems. distinct_strings. }
  destruct found as [|system found'] eqn:Efound; simpl Py.nonempty; cbv iota.
  - split; [simpl; lia | left; reflexivity].
  - split.
    + rewrite length_firstn. cbn [List.length].
      split; [apply Nat.min_glb; lia | apply Nat.le_min_l].
    + right. split; [apply NoDup_firstn; exact Hnd|].
      apply Forall_forall. intros x Hin. apply In_firstn in Hin.
      revert x Hin. apply Forall_forall. exact Hfound.
Qed.

(** X8. Without a client [enrich_threat] asks nothing of the outside world
    and returns the threat with the four fallback values; and when there is
    a client but every request to the model fails, it returns the same
    dictionary. *)
Theorem enrich_threat_without_model (threat : threat) (w : W) :
  AIThreatProcessor.enrich_threat false threat w
    = (Returns
         (AIThreatProcessor.set_recommendations
            (AIThreatProcessor._fallback_recommendations threat)
            (AIThreatProcessor.set_affected_systems
               (AIThreatProcessor._fallback_affected_systems threat)
               (AIThreatProcessor.set_iocs
                  (AIThreatProcessor._fallback_iocs threat)
                  (AIThreatProcessor.set_quick_summary
                     (AIThreatProcessor._fallback_summary threat) threat)))),
       w)
  /\ ((forall request w', exists e,
         fst (chat_completion request threat w') = Raises e) ->
      fst (AIThreatProcessor.enrich_threat true threat w)
      = fst (AIThreatProcessor.enrich_threat false threat w)).
Proof.
  split; [reflexivity|].
  intros Hdown.
  assert (Hcall : forall request w',
            exists e w'',
              chat_completion request threat w' = (Raises e, w'')).
  { intros request w'. destruct (Hdown request w') as [e He].
    destruct (chat_completion request threat w') as [r w''].
    simpl in He. subst r. exists e, w''. reflexivity. }
  unfold AIThreatProcessor.enrich_threat, try_except.
  unfold AIThreatProcessor.generate_quick_summary,
    AIThreatProcessor.extract_iocs,
    AIThreatProcessor.identify_affected_systems,
    AIThreatProcessor.generate_recommendations, try_except, bind, ret.
  cbn [negb]. cbv beta iota.
  destruct (Hcall Summary w) as (e1 & w1 & ->). cbv beta iota.
  destruct (Hcall Iocs w1) as (e2 & w2 & ->). cbv beta iota.
  destruct (Hcall AffectedSystems w2) as (e3 & w3 & ->). cbv beta iota.
  destruct (Hcall Recommendations w3) as (e4 & w4 & ->). cbv beta iota.
  reflexivity.
Qed.

End FallbackFacts.

(** ** More on the manager *)

Section ManagerMore.
Context {W : Type} `{Env W}.
Variable scrapers : list (string * (Z -> M W (list threat))).
Variable enrich_threat : threat -> M W threat.

Import ThreatIntelligenceManager.

#[local] Abbreviation fetch_all_threats :=
  (fetch_all_threats scrapers enrich_threat).
#[local] Abbreviation fetch_threats_by_source :=
  (fetch_threats_by_source scrapers enrich_threat).
#[local] Abbreviation search_threats :=
  (search_threats scrapers enrich_threat).
#[local] Abbreviation contribution := (contribution enrich_threat).
#[local] Abbreviation merged := (merged enrich_threat).

(** X9. For a registered source, [fetch_threats_by_source] asks that source
    once, with the limit it was given, whether the cache is valid or not;
    it returns what this one call contributes (nothing when the scraper
    raises, one item for each threat otherwise) and leaves the cache and its
    fetch time as they were. *)
Theorem fetch_threats_by_source_registered source scraper limit use_ai
    (s : state W) :
  scrapers_get scrapers source = Some scraper ->
  exists out w',
    fetch_threats_by_source source limit use_ai s =
      (Returns out,
       mk_state (self s) w'
         (calls s ++ [Fetched source limit (fst (scraper limit (world s)))]))
    /\ contribution use_ai
         (Fetched source limit (fst (scraper limit (world s)))) out.
Proof.
  intros Hget. unfold ThreatIntelligenceManager.fetch_threats_by_source.
  rewrite Hget. unfold try_except, bind.
  destruct (call_fetch_threats_run source scraper limit s)
    as (r & w1 & Hscraper & Hcall).
  rewrite Hcall, Hscraper. simpl fst.
  destruct r as [threats|err].
  - destruct (use_ai && Py.nonempty threats) eqn:Hai.
    + destruct (enrich_all_spec enrich_threat threats
                  (mk_state (self s) w1
                     (calls s ++ [Fetched source limit (Returns threats)])))
        as (out & w2 & Hrun & Hall).
      rewrite Hrun. exists out, w2. split; [reflexivity|]. simpl.
      apply andb_true_iff in Hai. destruct Hai as [-> _]. exact Hall.
    + exists threats, w1. split; [reflexivity|]. simpl.
      destruct use_ai; [|reflexivity].
      destruct threats; [constructor | discriminate].
  - exists [], w1. split; reflexivity.
Qed.

(** What [fetch_all_threats] leaves in the cache is what it returned. *)
Lemma fetch_all_threats_returns_cache limit use_ai (s : state W) :
  exists l s',
    fetch_all_threats limit use_ai s = (Returns l, s')
    /\ threat_cache (self s') = l
    /\ (l <> [] -> exists t, last_fetch_time (self s') = Some t).
Proof.
  destruct (fetch_all_threats_spec scrapers enrich_threat limit use_ai s)
    as (valid & w0 & Hvalid & Hrun).
  destruct valid.
  - eexists _, _. split; [exact Hrun|]. simpl. split; [reflexivity|].
    intros Hne. pose proof (is_cache_valid_spec s) as Hspec.
    destruct (threat_cache (self s)) as [|t cache]; [contradiction|].
    destruct (last_fetch_time (self s)) as [t0|]; [exists t0; reflexivity|].
    rewrite Hspec in Hvalid. discriminate.
  - destruct Hrun as (out & evs & w1 & _ & Hall & _).
    eexists _, _. split; [exact Hall|]. simpl. split; [reflexivity|].
    intros _. eexists. reflexivity.
Qed.

(** A refresh, with its record: the names and limits of the fetches, the
    fetches themselves, and the list it returns and stores. *)
Lemma refresh_record limit use_ai (s : state W) :
  fst (_is_cache_valid s) = Returns false ->
  world (snd (_is_cache_valid s)) = world s ->
  exists evs out,
    calls (snd (fetch_all_threats limit use_ai s)) = calls s ++ evs
    /\ map fetched_source evs = map fst scrapers
    /\ Forall (fun ev => fetched_limit ev = limit) evs
    /\ evs = fst (fetches enrich_threat limit use_ai scrapers (world s))
    /\ fst (fetch_all_threats limit use_ai s) = Returns (sort_desc out)
    /\ merged use_ai evs out
    /\ threat_cache (self (snd (fetch_all_threats limit use_ai s)))
       = sort_desc out.
Proof.
  intros Hinvalid Hworld.
  destruct (fetch_all_threats_fetches scrapers enrich_threat limit use_ai s
              Hinvalid) as (out & Hall & Hmerged).
  cbv zeta in Hall, Hmerged. rewrite Hworld in Hall, Hmerged.
  destruct (fetch_all_threats_spec scrapers enrich_threat limit use_ai s)
    as (valid & w0 & Hvalid & Hrun).
  rewrite Hvalid in Hinvalid. cbn [fst] in Hinvalid.
  injection Hinvalid as Hv. subst valid.
  destruct Hrun as (out' & evs & w1 & _ & Hall' & Hnames & Hlimits & _).
  rewrite Hall in Hall'.
  pose proof (f_equal (fun r => calls (snd r)) Hall') as Hevs.
  cbn [snd calls] in Hevs. apply app_inv_head in Hevs.
  rewrite <- Hevs in Hnames, Hlimits.
  eexists _, out. rewrite Hall. cbn [fst snd calls self threat_cache].
  repeat split; try reflexivity; assumption.
Qed.

(** X10. An empty list is never served from the cache: after a call of
    [fetch_all_threats] that returned the empty list, the next call runs
    every registered scraper again, whatever the clock says, which the
    validity test does not read: the first scraper is run in the world the
    first call left and each next one in the world the one before it left,
    what each returned is recorded, and the call returns the sorted merged
    contributions of these runs. *)
Theorem empty_result_is_not_cached limit use_ai limit' use_ai'
    (s : state W) :
  fst (fetch_all_threats limit use_ai s) = Returns [] ->
  let s1 := snd (fetch_all_threats limit use_ai s) in
  exists evs,
    calls (snd (fetch_all_threats limit' use_ai' s1)) = calls s1 ++ evs
    /\ map fetched_source evs = map fst scrapers
    /\ Forall (fun ev => fetched_limit ev = limit') evs
    /\ world (snd (_is_cache_valid s1)) = world s1
    /\ evs = fst (fetches enrich_threat limit' use_ai' scrapers (world s1))
    /\ exists out,
         fst (fetch_all_threats limit' use_ai' s1) = Returns (sort_desc out)
         /\ merged use_ai' evs out.
Proof.
  intros Hempty s1.
  destruct (fetch_all_threats_returns_cache limit use_ai s)
    as (l & s' & Hrun & Hcache & _).
  subst s1. rewrite Hrun in *. cbn [fst snd] in *.
  injection Hempty as ->.
  pose proof (is_cache_valid_spec s') as Hspec. rewrite Hcache in Hspec.
  assert (Hinvalid : fst (_is_cache_valid s') = Returns false)
    by (rewrite Hspec; reflexivity).
  assert (Hworld : world (snd (_is_cache_valid s')) = world s')
    by (rewrite Hspec; reflexivity).
  destruct (refresh_record limit' use_ai' s' Hinvalid Hworld)
    as (evs & out & Hcalls & Hnames & Hlimits & Hevs & Hreturn & Hmerged & _).
  exists evs. repeat split; try assumption.
  exists out. split; assumption.
Qed.

(** X11. What [fetch_all_threats] returned, if it is not empty, it returns
    again without asking any source, as long as the clock reads less than
    an hour after the fetch time it left. *)
Theorem fetch_all_threats_then_cached limit use_ai limit' use_ai'
    (s : state W) :
  let l := match fst (fetch_all_threats limit use_ai s) with
           | Returns l => l
           | Raises _ => []
           end in
  let s1 := snd (fetch_all_threats limit use_ai s) in
  l <> [] ->
  (forall t, last_fetch_time (self s1) = Some t ->
             (fst (clock (world s1)) - t < cache_duration)%Z) ->
  fst (fetch_all_threats limit use_ai s) = Returns l
  /\ fetch_all_threats limit' use_ai' s1 =
       (Returns l, mk_state (self s1) (snd (clock (world s1))) (calls s1)).
Proof.
  cbv zeta.
  destruct (fetch_all_threats_returns_cache limit use_ai s)
    as (l & s' & Hrun & Hcache & Htime).
  rewrite Hrun. simpl fst. simpl snd. intros Hne Hage.
  split; [reflexivity|].
  destruct (Htime Hne) as [t Ht].
  destruct (fetch_all_threats_spec scrapers enrich_threat limit' use_ai' s')
    as (valid & w0 & Hvalid & Hnext).
  pose proof (is_cache_valid_spec s') as Hspec.
  rewrite Hcache in Hspec.
  destruct l as [|t0 l]; [contradiction|].
  rewrite Ht in Hspec. rewrite Hspec in Hvalid.
  specialize (Hage t Ht). apply Z.ltb_lt in Hage. rewrite Hage in Hvalid.
  injection Hvalid as <- <-. rewrite Hnext, Hcache. reflexivity.
Qed.

(** X12. The list a refresh returns is the merged contributions of the
    sources, rearranged by date only: for any date, the threats of that
    date stand in the order in which they were fetched. *)
Theorem refresh_keeps_fetch_order_within_date limit use_ai (s : state W) :
  fst (_is_cache_valid s) = Returns false ->
  exists l all_threats,
    fst (fetch_all_threats limit use_ai s) = Returns l
    /\ merged use_ai
         (skipn (List.length (calls s))
            (calls (snd (fetch_all_threats limit use_ai s))))
         all_threats
    /\ Permutation all_threats l
    /\ forall date,
         filter (fun t => String.eqb (sort_key t) date) l
         = filter (fun t => String.eqb (sort_key t) date) all_threats.
Proof.
  intros Hinvalid.
  destruct (fetch_all_threats_spec scrapers enrich_threat limit use_ai s)
    as (valid & w0 & Hvalid & Hrun).
  rewrite Hvalid in Hinvalid. simpl in Hinvalid.
  injection Hinvalid as Hv. subst valid.
  destruct Hrun as (out & evs & w1 & _ & Hall & _ & _ & Hmerged).
  exists (sort_desc out), out. rewrite Hall. simpl.
  rewrite skipn_app, skipn_all, Nat.sub_diag. simpl.
  split; [reflexivity|]. split; [exact Hmerged|].
  split; [apply sort_desc_perm|]. intros date. apply sort_desc_stable.
Qed.

Lemma truthy_lower (s : string) : Py.truthy (Py.lower s) = Py.truthy s.
Proof. destruct s; reflexivity. Qed.

Lemma search_spec_lower query severity_filter t :
  search_spec (Py.lower query)
    (applied_filter (option_map Py.lower severity_filter)) t
  = search_spec query (applied_filter severity_filter) t.
Proof.
  unfold search_spec. rewrite lower_idempotent. f_equal.
  destruct severity_filter as [wanted|]; simpl; [|reflexivity].
  rewrite truthy_lower. destruct (Py.truthy wanted); [|reflexivity].
  rewrite lower_idempotent. reflexivity.
Qed.

Lemma filter_andb {A : Type} (p r : A -> bool) (l : list A) :
  filter (fun x => p x && r x) l = filter r (filter p l).
Proof.
  induction l as [|x l IH]; simpl; [reflexivity|].
  destruct (p x); simpl; [|exact IH].
  destruct (r x); rewrite IH; reflexivity.
Qed.

(** X13. [search_threats] does not tell upper case from lower case, in the
    query or in the severity filter: the lower-cased arguments give the same
    result and leave the same state. *)
Theorem search_threats_ignores_case query severity_filter (s : state W) :
  search_threats (Py.lower query) (option_map Py.lower severity_filter) s
  = search_threats query severity_filter s.
Proof.
  rewrite !search_threats_spec. cbv zeta.
  f_equal. f_equal. apply filter_ext. intros t. apply search_spec_lower.
Qed.

(** X14. Searching with a severity filter is searching without one and then
    keeping the threats of that severity: the two calls leave the same
    state, and the filtered result is the part of the unfiltered one whose
    severity equals the filter, without regard to case. *)
Theorem search_threats_filter_narrows query severity_filter (s : state W) :
  exists unfiltered s',
    search_threats query None s = (Returns unfiltered, s')
    /\ search_threats query severity_filter s =
         (Returns
            (filter (fun t =>
                       match applied_filter severity_filter with
                       | None => true
                       | Some wanted =>
                           String.eqb (Py.lower (get (severity t) ""))
                             (Py.lower wanted)
                       end)
                    unfiltered),
          s').
Proof.
  rewrite !search_threats_spec. cbv zeta.
  eexists _, _. split; [reflexivity|]. f_equal. f_equal.
  simpl applied_filter. rewrite <- filter_andb.
  apply filter_ext. intros t. unfold search_spec.
  destruct (applied_filter severity_filter) as [wanted|];
    rewrite !andb_true_r; reflexivity.
Qed.

End ManagerMore.

(** ** Dictionaries that count *)

Lemma fold_left_invariant {A B : Type} (f : B -> A -> B)
    (Inv : list A -> B -> Prop) :
  (forall visited acc x, Inv visited acc -> Inv (visited ++ [x]) (f acc x)) ->
  forall l acc, Inv [] acc -> Inv l (fold_left f l acc).
Proof.
  intros Hstep l.
  assert (Hgen : forall visited acc,
            Inv visited acc -> Inv (visited ++ l) (fold_left f l acc)).
  { induction l as [|x l IH]; intros visited acc Hinv; simpl.
    - rewrite app_nil_r. exact Hinv.
    - specialize (IH (visited ++ [x]) (f acc x) (Hstep _ _ _ Hinv)).
      rewrite <- app_assoc in IH. exact IH. }
  intros acc Hinv. apply (Hgen [] acc Hinv).
Qed.

Lemma dict_has_In {V : Type} (d : list (string * V)) (k : string) :
  Py.dict_has d k = true <-> In k (map fst d).
Proof.
  induction d as [|[k' v] d IH]; simpl.
  - split; [discriminate | tauto].
  - rewrite orb_true_iff, String.eqb_eq, IH. tauto.
Qed.

Lemma dict_get_set {V : Type} (d : list (string * V)) (k k' : string)
    (v default : V) :
  Py.dict_get (Py.dict_set d k v) k' default
  = if String.eqb k k' then v else Py.dict_get d k' default.
Proof.
  induction d as [|[k0 v0] d IH]; simpl.
  - reflexivity.
  - destruct (String.eqb k0 k) eqn:H0k; simpl.
    + apply String.eqb_eq in H0k. subst k0.
      destruct (String.eqb k k'); reflexivity.
    + destruct (String.eqb k0 k') eqn:H0k'.
      * apply String.eqb_eq in H0k'. subst k0.
        rewrite String.eqb_sym in H0k. rewrite H0k. reflexivity.
      * exact IH.
Qed.

Lemma dict_set_keys {V : Type} (d : list (string * V)) (k : string) (v : V) :
  map fst (Py.dict_set d k v)
  = if Py.dict_has d k then map fst d else map fst d ++ [k].
Proof.
  induction d as [|[k0 v0] d IH]; simpl.
  - reflexivity.
  - destruct (String.eqb k0 k) eqn:H0k; simpl; [reflexivity|].
    rewrite IH. destruct (Py.dict_has d k); reflexivity.
Qed.

Lemma dict_set_NoDup {V : Type} (d : list (string * V)) (k : string) (v : V) :
  NoDup (map fst d) -> NoDup (map fst (Py.dict_set d k v)).
Proof.
  intros Hnd. rewrite dict_set_keys.
  destruct (Py.dict_has d k) eqn:Hhas; [exact Hnd|].
  apply NoDup_app; [exact Hnd | constructor; [tauto|constructor] |].
  intros x Hin [<-|[]]. apply dict_has_In in Hin. congruence.
Qed.

(** Adding one to the count of a key adds one to the sum of the counts. *)
Lemma dict_increment_sum (d : list (string * nat)) (k : string) :
  list_sum (map snd (Py.dict_set d k (Py.dict_get d k 0 + 1)))
  = list_sum (map snd d) + 1.
Proof.
  induction d as [|[k0 v0] d IH]; simpl.
  - reflexivity.
  - destruct (String.eqb k0 k); simpl; [lia|]. rewrite IH. lia.
Qed.

(** ** The summary *)

Section SummaryFacts.
Context {W : Type} `{Env W} `{Datetime}.
Variable scrapers : list (string * (Z -> M W (list threat))).
Variable enrich_threat : threat -> M W threat.

Import ThreatIntelligenceManager.

#[local] Abbreviation get_threat_summary :=
  (get_threat_summary scrapers enrich_threat).

(** [_get_cache_expiry_minutes] in full. *)
Lemma get_cache_expiry_minutes_spec (s : state W) :
  match last_fetch_time (self s) with
  | None => _get_cache_expiry_minutes s = (Returns 0%Z, s)
  | Some fetched_at =>
      _get_cache_expiry_minutes s =
        (Returns
           (Z.max 0
              (whole_minutes
                 (cache_duration - (fst (clock (world s)) - fetched_at)))),
         mk_state (self s) (snd (clock (world s))) (calls s))
  end.
Proof.
  unfold _get_cache_expiry_minutes, bind, get_self, ret, lift.
  destruct (last_fetch_time (self s)) as [fetched_at|]; [|reflexivity].
  rewrite utcnow_run. reflexivity.
Qed.

Lemma cache_expiry_minutes_run (s : state W) :
  exists minutes w',
    _get_cache_expiry_minutes s =
      (Returns minutes, mk_state (self s) w' (calls s)).
Proof.
  pose proof (get_cache_expiry_minutes_spec s) as Hspec.
  destruct s as [me w cs]. cbn [self world calls] in *.
  destruct (last_fetch_time me) as [fetched_at|].
  - eexists _, _. exact Hspec.
  - exists 0%Z, w. exact Hspec.
Qed.

Lemma cache_expiry_minutes_nonneg (s s' : state W) (minutes : Z) :
  _get_cache_expiry_minutes s = (Returns minutes, s') -> (0 <= minutes)%Z.
Proof.
  intros Hrun. pose proof (get_cache_expiry_minutes_spec s) as Hspec.
  assert (Hvalue :
            minutes = match fst (_get_cache_expiry_minutes s) with
                      | Returns found => found
                      | Raises _ => 0%Z
                      end)
    by (rewrite Hrun; reflexivity).
  rewrite Hvalue.
  destruct (last_fetch_time (self s)) as [fetched_at|];
    rewrite Hspec; cbn [fst]; [apply Z.le_max_l | apply Z.le_refl].
Qed.

(** X15. [_get_cache_expiry_minutes] never returns a negative number.  It
    returns 0 without reading the clock when nothing was fetched yet; and
    when it returns a positive number, the fetch time is less than
    [cache_duration] before the time it read, which is the test of
    [_is_cache_valid]. *)
Theorem cache_expiry_minutes_bounds (s : state W) :
  exists minutes w',
    _get_cache_expiry_minutes s =
      (Returns minutes, mk_state (self s) w' (calls s))
    /\ (0 <= minutes)%Z
    /\ (last_fetch_time (self s) = None -> minutes = 0%Z /\ w' = world s)
    /\ ((0 < minutes)%Z ->
        exists fetched_at,
          last_fetch_time (self s) = Some fetched_at
          /\ (fst (clock (world s)) - fetched_at < cache_duration)%Z).
Proof.
  pose proof (get_cache_expiry_minutes_spec s) as Hspec.
  destruct (last_fetch_time (self s)) as [fetched_at|].
  - eexists _, _. split; [exact Hspec|]. split; [lia|].
    split; [discriminate|]. intros Hpos. exists fetched_at.
    split; [reflexivity|].
    destruct (Z_lt_ge_dec (fst (clock (world s)) - fetched_at) cache_duration)
      as [Hlt | Hge]; [exact Hlt|].
    pose proof (@whole_minutes_nonpos _
                  (cache_duration - (fst (clock (world s)) - fetched_at))%Z).
    lia.
  - exists 0%Z, (world s). destruct s as [me w cs]. simpl in *.
    split; [exact Hspec|]. split; [lia|]. split; [tauto|]. lia.
Qed.

(** What the three counters hold after the loop. *)
Lemma count_threats_spec (recent_threshold : Z) (cache : list threat) :
  let counted :=
    fold_left (count_threat recent_threshold) cache initial_counters in
  map fst (severity_counts counted) = severity_levels
  /\ (forall level, In level severity_levels ->
        Py.dict_get (severity_counts counted) level 0
        = List.length (filter (has_severity level) cache))
  /\ list_sum (map snd (severity_counts counted))
     = List.length
         (filter (fun t =>
                    Py.list_in (Py.lower (get (severity t) "low"))
                      severity_levels)
                 cache)
  /\ NoDup (map fst (source_counts counted))
  /\ (forall name,
        Py.dict_get (source_counts counted) name 0
        = List.length (filter (has_source name) cache))
  /\ list_sum (map snd (source_counts counted)) = List.length cache
  /\ recent_count counted
     = List.length (filter (is_recent recent_threshold) cache).
Proof.
  cbv zeta.
  apply (fold_left_invariant (count_threat recent_threshold)
           (fun visited counted =>
              map fst (severity_counts counted) = severity_levels
              /\ (forall level, In level severity_levels ->
                    Py.dict_get (severity_counts counted) level 0
                    = List.length (filter (has_severity level) visited))
              /\ list_sum (map snd (severity_counts counted))
                 = List.length
                     (filter (fun t =>
                                Py.list_in (Py.lower (get (severity t) "low"))
                                  severity_levels)
                             visited)
              /\ NoDup (map fst (source_counts counted))
              /\ (forall name,
                    Py.dict_get (source_counts counted) name 0
                    = List.length (filter (has_source name) visited))
              /\ list_sum (map snd (source_counts counted))
                 = List.length visited
              /\ recent_count counted
                 = List.length (filter (is_recent recent_threshold) visited))).
  - intros visited acc t (Hkeys & Hsev & Hsevsum & Hnd & Hsrc & Hsrcsum & Hrec).
    unfold has_severity, has_source, is_recent in *.
    unfold count_threat. cbv zeta. simpl severity_counts.
    simpl source_counts. simpl recent_count.
    rewrite !filter_app, !length_app. simpl filter.
    assert (Hhas : Py.dict_has (severity_counts acc)
                     (Py.lower (get (severity t) "low"))
                   = Py.list_in (Py.lower (get (severity t) "low"))
                       severity_levels).
    { apply eq_true_iff_eq. rewrite dict_has_In, Hkeys.
      unfold Py.list_in. rewrite existsb_exists. split.
      - intros Hin. exists (Py.lower (get (severity t) "low")).
        split; [exact Hin | apply String.eqb_refl].
      - intros (x & Hin & Heq). apply String.eqb_eq in Heq. subst x.
        exact Hin. }
    rewrite Hhas.
    split; [|split; [|split; [|split; [|split; [|split]]]]].
    + destruct (Py.list_in _ severity_levels) eqn:Hin; [|exact Hkeys].
      rewrite dict_set_keys, Hhas. exact Hkeys.
    + intros level Hlevel. rewrite filter_app, length_app. simpl filter.
      destruct (Py.list_in _ severity_levels) eqn:Hin.
      * rewrite dict_get_set.
        destruct (String.eqb (Py.lower (get (severity t) "low")) level)
          eqn:Heq.
        -- apply String.eqb_eq in Heq. rewrite Heq.
           rewrite (Hsev _ Hlevel). simpl. lia.
        -- rewrite (Hsev _ Hlevel). simpl. lia.
      * rewrite (Hsev _ Hlevel).
        destruct (String.eqb (Py.lower (get (severity t) "low")) level)
          eqn:Heq; [|simpl; lia].
        apply String.eqb_eq in Heq. exfalso.
        unfold Py.list_in in Hin.
        assert (Hex : existsb (String.eqb (Py.lower (get (severity t) "low")))
                        severity_levels = true).
        { apply existsb_exists. exists level. split; [exact Hlevel|].
          rewrite Heq. apply String.eqb_refl. }
        congruence.
    + destruct (Py.list_in _ severity_levels) eqn:Hin.
      * rewrite dict_increment_sum, Hsevsum.
        unfold Py.list_in in Hin. simpl in Hin. simpl. rewrite Hin.
        simpl. first [reflexivity | lia | rewrite Nat.add_0_r; reflexivity].
      * rewrite Hsevsum.
        unfold Py.list_in in Hin. simpl in Hin. simpl. rewrite Hin.
        simpl. first [reflexivity | lia | rewrite Nat.add_0_r; reflexivity].
    + apply dict_set_NoDup. exact Hnd.
    + intros name. rewrite filter_app, length_app. simpl filter.
      rewrite dict_get_set.
      destruct (String.eqb (get (source t) "Unknown") name) eqn:Heq.
      * apply String.eqb_eq in Heq. rewrite Heq.
        rewrite Hsrc. simpl. lia.
      * rewrite Hsrc. simpl. lia.
    + rewrite dict_increment_sum, Hsrcsum. simpl. lia.
    + rewrite Hrec.
      destruct (fromisoformat _) as [[pub|pub]|err]; simpl; try lia.
      destruct (recent_threshold <? pub)%Z; simpl; lia.
  - simpl. repeat split; try constructor; simpl; intuition (subst; auto).
Qed.

(** [get_threat_summary] in full: it fills an empty cache first, reads the
    clock, counts over the cache and asks for the minutes left.  Its handler
    is never reached. *)
Lemma get_threat_summary_spec (s : state W) :
  let s1 :=
    if Py.nonempty (threat_cache (self s)) then s
    else snd (fetch_all_threats scrapers enrich_threat 10 true s) in
  let now := fst (clock (world s1)) in
  let counted :=
    fold_left (count_threat (now - one_day)) (threat_cache (self s1))
      initial_counters in
  exists minutes w',
    _get_cache_expiry_minutes
      (mk_state (self s1) (snd (clock (world s1))) (calls s1))
    = (Returns minutes, mk_state (self s1) w' (calls s1))
    /\ get_threat_summary s =
         (Returns
            (mk_summary (List.length (threat_cache (self s1)))
               (severity_counts counted) (source_counts counted)
               (recent_count counted)
               match last_fetch_time (self s1) with
               | Some fetched_at => Some (isoformat fetched_at)
               | None => None
               end
               (Some minutes)),
          mk_state (self s1) w' (calls s1)).
Proof.
  cbv zeta.
  set (s1 := if Py.nonempty (threat_cache (self s)) then s
             else snd (fetch_all_threats scrapers enrich_threat 10 true s)).
  destruct (cache_expiry_minutes_run
              (mk_state (self s1) (snd (clock (world s1))) (calls s1)))
    as (minutes & w' & Hminutes).
  cbn [self calls world] in Hminutes. exists minutes, w'. split; [exact Hminutes|].
  unfold ThreatIntelligenceManager.get_threat_summary.
  apply try_except_returns.
  unfold bind at 1. unfold get_self at 1. unfold ret at 1. cbv beta iota.
  assert (Hfill :
    (if negb (Py.nonempty (threat_cache (self s)))
     then bind (fetch_all_threats scrapers enrich_threat 10 true)
            (fun _ => ret tt)
     else ret tt) s = (Returns tt, s1)).
  { subst s1. destruct (Py.nonempty (threat_cache (self s))); cbn [negb].
    - reflexivity.
    - destruct (fetch_all_threats_never_raises scrapers enrich_threat
                  10 true s) as [l Hl].
      unfold bind.
      destruct (fetch_all_threats scrapers enrich_threat 10 true s)
        as [r s']. cbn [fst] in Hl. subst r. reflexivity. }
  erewrite bind_returns by exact Hfill. cbv beta iota.
  unfold bind at 1. unfold lift at 1. rewrite utcnow_run. cbv beta iota.
  unfold bind at 1. unfold get_self at 1. unfold ret at 1. cbv beta iota.
  cbn [self calls world]. cbv zeta.
  erewrite bind_returns by exact Hminutes. reflexivity.
Qed.

(** X16. [get_threat_summary] returns the dictionary of its [try] block,
    and its counts are those of the cache it leaves: [total_threats] is the
    length of the cache; [severity_breakdown] has the four levels as keys, in
    their order, each with the number of cached threats of that severity
    (lower-cased, [low] when absent); [source_breakdown] has distinct keys,
    and gives for a name the number of cached threats of that source
    ([Unknown] when absent). *)
Theorem summary_counts_the_cache (s : state W) :
  exists summary s',
    get_threat_summary s = (Returns summary, s')
    /\ total_threats summary = List.length (threat_cache (self s'))
    /\ map fst (severity_breakdown summary) = severity_levels
    /\ (forall level, In level severity_levels ->
          Py.dict_get (severity_breakdown summary) level 0
          = List.length
              (filter (has_severity level) (threat_cache (self s'))))
    /\ NoDup (map fst (source_breakdown summary))
    /\ (forall name,
          Py.dict_get (source_breakdown summary) name 0
          = List.length
              (filter (has_source name) (threat_cache (self s')))).
Proof.
  destruct (get_threat_summary_spec s) as (minutes & w' & _ & Hrun).
  cbv zeta in Hrun.
  set (s1 := if Py.nonempty (threat_cache (self s)) then s
             else snd (fetch_all_threats scrapers enrich_threat 10 true s))
    in *.
  destruct (count_threats_spec (fst (clock (world s1)) - one_day)
              (threat_cache (self s1)))
    as (Hkeys & Hsev & _ & Hnd & Hsrc & _ & _).
  eexists _, _. split; [exact Hrun|]. cbn [total_threats severity_breakdown
    source_breakdown self].
  repeat split; assumption.
Qed.

(** X17. In the summary, the counts of the sources add up to
    [total_threats]; the counts of the severities add up to the number of
    cached threats whose severity is one of the four levels, so to at most
    [total_threats]; [recent_24h] is at most [total_threats]; and
    [cache_expires_in_minutes] is there and not negative. *)
Theorem summary_totals (s : state W) :
  exists summary s' minutes,
    get_threat_summary s = (Returns summary, s')
    /\ list_sum (map snd (source_breakdown summary)) = total_threats summary
    /\ list_sum (map snd (severity_breakdown summary))
       = List.length
           (filter (fun t =>
                      Py.list_in (Py.lower (get (severity t) "low"))
                        severity_levels)
                   (threat_cache (self s')))
    /\ list_sum (map snd (severity_breakdown summary))
       <= total_threats summary
    /\ recent_24h summary <= total_threats summary
    /\ cache_expires_in_minutes summary = Some minutes
    /\ (0 <= minutes)%Z.
Proof.
  destruct (get_threat_summary_spec s) as (minutes & w' & Hminutes & Hrun).
  cbv zeta in Hrun.
  set (s1 := if Py.nonempty (threat_cache (self s)) then s
             else snd (fetch_all_threats scrapers enrich_threat 10 true s))
    in *.
  destruct (count_threats_spec (fst (clock (world s1)) - one_day)
              (threat_cache (self s1)))
    as (_ & _ & Hsevsum & _ & _ & Hsrcsum & Hrec).
  eexists _, _, minutes. split; [exact Hrun|].
  cbn [total_threats severity_breakdown source_breakdown recent_24h
       cache_expires_in_minutes self].
  split; [exact Hsrcsum|]. split; [exact Hsevsum|].
  split; [rewrite Hsevsum; apply filter_length_le|].
  split; [rewrite Hrec; apply filter_length_le|].
  split; [reflexivity|].
  exact (cache_expiry_minutes_nonneg _ _ _ Hminutes).
Qed.

(** X18. [get_threat_summary] refreshes only an empty cache.  When the
    cache holds a threat, however old it is, the summary is computed from
    it: no source is asked, the manager is unchanged, and [last_updated] is
    the stored fetch time.  When the cache is empty, every registered
    scraper is run once, in order, with the limit 10 and with enrichment:
    the first one in the world of the call and each next one in the world
    the one before it left; what each returned is recorded, and the sorted
    merged contributions of these runs are the cache the summary counts. *)
Theorem summary_refreshes_only_empty_cache (s : state W) :
  exists summary s',
    get_threat_summary s = (Returns summary, s')
    /\ (threat_cache (self s) <> [] ->
          self s' = self s /\ calls s' = calls s
          /\ total_threats summary = List.length (threat_cache (self s))
          /\ last_updated summary
             = match last_fetch_time (self s) with
               | Some fetched_at => Some (isoformat fetched_at)
               | None => None
               end)
    /\ (threat_cache (self s) = [] ->
          exists evs,
            calls s' = calls s ++ evs
            /\ map fetched_source evs = map fst scrapers
            /\ Forall (fun ev => fetched_limit ev = 10%Z) evs
            /\ evs = fst (fetches enrich_threat 10 true scrapers (world s))
            /\ exists out,
                 merged enrich_threat true evs out
                 /\ threat_cache (self s') = sort_desc out
                 /\ total_threats summary = List.length out).
Proof.
  destruct (get_threat_summary_spec s) as (minutes & w' & _ & Hrun).
  cbv zeta in Hrun.
  destruct (threat_cache (self s)) as [|t cache] eqn:Hcache;
    cbn [Py.nonempty] in Hrun;
    (eexists _, _; split; [exact Hrun|]);
    cbn [total_threats last_updated self calls].
  - split; [intros Hne; contradiction|]. intros _.
    pose proof (is_cache_valid_spec s) as Hspec. rewrite Hcache in Hspec.
    assert (Hinvalid : fst (_is_cache_valid s) = Returns false)
      by (rewrite Hspec; reflexivity).
    assert (Hworld : world (snd (_is_cache_valid s)) = world s)
      by (rewrite Hspec; reflexivity).
    destruct (refresh_record scrapers enrich_threat 10 true s Hinvalid
                Hworld)
      as (evs & out & Hcalls & Hnames & Hlimits & Hevs & _ & Hmerged
          & Hstored).
    exists evs. repeat split; try assumption.
    exists out. split; [exact Hmerged|]. split; [exact Hstored|].
    rewrite Hstored. symmetry. apply Permutation_length.
    apply sort_desc_perm.
  - split; [|discriminate]. intros _. rewrite Hcache.
    repeat split; reflexivity.
Qed.

End SummaryFacts.

(** ** What every cached threat satisfies *)

Section CacheFacts.
Context {W : Type} `{Env W}.
Variable scrapers : list (string * (Z -> M W (list threat))).
Variable enrich_threat : threat -> M W threat.

Import ThreatIntelligenceManager.

(** A property that the threats of every scraper have and that enrichment
    keeps. *)
Variable P : threat -> Prop.
Hypothesis scrapers_P :
  forall name scraper limit w threats,
    In (name, scraper) scrapers ->
    fst (scraper limit w) = Returns threats -> Forall P threats.
Hypothesis enrich_P :
  forall t w enriched,
    P t -> fst (enrich_threat t w) = Returns enriched -> P enriched.

Lemma enrich_outcome_keeps threats out :
  Forall P threats ->
  Forall2 (enrich_outcome enrich_threat) threats out -> Forall P out.
Proof.
  intros HP Hall. induction Hall as [|t o threats out Hone _ IH].
  - constructor.
  - inversion HP as [|? ? Ht Hrest]; subst. constructor; [|apply IH; exact Hrest].
    destruct Hone as [w Hone].
    destruct (fst (enrich_threat t w)) as [enriched|err] eqn:Hrun.
    + subst o. exact (enrich_P t w enriched Ht Hrun).
    + subst o. exact Ht.
Qed.

(** One turn of the loop over the sources appends threats with [P]. *)
Lemma fetch_source_keeps limit use_ai name scraper all_threats
    (s : state W) :
  In (name, scraper) scrapers ->
  Forall P all_threats ->
  exists out s',
    fetch_source enrich_threat limit use_ai (name, scraper)
      all_threats s = (Returns out, s')
    /\ self s' = self s /\ Forall P out.
Proof.
  intros Hin Hall.
  unfold ThreatIntelligenceManager.fetch_source, try_except, bind.
  destruct (call_fetch_threats_run name scraper limit s)
    as (r & w1 & Hscraper & Hcall).
  rewrite Hcall. destruct r as [threats|err].
  - assert (Hthreats : Forall P threats).
    { apply (scrapers_P name scraper limit (world s)); [exact Hin|].
      rewrite Hscraper. reflexivity. }
    destruct (use_ai && Py.nonempty threats) eqn:Hai.
    + destruct (enrich_all_spec enrich_threat threats
                  (mk_state (self s) w1
                     (calls s ++ [Fetched name limit (Returns threats)])))
        as (out & w2 & Hrun & Houts).
      rewrite Hrun. eexists _, _. split; [reflexivity|].
      split; [reflexivity|]. apply Forall_app. split; [exact Hall|].
      exact (enrich_outcome_keeps threats out Hthreats Houts).
    + eexists _, _. split; [reflexivity|]. split; [reflexivity|].
      apply Forall_app. split; assumption.
  - eexists _, _. split; [reflexivity|]. split; [reflexivity | exact Hall].
Qed.

Lemma fan_out_keeps limit use_ai (s : state W) :
  exists out s',
    for_each scrapers (fetch_source enrich_threat limit use_ai) [] s
      = (Returns out, s')
    /\ Forall P out.
Proof.
  assert (Hgen : forall registry,
            incl registry scrapers ->
            forall acc s0, Forall P acc ->
            exists out s',
              for_each registry
                (fetch_source enrich_threat limit use_ai) acc s0
                = (Returns out, s')
              /\ Forall P out).
  { induction registry as [|[name scraper] rest IH]; intros Hincl acc s0 Hacc.
    - exists acc, s0. split; [reflexivity | exact Hacc].
    - destruct (fetch_source_keeps limit use_ai name scraper acc s0)
        as (acc1 & s1 & Hrun & _ & Hacc1);
        [apply Hincl; left; reflexivity | exact Hacc |].
      destruct (IH (fun x Hx => Hincl x (or_intror Hx)) acc1 s1 Hacc1)
        as (out & s' & Hloop & Hout).
      exists out, s'. split; [|exact Hout].
      simpl for_each. erewrite bind_returns by exact Hrun. exact Hloop. }
  apply Hgen; [apply incl_refl | constructor].
Qed.

(** [fetch_all_threats] keeps [P] on the cache. *)
Lemma fetch_all_threats_keeps limit use_ai (s : state W) :
  Forall P (threat_cache (self s)) ->
  Forall P
    (threat_cache
       (self (snd (fetch_all_threats scrapers enrich_threat limit use_ai s)))).
Proof.
  intros Hcache.
  destruct (fetch_all_threats_spec scrapers enrich_threat limit use_ai s)
    as (valid & w0 & Hvalid & Hrun).
  destruct valid.
  - rewrite Hrun. exact Hcache.
  - destruct Hrun as (out & evs & w1 & Hloop & Hall & _).
    rewrite Hall. cbn [snd self threat_cache].
    destruct (fan_out_keeps limit use_ai (mk_state (self s) w0 (calls s)))
      as (out' & s' & Hloop' & Hout).
    rewrite Hloop in Hloop'. injection Hloop' as <- _.
    apply Forall_forall. intros t Hin.
    apply (proj1 (Forall_forall P out) Hout).
    apply (Permutation_in t (Permutation_sym (sort_desc_perm out))).
    exact Hin.
Qed.

(** Every threat in the cache of a manager, after any calls of its public
    methods, has [P]. *)
Lemma reachable_cache_keeps (s : state W) :
  reachable scrapers enrich_threat s -> Forall P (threat_cache (self s)).
Proof.
  induction 1 as [w | s s' _ IH Hstep].
  - constructor.
  - destruct Hstep as [limit use_ai s | source limit use_ai s
                       | query severity_filter s | use_ai s].
    + apply fetch_all_threats_keeps. exact IH.
    + rewrite fetch_threats_by_source_self. exact IH.
    + pose proof (search_threats_spec scrapers enrich_threat query
                    severity_filter s) as Hrun.
      cbv zeta in Hrun. rewrite Hrun. cbn [snd].
      destruct (Py.nonempty (threat_cache (self s))); [exact IH|].
      apply fetch_all_threats_keeps. exact IH.
    + rewrite force_refresh_unfold. apply fetch_all_threats_keeps.
      constructor.
Qed.

End CacheFacts.

(** ** The manager of the repository: four scrapers and the AI processor *)

Section CountFacts.
Context {W : Type} `{Env W}.
Variable scrapers : list (string * (Z -> M W (list threat))).
Variable enrich_threat : threat -> M W threat.

Import ThreatIntelligenceManager.

(** The sources return at most [bound] threats each. *)
Variable limit : Z.
Variable bound : nat.
Hypothesis scrapers_bound :
  forall name scraper w threats,
    In (name, scraper) scrapers ->
    fst (scraper limit w) = Returns threats -> List.length threats <= bound.

Lemma fetch_source_count use_ai name scraper all_threats (s : state W) :
  In (name, scraper) scrapers ->
  exists out s',
    fetch_source enrich_threat limit use_ai (name, scraper) all_threats s
      = (Returns out, s')
    /\ List.length out <= List.length all_threats + bound.
Proof.
  intros Hin.
  unfold ThreatIntelligenceManager.fetch_source, try_except, bind.
  destruct (call_fetch_threats_run name scraper limit s)
    as (r & w1 & Hscraper & Hcall).
  rewrite Hcall. destruct r as [threats|err].
  - assert (Hthreats : List.length threats <= bound).
    { apply (scrapers_bound name scraper (world s)); [exact Hin|].
      rewrite Hscraper. reflexivity. }
    destruct (use_ai && Py.nonempty threats) eqn:Hai.
    + destruct (enrich_all_spec enrich_threat threats
                  (mk_state (self s) w1
                     (calls s ++ [Fetched name limit (Returns threats)])))
        as (out & w2 & Hrun & Houts).
      rewrite Hrun. eexists _, _. split; [reflexivity|].
      rewrite length_app. pose proof (Forall2_length Houts) as Hlen.
      unfold Dict in *. lia.
    + eexists _, _. split; [reflexivity|]. rewrite length_app. lia.
  - eexists _, _. split; [reflexivity|]. lia.
Qed.

Lemma fan_out_count use_ai (s : state W) :
  exists out s',
    for_each scrapers (fetch_source enrich_threat limit use_ai) [] s
      = (Returns out, s')
    /\ List.length out <= List.length scrapers * bound.
Proof.
  assert (Hgen : forall registry,
            incl registry scrapers ->
            forall acc s0,
            exists out s',
              for_each registry
                (fetch_source enrich_threat limit use_ai) acc s0
                = (Returns out, s')
              /\ List.length out
                 <= List.length acc + List.length registry * bound).
  { induction registry as [|[name scraper] rest IH]; intros Hincl acc s0.
    - exists acc, s0. split; [reflexivity | simpl; lia].
    - destruct (fetch_source_count use_ai name scraper acc s0)
        as (acc1 & s1 & Hrun & Hacc1); [apply Hincl; left; reflexivity|].
      destruct (IH (fun x Hx => Hincl x (or_intror Hx)) acc1 s1)
        as (out & s' & Hloop & Hout).
      exists out, s'. split.
      + simpl for_each. erewrite bind_returns by exact Hrun. exact Hloop.
      + simpl List.length. lia. }
  destruct (Hgen scrapers (incl_refl _) [] s) as (out & s' & Hrun & Hout).
  exists out, s'. split; [exact Hrun | exact Hout].
Qed.

(** A refresh returns at most [bound] threats for each registered source. *)
Lemma refresh_count use_ai (s : state W) :
  fst (_is_cache_valid s) = Returns false ->
  exists l s',
    fetch_all_threats scrapers enrich_threat limit use_ai s = (Returns l, s')
    /\ threat_cache (self s') = l
    /\ List.length l <= List.length scrapers * bound.
Proof.
  intros Hinvalid.
  destruct (fetch_all_threats_spec scrapers enrich_threat limit use_ai s)
    as (valid & w0 & Hvalid & Hrun).
  rewrite Hvalid in Hinvalid. cbn [fst] in Hinvalid.
  injection Hinvalid as Hv. subst valid.
  destruct Hrun as (out & evs & w1 & Hloop & Hall & _).
  eexists _, _. split; [exact Hall|]. split; [reflexivity|].
  destruct (fan_out_count use_ai (mk_state (self s) w0 (calls s)))
    as (out' & s' & Hloop' & Hout).
  rewrite Hloop in Hloop'. injection Hloop' as <- _.
  rewrite <- (Permutation_length (sort_desc_perm out)). exact Hout.
Qed.

End CountFacts.

Section RepositoryFacts.
Context {W : Type} `{Env W} `{PySet} {U : Unicode}.
Variable client : bool.

Import ThreatIntelligenceManager.

(** For a limit that is not negative, no registered scraper returns more
    threats than the limit. *)
Lemma registered_scraper_length (name : string)
    (scraper : Z -> M W (list threat)) (limit : Z) (w : W) threats :
  In (name, scraper) registered_scrapers ->
  (0 <= limit)%Z ->
  fst (scraper limit w) = Returns threats ->
  List.length threats <= Z.to_nat limit.
Proof.
  unfold registered_scrapers.
  intros [Heq | [Heq | [Heq | [Heq | []]]]] Hlimit Hrun;
    injection Heq as <- <-.
  - destruct (cisa_fetch_from_rss_spec limit w)
      as (found & w' & Hrss & _ & Hbuilt).
    rewrite cisa_fetch_threats_is_rss, Hrss in Hrun. cbn [fst] in Hrun.
    injection Hrun as <-.
    destruct (fst (feedparser_parse CISAScraper.alerts_feed w))
      as [entries|err].
    + pose proof (Forall2_length Hbuilt) as Hlen.
      pose proof (slice_to_length limit entries Hlimit). lia.
    + subst found. simpl. lia.
  - destruct (certin_fetch_threats_run limit w)
      as (fb & w' & _ & _ & Hfetch).
    rewrite Hfetch in Hrun. cbn [fst] in Hrun. injection Hrun as <-.
    apply slice_to_length. exact Hlimit.
  - destruct (fbi_fetch_threats_run limit w)
      as (fb & w' & _ & _ & Hfetch).
    rewrite Hfetch in Hrun. cbn [fst] in Hrun. injection Hrun as <-.
    apply slice_to_length. exact Hlimit.
  - destruct (bleeping_fetch_threats_spec limit w)
      as (found & w1 & result & w' & _ & Hbuilt & Hfetch & _ & Hresult).
    rewrite Hfetch in Hrun. cbn [fst] in Hrun. injection Hrun as <-.
    destruct found as [|t found].
    + destruct Hresult as (fallback & _ & ->).
      apply slice_to_length. exact Hlimit.
    + subst result.
      destruct (fst (feedparser_parse BleepingComputerScraper.rss_feed w))
        as [entries|err]; [|discriminate].
      pose proof (Forall2_length Hbuilt) as Hlen.
      pose proof (slice_to_length limit entries Hlimit) as Hcut.
      pose proof (filter_length_le
                    (fun e => BleepingComputerScraper._is_security_related
                                (get (e_title e) ""))
                    (Py.slice_to limit entries)) as Hkept.
      lia.
Qed.

(** Enrichment keeps a threat well formed. *)
Lemma enrich_threat_well_formed name (t enriched : threat) (w : W) :
  well_formed name t ->
  fst (AIThreatProcessor.enrich_threat client t w) = Returns enriched ->
  well_formed name enriched.
Proof.
  intros Hwf Hrun.
  destruct (enrich_threat_run client t w)
    as (summary & found & systems & recs & w' & Henrich & _).
  rewrite Henrich in Hrun. cbn [fst] in Hrun. injection Hrun as <-.
  exact Hwf.
Qed.

(** X19. With the four registered scrapers, a refresh asked for [limit]
    threats from each source, [limit] not negative, returns and caches at
    most four times [limit] threats, whatever the feeds hold and with or
    without enrichment. *)
Theorem refresh_within_four_limits (enrich_threat : threat -> M W threat)
    limit use_ai (s : state W) :
  (0 <= limit)%Z ->
  fst (_is_cache_valid s) = Returns false ->
  exists l s',
    fetch_all_threats registered_scrapers enrich_threat limit use_ai s
      = (Returns l, s')
    /\ threat_cache (self s') = l
    /\ List.length l <= 4 * Z.to_nat limit.
Proof.
  intros Hlimit Hinvalid.
  apply (refresh_count registered_scrapers enrich_threat limit
           (Z.to_nat limit)); [|exact Hinvalid].
  intros name scraper w threats Hin Hrun.
  exact (registered_scraper_length name scraper limit w threats
           Hin Hlimit Hrun).
Qed.

(** Every cached threat of the repository's manager is well formed. *)
Lemma cache_well_formed (s : state W) :
  reachable registered_scrapers (AIThreatProcessor.enrich_threat client) s ->
  Forall (fun t => exists name,
                     In name (map fst (registered_scrapers (W := W)))
                     /\ well_formed name t)
         (threat_cache (self s)).
Proof.
  apply reachable_cache_keeps.
  - intros name scraper limit w threats Hin Hrun.
    destruct (registered_scraper_run name scraper limit w Hin)
      as (l & w' & Hscraper & Hwf).
    rewrite Hscraper in Hrun. cbn [fst] in Hrun. injection Hrun as <-.
    apply Forall_forall. intros t Ht. exists name. split.
    + apply in_map_iff. exists (name, scraper). split; [reflexivity|exact Hin].
    + exact (proj1 (Forall_forall _ _) Hwf t Ht).
  - intros t w enriched (name & Hname & Hwf) Hrun. exists name.
    split; [exact Hname|].
    exact (enrich_threat_well_formed name t enriched w Hwf Hrun).
Qed.

(** X20. In the manager of the repository, after any calls of its public
    methods, every cached threat is a well-formed threat of one of the four
    registered sources: it has the nine raw keys, one of the four
    severities and at most five tags. *)
Theorem cache_holds_well_formed_threats (s : state W) :
  reachable registered_scrapers (AIThreatProcessor.enrich_threat client) s ->
  Forall (fun t => exists name,
                     In name (map fst (registered_scrapers (W := W)))
                     /\ well_formed name t)
         (threat_cache (self s)).
Proof.
  apply reachable_cache_keeps.
  - intros name scraper limit w threats Hin Hrun.
    destruct (registered_scraper_run name scraper limit w Hin)
      as (l & w' & Hscraper & Hwf).
    rewrite Hscraper in Hrun. cbn [fst] in Hrun. injection Hrun as <-.
    apply Forall_forall. intros t Ht. exists name. split.
    + apply in_map_iff. exists (name, scraper). split; [reflexivity|exact Hin].
    + exact (proj1 (Forall_forall _ _) Hwf t Ht).
  - intros t w enriched (name & Hname & Hwf) Hrun. exists name.
    split; [exact Hname|].
    exact (enrich_threat_well_formed name t enriched w Hwf Hrun).
Qed.

End RepositoryFacts.

(** ** The summary of the repository's manager *)

Lemma filter_all {A : Type} (p : A -> bool) (l : list A) :
  (forall x, In x l -> p x = true) -> filter p l = l.
Proof.
  induction l as [|x l IH]; intros Hall; simpl.
  - reflexivity.
  - rewrite (Hall x (or_introl eq_refl)). f_equal.
    apply IH. intros y Hy. apply Hall. right. exact Hy.
Qed.

Lemma severity_level_recognised (sev : string) :
  In sev severity_levels ->
  Py.list_in (Py.lower sev) severity_levels = true.
Proof.
  intros [<- | [<- | [<- | [<- | []]]]]; reflexivity.
Qed.

Section RepositorySummary.
Context {W : Type} `{Env W} `{PySet} {U : Unicode} `{Datetime}.
Variable client : bool.

Import ThreatIntelligenceManager.

(** The keys of [source_counts] are sources of counted threats. *)
Lemma count_threats_sources (recent_threshold : Z) (cache : list threat) :
  forall name,
    In name
      (map fst
         (source_counts
            (fold_left (count_threat recent_threshold) cache
               initial_counters))) ->
    exists t, In t cache /\ get (source t) "Unknown" = name.
Proof.
  apply (fold_left_invariant (count_threat recent_threshold)
           (fun visited counted =>
              forall name,
                In name (map fst (source_counts counted)) ->
                exists t, In t visited /\ get (source t) "Unknown" = name)).
  - intros visited acc t IH name.
    unfold count_threat. cbv zeta. cbn [source_counts].
    rewrite dict_set_keys.
    destruct (Py.dict_has (source_counts acc) (get (source t) "Unknown")).
    + intros Hin. destruct (IH name Hin) as (t0 & Ht0 & Hname).
      exists t0. split; [apply in_or_app; left; exact Ht0 | exact Hname].
    + intros Hin. apply in_app_or in Hin. destruct Hin as [Hin | [<- | []]].
      * destruct (IH name Hin) as (t0 & Ht0 & Hname).
        exists t0. split; [apply in_or_app; left; exact Ht0 | exact Hname].
      * exists t. split; [apply in_or_app; right; left; reflexivity|].
        reflexivity.
  - intros name [].
Qed.

(** X21. In the manager of the repository, after any calls of its public
    methods, the summary counts every cached threat under one of the four
    severities, so that the severity counts add up to [total_threats], and
    every key of [source_breakdown] is one of the four registered names. *)
Theorem summary_of_repository_manager (s : state W) :
  reachable registered_scrapers (AIThreatProcessor.enrich_threat client) s ->
  exists summary,
    fst (get_threat_summary registered_scrapers
           (AIThreatProcessor.enrich_threat client) s) = Returns summary
    /\ list_sum (map snd (severity_breakdown summary))
       = total_threats summary
    /\ list_sum (map snd (source_breakdown summary))
       = total_threats summary
    /\ incl (map fst (source_breakdown summary))
         ["CISA"; "CERT-IN"; "FBI"; "BleepingComputer"].
Proof.
  intros Hreach.
  destruct (get_threat_summary_spec registered_scrapers
              (AIThreatProcessor.enrich_threat client) s)
    as (minutes & w' & _ & Hrun).
  cbv zeta in Hrun.
  set (s1 := if Py.nonempty (threat_cache (self s)) then s
             else snd (fetch_all_threats registered_scrapers
                         (AIThreatProcessor.enrich_threat client) 10 true s))
    in *.
  assert (Hreach1 : reachable registered_scrapers
                      (AIThreatProcessor.enrich_threat client) s1).
  { subst s1. destruct (Py.nonempty (threat_cache (self s))).
    - exact Hreach.
    - eapply reachable_step; [exact Hreach | apply step_fetch_all]. }
  pose proof (cache_well_formed client s1 Hreach1) as Hwf.
  destruct (count_threats_spec (fst (clock (world s1)) - one_day)
              (threat_cache (self s1)))
    as (_ & _ & Hsevsum & _ & _ & Hsrcsum & _).
  eexists. rewrite Hrun. split; [reflexivity|].
  cbn [severity_breakdown source_breakdown total_threats].
  split; [|split; [exact Hsrcsum|]].
  - rewrite Hsevsum. f_equal. apply filter_all. intros t Ht.
    destruct (proj1 (Forall_forall _ _) Hwf t Ht)
      as (name & _ & _ & _ & _ & _ & (sev & Hsev & Hlevel) & _).
    rewrite Hsev. cbn [get]. apply severity_level_recognised. exact Hlevel.
  - intros name Hin.
    destruct (count_threats_sources _ _ name Hin) as (t & Ht & Hname).
    destruct (proj1 (Forall_forall _ _) Hwf t Ht)
      as (registered & Hregistered & Hsource & _).
    rewrite Hsource in Hname. cbn [get] in Hname. subst name.
    exact Hregistered.
Qed.

End RepositorySummary.

(** ** The endpoints *)

Section EndpointFacts.
Context {W : Type} `{Env W} `{PySet} {U : Unicode} `{ThreatIntelAPI.Host W}.

Import ThreatIntelAPI.

#[local] Abbreviation registered_scrapers :=
  (ThreatIntelligenceManager.registered_scrapers (W := W)).

(** [get_threat_intel_manager] gives the manager that is bound; when none
    is bound it imports the module, and raises what the import raises,
    leaving the globals as they were; when the import succeeds it binds the
    manager that [get_threat_manager] gives, a new one if there was none. *)
Lemma get_threat_intel_manager_spec (sv : server W) :
  match loaded sv with
  | Bound me client =>
      get_threat_intel_manager sv = (Returns (me, client), sv)
  | Unset =>
      match import_threat_manager (server_world sv) with
      | (Raises e, w') =>
          get_threat_intel_manager sv
          = (Raises e, mk_server Unset w' (server_calls sv))
      | (Returns _, w') =>
          get_threat_intel_manager sv
          = (Returns (ThreatIntelligenceManager.__init__,
                      fst (make_client w')),
             mk_server
               (Bound ThreatIntelligenceManager.__init__
                  (fst (make_client w')))
               (snd (make_client w')) (server_calls sv))
      end
  | Created me client =>
      match import_threat_manager (server_world sv) with
      | (Raises e, w') =>
          get_threat_intel_manager sv
          = (Raises e, mk_server (Created me client) w' (server_calls sv))
      | (Returns _, w') =>
          get_threat_intel_manager sv
          = (Returns (me, client),
             mk_server (Bound me client) w' (server_calls sv))
      end
  end.
Proof.
  unfold get_threat_intel_manager.
  destruct sv as [[|me client|me client] w cs]; cbn [loaded server_world
    server_calls].
  - unfold bind, on_world, get_threat_manager, set_threat_manager, ret.
    cbn [loaded server_world server_calls].
    destruct (import_threat_manager w) as [[[]|e] w']; [|reflexivity].
    cbn [loaded server_world server_calls].
    destruct (make_client w') as [client w'']. reflexivity.
  - unfold bind, on_world, get_threat_manager, set_threat_manager, ret.
    cbn [loaded server_world server_calls].
    destruct (import_threat_manager w) as [[[]|e] w']; reflexivity.
  - reflexivity.
Qed.

(** Either way: it raises what the import raised, with no manager bound
    before or after and nothing fetched, or it returns the manager and
    leaves it bound. *)
Lemma get_threat_intel_manager_cases (sv : server W) :
  (exists e w',
     get_threat_intel_manager sv
     = (Raises e, mk_server (loaded sv) w' (server_calls sv))
     /\ fst (import_threat_manager (server_world sv)) = Raises e
     /\ forall me client, loaded sv <> Bound me client)
  \/ (exists object w',
        get_threat_intel_manager sv
        = (Returns object,
           mk_server (Bound (fst object) (snd object)) w' (server_calls sv))).
Proof.
  pose proof (get_threat_intel_manager_spec sv) as Hspec.
  destruct sv as [[|me client|me client] w cs];
    cbn [loaded server_world server_calls] in *.
  - destruct (import_threat_manager w) as [[u|e] w'].
    + right. eexists (_, _), _. exact Hspec.
    + left. exists e, w'. repeat split; [exact Hspec | discriminate].
  - destruct (import_threat_manager w) as [[u|e] w'].
    + right. exists (me, client), w'. exact Hspec.
    + left. exists e, w'. repeat split; [exact Hspec | discriminate].
  - right. exists (me, client), w. exact Hspec.
Qed.

(** A method that does not raise, called on the manager that was got. *)
Lemma call_method_run {A : Type} (object : manager * bool)
    (method : ThreatIntelligenceManager.py (W := W) A) (sv : server W)
    (a : A) (s' : state W) :
  method (mk_state (fst object) (server_world sv) (server_calls sv))
  = (Returns a, s') ->
  call_method object method sv
  = (Returns a, mk_server (Bound (self s') (snd object)) (world s') (calls s')).
Proof. intros Hrun. unfold call_method. rewrite Hrun. reflexivity. Qed.

(** [get_threat_intelligence_feeds] in full, once the manager is got: the
    manager's answer, filtered by severity when one is given, cut to
    [limit]. *)
Lemma feeds_spec source_filter severity_filter limit use_ai
    (sv sv1 : server W) (object : manager * bool) :
  get_threat_intel_manager sv = (Returns object, sv1) ->
  let fetch :=
    if given source_filter
    then fetch_threats_by_source object (get source_filter "") limit use_ai
    else fetch_all_threats object (limit / 4)%Z use_ai in
  let s1 := mk_state (fst object) (server_world sv1) (server_calls sv1) in
  exists fetched,
    fst (fetch s1) = Returns fetched
    /\ let kept :=
         Py.slice_to limit
           (if given severity_filter
            then filter (fun t =>
                           String.eqb (Py.lower (get (severity t) ""))
                             (Py.lower (get severity_filter "")))
                        fetched
            else fetched) in
       get_threat_intelligence_feeds source_filter severity_filter limit
         use_ai sv
       = (Returns
            (Respond
               (mk_feeds_response kept (List.length kept) source_filter
                  severity_filter use_ai)),
          mk_server (Bound (self (snd (fetch s1))) (snd object))
            (world (snd (fetch s1))) (calls (snd (fetch s1)))).
Proof.
  intros Hget. cbv zeta.
  set (fetch := if given source_filter
                then fetch_threats_by_source object (get source_filter "")
                       limit use_ai
                else fetch_all_threats object (limit / 4)%Z use_ai).
  set (s1 := mk_state (fst object) (server_world sv1) (server_calls sv1)).
  assert (Hnever : never_raises fetch).
  { subst fetch. destruct (given source_filter).
    - apply fetch_threats_by_source_never_raises.
    - apply fetch_all_threats_never_raises. }
  destruct (Hnever s1) as [fetched Hfetched].
  exists fetched. split; [exact Hfetched|].
  unfold get_threat_intelligence_feeds.
  apply try_except_returns.
  erewrite bind_returns by exact Hget. fold fetch.
  destruct (fetch s1) as [r s'] eqn:Hrun. cbn [fst snd] in *. subst r.
  erewrite bind_returns by (apply call_method_run; exact Hrun).
  reflexivity.
Qed.

(** When the manager cannot be got the endpoint answers 500. *)
Lemma feeds_without_manager source_filter severity_filter limit use_ai
    (sv sv1 : server W) e :
  get_threat_intel_manager sv = (Raises e, sv1) ->
  get_threat_intelligence_feeds source_filter severity_filter limit use_ai sv
  = (Returns
       (HTTPException 500 "Failed to fetch threat intelligence feeds"),
     sv1).
Proof.
  intros Hget. unfold get_threat_intelligence_feeds, try_except, bind.
  rewrite Hget. reflexivity.
Qed.

(** X22. [get_threat_intelligence_feeds] answers with the error 500 when
    [get_threat_intel_manager] raises, which it does only when no manager
    is bound yet and the import raises; nothing is fetched then and no
    manager is bound.  In every other case it answers with a body: [total]
    is the number of threats in the body; for a limit that is not negative
    it is at most the limit; and when a severity is given, every threat in
    the body has that severity, compared without regard to case. *)
Theorem feeds_endpoint_within_limit source_filter severity_filter limit
    use_ai (sv : server W) :
  exists answer sv',
    get_threat_intelligence_feeds source_filter severity_filter limit
      use_ai sv = (Returns answer, sv')
    /\ match fst (get_threat_intel_manager sv) with
       | Raises e =>
           answer
           = HTTPException 500 "Failed to fetch threat intelligence feeds"
           /\ fst (import_threat_manager (server_world sv)) = Raises e
           /\ (forall me client, loaded sv <> Bound me client)
           /\ loaded sv' = loaded sv
           /\ server_calls sv' = server_calls sv
       | Returns _ =>
           exists body,
             answer = Respond body
             /\ total body = List.length (threats body)
             /\ ((0 <= limit)%Z -> total body <= Z.to_nat limit)
             /\ (given severity_filter = true ->
                 Forall (fun t => Py.lower (get (severity t) "")
                                  = Py.lower (get severity_filter ""))
                        (threats body))
       end
    /\ (forall me client,
          loaded sv = Bound me client ->
          fst (get_threat_intel_manager sv) = Returns (me, client)).
Proof.
  assert (Hbound : forall me client,
            loaded sv = Bound me client ->
            fst (get_threat_intel_manager sv) = Returns (me, client)).
  { intros me client Hloaded.
    pose proof (get_threat_intel_manager_spec sv) as Hspec.
    rewrite Hloaded in Hspec. rewrite Hspec. reflexivity. }
  destruct (get_threat_intel_manager_cases sv)
    as [(e & w' & Hget & Himport & Hunbound) | (object & w' & Hget)].
  - eexists _, _.
    split; [exact (feeds_without_manager _ _ _ _ _ _ _ Hget)|].
    split; [|exact Hbound].
    rewrite Hget. cbn [fst loaded server_calls].
    repeat split; assumption.
  - destruct (feeds_spec source_filter severity_filter limit use_ai _ _ _
                Hget) as (fetched & _ & Hrun).
    cbv zeta in Hrun. eexists _, _. split; [exact Hrun|].
    split; [|exact Hbound]. rewrite Hget. cbn [fst].
    eexists. split; [reflexivity|]. cbn [total threats].
    split; [reflexivity|]. split.
    + intros Hlimit. apply slice_to_length. exact Hlimit.
    + intros Hgiven. rewrite Hgiven. apply Forall_slice_to.
      apply Forall_forall. intros t Ht. apply filter_In in Ht.
      destruct Ht as [_ Heq]. apply String.eqb_eq in Heq. exact Heq.
Qed.

Lemma slice_to_nil {A : Type} (limit : Z) : Py.slice_to limit (@nil A) = [].
Proof. unfold Py.slice_to. destruct (limit <? 0)%Z; apply firstn_nil. Qed.

(** X23. When the manager can be got, a request for a source that is not
    registered is answered with a body that holds no threat and a total of
    0, not with an error; no source is asked, and the server is left as
    [get_threat_intel_manager] left it, so unchanged when the manager was
    bound already. *)
Theorem feeds_unknown_source_is_empty source_name severity_filter limit
    use_ai (sv sv1 : server W) (object : manager * bool) :
  get_threat_intel_manager sv = (Returns object, sv1) ->
  Py.truthy source_name = true ->
  ~ In source_name (map fst registered_scrapers) ->
  get_threat_intelligence_feeds (Some source_name) severity_filter limit
    use_ai sv
  = (Returns
       (Respond
          (mk_feeds_response [] 0 (Some source_name) severity_filter use_ai)),
     sv1)
  /\ (forall me client, loaded sv = Bound me client -> sv1 = sv).
Proof.
  intros Hget Hgiven Hunknown. split.
  - destruct (feeds_spec (Some source_name) severity_filter limit use_ai
                _ _ _ Hget) as (fetched & Hfetched & Hrun).
    cbv zeta in Hrun, Hfetched. cbn [given get] in Hrun, Hfetched.
    rewrite Hgiven in Hrun, Hfetched.
    assert (Hnone :
              fetch_threats_by_source object source_name limit use_ai
                (mk_state (fst object) (server_world sv1) (server_calls sv1))
              = (Returns [],
                 mk_state (fst object) (server_world sv1)
                   (server_calls sv1))).
    { unfold fetch_threats_by_source,
        ThreatIntelligenceManager.fetch_threats_by_source, try_except.
      rewrite (scrapers_get_None registered_scrapers source_name Hunknown).
      reflexivity. }
    rewrite Hnone in Hrun, Hfetched. cbn [fst snd self world calls] in *.
    injection Hfetched as <-. rewrite Hrun.
    assert (Hkept :
              Py.slice_to limit
                (if given severity_filter
                 then filter (fun t : threat =>
                                String.eqb (Py.lower (get (severity t) ""))
                                  (Py.lower (get severity_filter "")))
                             []
                 else []) = []).
    { destruct (given severity_filter); apply slice_to_nil. }
    rewrite Hkept.
    destruct (get_threat_intel_manager_cases sv)
      as [(e & w' & Hraise & _) | (object' & w' & Hret)].
    + rewrite Hraise in Hget. discriminate.
    + rewrite Hret in Hget. injection Hget as <- <-. reflexivity.
  - intros me client Hloaded.
    pose proof (get_threat_intel_manager_spec sv) as Hspec.
    rewrite Hloaded in Hspec. rewrite Hspec in Hget.
    injection Hget as _ <-. reflexivity.
Qed.

(** What [next] finds. *)
Lemma first_with_feed_id_spec (wanted : string) (all_threats : list threat) :
  match first_with_feed_id wanted all_threats with
  | Some t =>
      feed_id t = Some wanted
      /\ exists before after,
           all_threats = before ++ t :: after
           /\ Forall (fun t' => feed_id t' <> Some wanted) before
  | None => Forall (fun t' => feed_id t' <> Some wanted) all_threats
  end.
Proof.
  unfold first_with_feed_id.
  induction all_threats as [|t0 rest IH]; simpl.
  - constructor.
  - destruct (feed_id t0) as [found|] eqn:Hid.
    + destruct (String.eqb found wanted) eqn:Heq.
      * apply String.eqb_eq in Heq. subst found.
        split; [exact Hid|]. exists [], rest. split; [reflexivity|constructor].
      * assert (Hother : feed_id t0 <> Some wanted).
        { rewrite Hid. intros Hsame. injection Hsame as ->.
          rewrite String.eqb_refl in Heq. discriminate. }
        destruct (find _ rest) as [t|].
        -- destruct IH as (Hfound & before & after & -> & Hbefore).
           split; [exact Hfound|]. exists (t0 :: before), after.
           split; [reflexivity|]. constructor; assumption.
        -- constructor; assumption.
    + assert (Hother : feed_id t0 <> Some wanted)
        by (rewrite Hid; discriminate).
      destruct (find _ rest) as [t|].
      * destruct IH as (Hfound & before & after & -> & Hbefore).
        split; [exact Hfound|]. exists (t0 :: before), after.
        split; [reflexivity|]. constructor; assumption.
      * constructor; assumption.
Qed.

(** X24. [get_threat_feed_detail] answers with the error 500 when
    [get_threat_intel_manager] raises, that is when no manager is bound yet
    and the import raises.  In every other case it looks the identifier up
    in what [fetch_all_threats] returns, which is the cache of the manager
    it leaves bound: it answers with the first cached threat that has this
    [feed_id], and with the error 404 when no cached threat has it. *)
Theorem feed_detail_found_or_404 (wanted : string) (sv : server W) :
  exists answer sv',
    get_threat_feed_detail wanted sv = (Returns answer, sv')
    /\ match fst (get_threat_intel_manager sv) with
       | Raises e =>
           answer = HTTPException 500 "Failed to fetch threat feed detail"
           /\ fst (import_threat_manager (server_world sv)) = Raises e
           /\ (forall me client, loaded sv <> Bound me client)
           /\ loaded sv' = loaded sv
       | Returns object =>
           exists me,
             loaded sv' = Bound me (snd object)
             /\ match answer with
                | Respond t =>
                    feed_id t = Some wanted
                    /\ exists before after,
                         threat_cache me = before ++ t :: after
                         /\ Forall (fun t' => feed_id t' <> Some wanted)
                              before
                | HTTPException status_code _ =>
                    status_code = 404%Z
                    /\ Forall (fun t' => feed_id t' <> Some wanted)
                         (threat_cache me)
                end
       end.
Proof.
  destruct (get_threat_intel_manager_cases sv)
    as [(e & w' & Hget & Himport & Hunbound) | (object & w' & Hget)].
  - eexists _, _. split.
    + unfold get_threat_feed_detail, try_except, bind. rewrite Hget.
      reflexivity.
    + rewrite Hget. cbn [fst loaded]. repeat split; assumption.
  - rewrite Hget. cbn [fst].
    destruct (fetch_all_threats_returns_cache registered_scrapers
                (AIThreatProcessor.enrich_threat (snd object)) 10 true
                (mk_state (fst object) w' (server_calls sv)))
      as (l & s' & Hrun & Hcache & _).
    pose proof (first_with_feed_id_spec wanted l) as Hfirst.
    assert (Hcall :
              call_method object (fetch_all_threats object 10 true)
                (mk_server (Bound (fst object) (snd object)) w'
                   (server_calls sv))
              = (Returns l,
                 mk_server (Bound (self s') (snd object)) (world s')
                   (calls s'))).
    { apply call_method_run. exact Hrun. }
    unfold get_threat_feed_detail.
    destruct (first_with_feed_id wanted l) as [t|] eqn:Hfind.
    + exists (Respond t). eexists. split.
      * apply try_except_returns. erewrite bind_returns by exact Hget.
        erewrite bind_returns by exact Hcall. rewrite Hfind. reflexivity.
      * exists (self s'). split; [reflexivity|]. rewrite Hcache.
        exact Hfirst.
    + exists (HTTPException 404 "Threat feed not found"). eexists. split.
      * apply try_except_returns. erewrite bind_returns by exact Hget.
        erewrite bind_returns by exact Hcall. rewrite Hfind. reflexivity.
      * exists (self s'). split; [reflexivity|]. rewrite Hcache.
        split; [reflexivity | exact Hfirst].
Qed.

(** X25. A request for all sources with a limit from 0 to 3 asks each
    source for [limit // 4 = 0] threats.  When the manager can be got and
    its cache is not valid, the answer holds no threat, and the cache of
    the manager is left empty, whatever it held. *)
Theorem feeds_small_limit_empties_cache severity_filter limit use_ai
    (sv sv1 : server W) (object : manager * bool) :
  get_threat_intel_manager sv = (Returns object, sv1) ->
  (0 <= limit < 4)%Z ->
  fst (ThreatIntelligenceManager._is_cache_valid
         (mk_state (fst object) (server_world sv1) (server_calls sv1)))
  = Returns false ->
  exists sv' me,
    get_threat_intelligence_feeds None severity_filter limit use_ai sv
    = (Returns
         (Respond (mk_feeds_response [] 0 None severity_filter use_ai)),
       sv')
    /\ loaded sv' = Bound me (snd object)
    /\ threat_cache me = [].
Proof.
  intros Hget Hlimit Hinvalid.
  destruct (feeds_spec None severity_filter limit use_ai _ _ _ Hget)
    as (fetched & Hfetched & Hrun).
  cbv zeta in Hrun, Hfetched. cbn [given] in Hrun, Hfetched.
  rewrite (Z.div_small limit 4 Hlimit) in Hrun, Hfetched.
  destruct (refresh_count registered_scrapers
              (AIThreatProcessor.enrich_threat (snd object)) 0%Z 0
              (fun name scraper w threats Hin Hscraper =>
                 registered_scraper_length name scraper 0%Z w threats Hin
                   (Z.le_refl 0) Hscraper)
              use_ai
              (mk_state (fst object) (server_world sv1) (server_calls sv1))
              Hinvalid)
    as (l & s' & Hrefresh & Hcache & Hlength).
  unfold fetch_all_threats in Hrun, Hfetched.
  rewrite Hrefresh in Hrun, Hfetched. cbn [fst snd] in Hrun, Hfetched.
  injection Hfetched as <-.
  destruct l as [|t l]; [|simpl in Hlength; lia].
  assert (Hkept :
            Py.slice_to limit
              (if given severity_filter
               then filter (fun t : threat =>
                              String.eqb (Py.lower (get (severity t) ""))
                                (Py.lower (get severity_filter "")))
                           []
               else []) = []).
  { destruct (given severity_filter); apply slice_to_nil. }
  rewrite Hkept in Hrun.
  eexists _, (self s'). split; [exact Hrun|].
  split; [reflexivity | exact Hcache].
Qed.

End EndpointFacts.

(** ** No empty item in an enrichment *)

Lemma Forall_firstn {A : Type} (P : A -> Prop) (n : nat) (l : list A) :
  Forall P l -> Forall P (firstn n l).
Proof.
  intros Hall. apply Forall_forall. intros x Hin.
  apply In_firstn in Hin. exact (proj1 (Forall_forall P l) Hall x Hin).
Qed.

Lemma stripped_lines_truthy (text : string) :
  Forall (fun item => Py.truthy item = true)
         (AIThreatProcessor.stripped_lines text).
Proof.
  unfold AIThreatProcessor.stripped_lines.
  apply (fold_left_invariant
           (fun acc x =>
              if Py.truthy (Py.strip x) then acc ++ [Py.strip x] else acc)
           (fun _ acc => Forall (fun item => Py.truthy item = true) acc)).
  - intros visited acc x Hacc.
    destruct (Py.truthy (Py.strip x)) eqn:Hx; [|exact Hacc].
    apply Forall_app. split; [exact Hacc|]. constructor; [exact Hx|constructor].
  - constructor.
Qed.

Lemma parse_recommendations_truthy (text : string) :
  Forall (fun item => Py.truthy item = true)
         (AIThreatProcessor.parse_recommendations text).
Proof.
  unfold AIThreatProcessor.parse_recommendations.
  apply (fold_left_invariant
           (fun recommendations line =>
              let line := Py.strip line in
              if Py.truthy line
                 && (AIThreatProcessor.starts_with_digit line
                     || String.prefix "-" line
                     || String.prefix Py.bullet line)
              then
                let rec :=
                  Py.strip (AIThreatProcessor.lstrip_numbering
                              (String.length line) line) in
                if Py.truthy rec then recommendations ++ [rec]
                else recommendations
              else recommendations)
           (fun _ acc => Forall (fun item => Py.truthy item = true) acc)).
  - intros visited acc x Hacc. cbv zeta.
    destruct (Py.truthy (Py.strip x) && _); [|exact Hacc].
    destruct (Py.truthy (Py.strip (AIThreatProcessor.lstrip_numbering _ _)))
      eqn:Hrec; [|exact Hacc].
    apply Forall_app. split; [exact Hacc|].
    constructor; [exact Hrec|constructor].
  - constructor.
Qed.

Lemma cve_shaped_truthy {U : Unicode} (m : string) :
  AIThreatProcessor.cve_shaped m -> Py.truthy m = true.
Proof.
  intros (head & year & number & -> & Hhead & _).
  destruct head as [|c head]; [discriminate | reflexivity].
Qed.

Section EnrichmentItems.
Context {W : Type} `{Env W} `{PySet} {U : Unicode}.
Variable client : bool.

Import AIThreatProcessor.

Lemma fallback_iocs_truthy (threat : threat) :
  Forall (fun item => Py.truthy item = true) (_fallback_iocs threat).
Proof.
  apply Forall_forall. intros m Hin.
  apply (proj2 (fallback_iocs_distinct threat)) in Hin.
  apply cve_shaped_truthy.
  exact (proj2 (proj1 (Forall_forall _ _) (findall_from_spec 0 _) m Hin)).
Qed.

Lemma fallback_affected_systems_truthy (threat : threat) :
  Forall (fun item => Py.truthy item = true)
         (_fallback_affected_systems threat).
Proof.
  rewrite fallback_systems_found. cbv zeta.
  destruct (Py.nonempty _).
  - apply Forall_firstn. apply Forall_forall. intros system Hin.
    apply filter_In in Hin. destruct Hin as [Hin _].
    repeat (destruct Hin as [<- | Hin]; [reflexivity|]). destruct Hin.
  - constructor; [reflexivity | constructor].
Qed.

Lemma fallback_recommendations_truthy (threat : threat) :
  Forall (fun item => Py.truthy item = true)
         (_fallback_recommendations threat).
Proof.
  unfold _fallback_recommendations. cbv zeta.
  rewrite (slice_to_firstn 5). apply Forall_firstn.
  destruct (Py.list_in _ _); repeat constructor.
Qed.

(** X26. Whatever the model answers, [enrich_threat] puts no empty string
    among the indicators, the affected systems or the recommendations. *)
Theorem enrichment_items_are_not_empty (threat : threat) (w : W) :
  exists enriched,
    fst (enrich_threat client threat w) = Returns enriched
    /\ Forall (fun item => Py.truthy item = true) (get (iocs enriched) [])
    /\ Forall (fun item => Py.truthy item = true)
              (get (affected_systems enriched) [])
    /\ Forall (fun item => Py.truthy item = true)
              (get (recommendations enriched) []).
Proof.
  destruct (generate_quick_summary_run client threat w)
    as (summary & w1 & H1).
  destruct (extract_iocs_run client threat w1) as (found & w2 & H2 & Hfound).
  destruct (identify_affected_systems_run client threat w2)
    as (systems & w3 & H3 & Hsystems).
  destruct (generate_recommendations_run client threat w3)
    as (recs & w4 & H4 & Hrecs).
  eexists. split.
  - unfold enrich_threat, try_except.
    erewrite bind_returns by exact H1.
    erewrite bind_returns by exact H2.
    erewrite bind_returns by exact H3.
    erewrite bind_returns by exact H4.
    reflexivity.
  - cbn [iocs affected_systems recommendations set_recommendations
         set_affected_systems set_iocs set_quick_summary get].
    split; [|split].
    + destruct Hfound as [-> | [-> | (content & _ & _ & ->)]].
      * apply fallback_iocs_truthy.
      * constructor.
      * apply Forall_firstn. apply stripped_lines_truthy.
    + destruct Hsystems as [-> | [-> | (content & _ & _ & ->)]].
      * apply fallback_affected_systems_truthy.
      * constructor; [reflexivity | constructor].
      * apply Forall_firstn. apply stripped_lines_truthy.
    + destruct Hrecs as [-> | (content & _ & _ & ->)].
      * apply fallback_recommendations_truthy.
      * apply Forall_firstn. apply parse_recommendations_truthy.
Qed.

End EnrichmentItems.

(** ** More runs on concrete inputs *)

(** X9: the FBI source asked for two threats ten minutes after a fetch. *)
Lemma fetch_threats_by_source_registered_witness :
  exists out w',
    Scenario.fetch_threats_by_source false "FBI" 2 false Scenario.fresh =
      (Returns out,
       mk_state (self Scenario.fresh) w'
         (calls Scenario.fresh
            ++ [Fetched "FBI" 2
                  (fst (FBIScraper.fetch_threats 2
                          (world Scenario.fresh)))]))
    /\ ThreatIntelligenceManager.contribution
         (AIThreatProcessor.enrich_threat false) false
         (Fetched "FBI" 2
            (fst (FBIScraper.fetch_threats 2 (world Scenario.fresh))))
         out.
Proof.
  apply (fetch_threats_by_source_registered
           ThreatIntelligenceManager.registered_scrapers
           (AIThreatProcessor.enrich_threat false)
           "FBI" FBIScraper.fetch_threats 2%Z false Scenario.fresh).
  reflexivity.
Defined.

(** X10: the stale cache refreshed with limit 0 gives the empty list; the
    next call asks the four sources again. *)
Lemma empty_result_is_not_cached_witness :
  let s1 := snd (Scenario.fetch_all_threats false 0 true Scenario.stale) in
  exists evs,
    calls (snd (Scenario.fetch_all_threats false 10 true s1))
      = calls s1 ++ evs
    /\ map fetched_source evs
       = map fst (ThreatIntelligenceManager.registered_scrapers
                    (W := Scenario.world))
    /\ Forall (fun ev => fetched_limit ev = 10%Z) evs
    /\ world (snd (ThreatIntelligenceManager._is_cache_valid s1)) = world s1
    /\ evs = fst (ThreatIntelligenceManager.fetches
                    (AIThreatProcessor.enrich_threat false) 10 true
                    ThreatIntelligenceManager.registered_scrapers (world s1))
    /\ exists out,
         fst (Scenario.fetch_all_threats false 10 true s1)
         = Returns (ThreatIntelligenceManager.sort_desc out)
         /\ ThreatIntelligenceManager.merged
              (AIThreatProcessor.enrich_threat false) true evs out.
Proof.
  apply (empty_result_is_not_cached
           ThreatIntelligenceManager.registered_scrapers
           (AIThreatProcessor.enrich_threat false)
           0%Z true 10%Z true Scenario.stale).
  vm_compute. reflexivity.
Defined.

(** X11: what a manager just built fetched is served to the next call. *)
Lemma fetch_all_threats_then_cached_witness :
  let l := match fst (Scenario.fetch_all_threats false 10 true
                        Scenario.started) with
           | Returns l => l
           | Raises _ => []
           end in
  let s1 := snd (Scenario.fetch_all_threats false 10 true Scenario.started) in
  fst (Scenario.fetch_all_threats false 10 true Scenario.started) = Returns l
  /\ Scenario.fetch_all_threats false 5 false s1 =
       (Returns l, mk_state (self s1) (snd (clock (world s1))) (calls s1)).
Proof.
  apply (fetch_all_threats_then_cached
           ThreatIntelligenceManager.registered_scrapers
           (AIThreatProcessor.enrich_threat false)
           10%Z true 5%Z false Scenario.started).
  - vm_compute. discriminate.
  - intros t Ht. vm_compute in Ht. injection Ht as <-.
    vm_compute. reflexivity.
Defined.

(** X12: the refresh of a manager just built. *)
Lemma refresh_keeps_fetch_order_within_date_witness :
  exists l all_threats,
    fst (Scenario.fetch_all_threats false 10 false Scenario.started)
      = Returns l
    /\ ThreatIntelligenceManager.merged
         (AIThreatProcessor.enrich_threat false) false
         (skipn (List.length (calls Scenario.started))
            (calls (snd (Scenario.fetch_all_threats false 10 false
                           Scenario.started))))
         all_threats
    /\ Permutation all_threats l
    /\ forall date,
         filter (fun t => String.eqb
                            (ThreatIntelligenceManager.sort_key t) date) l
         = filter (fun t => String.eqb
                              (ThreatIntelligenceManager.sort_key t) date)
             all_threats.
Proof.
  apply (refresh_keeps_fetch_order_within_date
           ThreatIntelligenceManager.registered_scrapers
           (AIThreatProcessor.enrich_threat false)
           10%Z false Scenario.started).
  reflexivity.
Defined.

(** X19: the stale cache refreshed with two threats from each source. *)
Lemma refresh_within_four_limits_witness :
  exists l s',
    Scenario.fetch_all_threats false 2 true Scenario.stale = (Returns l, s')
    /\ threat_cache (self s') = l
    /\ List.length l <= 4 * Z.to_nat 2.
Proof.
  apply (refresh_within_four_limits
           (AIThreatProcessor.enrich_threat false) 2%Z true Scenario.stale).
  - lia.
  - vm_compute. reflexivity.
Defined.

(** X20: the cache of a manager just built, after its first fetch. *)
Lemma cache_holds_well_formed_threats_witness :
  Forall (fun t => exists name,
                     In name
                       (map fst (ThreatIntelligenceManager.registered_scrapers
                                   (W := Scenario.world)))
                     /\ well_formed name t)
         (threat_cache
            (self (snd (Scenario.fetch_all_threats false 10 true
                          Scenario.started)))).
Proof.
  apply (cache_holds_well_formed_threats false
           (snd (Scenario.fetch_all_threats false 10 true Scenario.started))).
  eapply ThreatIntelligenceManager.reachable_step.
  - apply ThreatIntelligenceManager.reachable_init.
  - apply ThreatIntelligenceManager.step_fetch_all.
Defined.

(** X21: the summary of a manager just built. *)
Lemma summary_of_repository_manager_witness :
  exists summary,
    fst (Scenario.get_threat_summary false Scenario.started)
      = Returns summary
    /\ list_sum (map snd (ThreatIntelligenceManager.severity_breakdown
                            summary))
       = ThreatIntelligenceManager.total_threats summary
    /\ list_sum (map snd (ThreatIntelligenceManager.source_breakdown summary))
       = ThreatIntelligenceManager.total_threats summary
    /\ incl (map fst (ThreatIntelligenceManager.source_breakdown summary))
         ["CISA"; "CERT-IN"; "FBI"; "BleepingComputer"].
Proof.
  apply (summary_of_repository_manager false Scenario.started).
  apply ThreatIntelligenceManager.reachable_init.
Defined.

(** X23: a source that is not registered, asked of a server whose manager
    is bound. *)
Lemma feeds_unknown_source_is_empty_witness :
  ThreatIntelAPI.get_threat_intelligence_feeds (Some "NVD") None 20 true
    (Scenario.serving_at (600 * 1000000))
  = (Returns
       (ThreatIntelAPI.Respond
          (ThreatIntelAPI.mk_feeds_response [] 0 (Some "NVD") None true)),
     Scenario.serving_at (600 * 1000000)).
Proof.
  refine (proj1 (feeds_unknown_source_is_empty "NVD" None 20%Z true
                   (Scenario.serving_at (600 * 1000000))
                   (Scenario.serving_at (600 * 1000000))
                   (mk_manager
                      [Scenario.ransomware_alert; Scenario.chrome_alert]
                      (Some 0%Z), false) _ _ _)).
  - reflexivity.
  - reflexivity.
  - simpl. intros [Hin | [Hin | [Hin | [Hin | []]]]]; discriminate.
Defined.

(** X25: three threats asked from all sources, two hours after the fetch
    of the two alerts. *)
Lemma feeds_small_limit_empties_cache_witness :
  exists sv' me,
    ThreatIntelAPI.get_threat_intelligence_feeds None None 3 true
      (Scenario.serving_at (7200 * 1000000))
    = (Returns
         (ThreatIntelAPI.Respond
            (ThreatIntelAPI.mk_feeds_response [] 0 None None true)),
       sv')
    /\ ThreatIntelAPI.loaded sv' = ThreatIntelAPI.Bound me false
    /\ threat_cache me = [].
Proof.
  apply (feeds_small_limit_empties_cache None 3%Z true
           (Scenario.serving_at (7200 * 1000000))
           (Scenario.serving_at (7200 * 1000000))
           (mk_manager [Scenario.ransomware_alert; Scenario.chrome_alert]
              (Some 0%Z), false)).
  - reflexivity.
  - lia.
  - vm_compute. reflexivity.
Defined.

(** The first request to a server just started.  When the import of the
    manager fails the answer is the error 500 and no manager is bound; when
    it succeeds the manager is built and bound, and the answer holds the
    fallback items of the three sources that have some. *)
Example first_request_builds_the_manager :
  @ThreatIntelAPI.get_threat_intelligence_feeds Scenario.world
     Scenario.scenario_env Scenario.scenario_set Scenario.scenario_unicode
     Scenario.broken_host None None 20 true Scenario.booted
  = (Returns
       (ThreatIntelAPI.HTTPException 500
          "Failed to fetch threat intelligence feeds"),
     Scenario.booted)
  /\ exists body sv' me,
       ThreatIntelAPI.get_threat_intelligence_feeds None None 20 true
         Scenario.booted
       = (Returns (ThreatIntelAPI.Respond body), sv')
       /\ ThreatIntelAPI.total body = 13
       /\ ThreatIntelAPI.loaded sv' = ThreatIntelAPI.Bound me false
       /\ threat_cache me = ThreatIntelAPI.threats body.
Proof.
  split; [vm_compute; reflexivity|].
  eexists _, _, _. split; [vm_compute; reflexivity|].
  split; [|split]; vm_compute; reflexivity.
Qed.
